(** * balatro_env: action codec, legality mask, featurizer and episode controller

    A shallow embedding of [balatro_env/action_space.py],
    [balatro_env/obs_tokenizer.py] and [balatro_env/env.py], together with
    the properties of the translation layer between the bridge's structured
    actions and states and the fixed-shape RL interface.

    Python integers are [Z], Python floats are binary64 primitive floats,
    dictionaries are [gmap]s, lists that are updated by index use stdpp's
    list lookup and insert with Python's bounds check written out, and code
    that can raise returns a [result]. *)

From Stdlib Require Import ZArith Lia Bool List String Ascii.
From Stdlib Require Import Floats SpecFloat.
From stdpp Require Import base option list gmap strings.

Set Warnings "-register-all,-inexact-float".

Local Open Scope string_scope.
Local Open Scope Z_scope.

(** ** Python values, exceptions and the error monad *)

(** The exceptions the modelled code can raise. [BalatroConnectionError] is
    the bridge client's own exception (client.py) and carries its message. *)
Inductive exn : Type :=
| ValueError
| KeyError
| TypeError
| AttributeError
| IndexError
| OverflowError
| ZeroDivisionError
| BalatroConnectionError (msg : string).

Inductive result (A : Type) : Type :=
| Ok (a : A)
| Raise (e : exn).
Arguments Ok {A} a.
Arguments Raise {A} e.

#[global] Instance result_ret : MRet result := fun A a => Ok a.
#[global] Instance result_bind : MBind result := fun A B k r =>
  match r with
  | Ok a => k a
  | Raise e => Raise e
  end.

Definition succeeds {A} (r : result A) : bool :=
  match r with Ok _ => true | Raise _ => false end.

(** Monadic left fold: a [for] loop whose body can raise. *)
Fixpoint foldM {A S} (body : S -> A -> result S) (s : S) (l : list A)
  : result S :=
  match l with
  | [] => Ok s
  | x :: xs => s' ← body s x; foldM body s' xs
  end.

(** The dynamically typed values that occur in the [dict[str, Any]] fields
    of the schemas: JSON integers, strings, lists and null. *)
Inductive pyval : Type :=
| PyNone
| PyInt (z : Z)
| PyStr (s : string)
| PyList (l : list pyval).

(** [d.get(key, default)] *)
Definition dict_get (d : gmap string pyval) (key : string) (default : pyval)
  : pyval :=
  match d !! key with
  | Some v => v
  | None => default
  end.

(** [d[key]], raising [KeyError] on a missing key. *)
Definition dict_getitem {V} (d : gmap string V) (key : string) : result V :=
  match d !! key with
  | Some v => Ok v
  | None => Raise KeyError
  end.

(** [range(lo, hi)] over integers. *)
Definition range (lo hi : Z) : list Z :=
  map (fun k => lo + Z.of_nat k) (seq 0 (Z.to_nat (hi - lo))).

(** Iterating a value: lists yield their items, strings their characters,
    anything else is not iterable. *)
Definition chars (s : string) : list pyval :=
  map (fun c => PyStr (String c EmptyString)) (list_ascii_of_string s).

Definition py_iter (v : pyval) : result (list pyval) :=
  match v with
  | PyList l => Ok l
  | PyStr s => Ok (chars s)
  | _ => Raise TypeError
  end.

(** [len(v)] *)
Definition py_len (v : pyval) : result Z :=
  match v with
  | PyList l => Ok (Z.of_nat (length l))
  | PyStr s => Ok (Z.of_nat (String.length s))
  | _ => Raise TypeError
  end.

(** A value used where the code needs an integer operand. *)
Definition as_int (v : pyval) : result Z :=
  match v with
  | PyInt z => Ok z
  | _ => Raise TypeError
  end.

(** [lst[i] = v]: negative indices count from the end, anything outside
    the list raises [IndexError]. *)
Definition list_setitem {A} (l : list A) (i : Z) (v : A) : result (list A) :=
  let n := Z.of_nat (length l) in
  if (0 <=? i) && (i <? n) then Ok (<[Z.to_nat i := v]> l)
  else if (- n <=? i) && (i <? 0) then Ok (<[Z.to_nat (n + i) := v]> l)
  else Raise IndexError.

(** [lst[i]] *)
Definition list_getitem {A} (l : list A) (i : Z) : result A :=
  let n := Z.of_nat (length l) in
  let j := if i <? 0 then n + i else i in
  if j <? 0 then Raise IndexError
  else match l !! Z.to_nat j with
       | Some v => Ok v
       | None => Raise IndexError
       end.

(** [s.upper()] on the ASCII letters. *)
Definition upper_ascii (c : ascii) : ascii :=
  let n := nat_of_ascii c in
  if (Nat.leb 97 n && Nat.leb n 122)%bool then ascii_of_nat (n - 32) else c.

Fixpoint upper (s : string) : string :=
  match s with
  | EmptyString => EmptyString
  | String c s' => String (upper_ascii c) (upper s')
  end.

(** [itertools.combinations(pool, r)] for [r >= 0], in the order the
    iterator yields them (lexicographic in the positions of the pool). *)
Fixpoint combinations_nat {A} (pool : list A) (r : nat) : list (list A) :=
  match r with
  | O => [[]]
  | S r' =>
      match pool with
      | [] => []
      | x :: xs => (map (cons x) (combinations_nat xs r') ++ combinations_nat xs r)%list
      end
  end.

(** [combinations] raises [ValueError] on a negative [r]. *)
Definition combinations {A} (pool : list A) (r : Z) : result (list (list A)) :=
  if r <? 0 then Raise ValueError else Ok (combinations_nat pool (Z.to_nat r)).

(** ** schemas.py: the action vocabulary *)

Inductive ActionType : Type :=
| PLAY_HAND | DISCARD | SORT_HAND | SHOP_BUY | SHOP_REROLL | SHOP_SELL_JOKER
| SHOP_END | SELECT_BLIND | SKIP_BLIND | SELECT_PACK_ITEM | SKIP_PACK.

(** [ActionType.X.value] *)
Definition ActionType_value (t : ActionType) : string :=
  match t with
  | PLAY_HAND => "PLAY_HAND"
  | DISCARD => "DISCARD"
  | SORT_HAND => "SORT_HAND"
  | SHOP_BUY => "SHOP_BUY"
  | SHOP_REROLL => "SHOP_REROLL"
  | SHOP_SELL_JOKER => "SHOP_SELL_JOKER"
  | SHOP_END => "SHOP_END"
  | SELECT_BLIND => "SELECT_BLIND"
  | SKIP_BLIND => "SKIP_BLIND"
  | SELECT_PACK_ITEM => "SELECT_PACK_ITEM"
  | SKIP_PACK => "SKIP_PACK"
  end.

(** The [type] attribute of a request or legal action: the codec accepts
    both an [ActionType] member and a plain string
    ([action.type.value if isinstance(action.type, ActionType) else action.type]). *)
Inductive type_field : Type :=
| Enum (t : ActionType)
| Raw (s : string).

Definition type_name (t : type_field) : string :=
  match t with
  | Enum t => ActionType_value t
  | Raw s => s
  end.

(** [ActionRequest]: a tag and a loosely typed parameter dictionary. *)
Record ActionRequest : Type := mkActionRequest {
  type : type_field;
  params : gmap string pyval
}.

(** [ActionParams] of a legal action. *)
Record ActionParams : Type := mkActionParams {
  card_indices : option (gmap string pyval);
  mode : option (list string);
  slot : option Z;
  cost : option Z;
  joker_index : option Z;
  sell_value : option Z;
  options : option (list string);
  choice_index : option Z
}.

Record LegalAction : Type := mkLegalAction {
  la_type : type_field;
  description : string;
  la_params : ActionParams
}.

(** [GamePhase]; unrecognized raw values collapse to [UNKNOWN] when a
    snapshot is parsed ([GamePhase._missing_]). *)
Inductive GamePhase : Type :=
| MENU | SPLASH | SELECTING_HAND | HAND_PLAYED | DRAW_TO_HAND | BLIND_SELECT
| SHOP | PACK_OPENING | UNKNOWN.

#[global] Instance GamePhase_eq_dec : EqDecision GamePhase.
Proof. solve_decision. Defined.

Record LegalActions : Type := mkLegalActions {
  legal_schema_version : string;
  legal_phase : GamePhase;
  actions : list LegalAction;
  legal_error : option string
}.

(** Truthiness of an optional dictionary and of an optional integer
    ([if params and params.card_indices], [if params and params.slot]); the
    [params] object itself is a model instance and always truthy. *)
Definition truthy_dict (d : option (gmap string pyval))
  : option (gmap string pyval) :=
  match d with
  | Some m => if Nat.eqb (size m) 0 then None else Some m
  | None => None
  end.

Definition truthy_int (z : option Z) : option Z :=
  match z with
  | Some v => if v =? 0 then None else Some v
  | None => None
  end.

(** ** action_space.py: [ActionEncoder] *)

Module ActionEncoder.

Definition MAX_HAND_SIZE : Z := 10.
Definition MAX_JOKERS : Z := 5.
Definition MAX_SHOP_SLOTS : Z := 6.
Definition MAX_PACK_CHOICES : Z := 5.

(** [_build_action_space] *)
Definition simple_actions : gmap string Z :=
  list_to_map
    [ ("SHOP_REROLL", 0); ("SHOP_END", 1); ("SKIP_BLIND", 2);
      ("SKIP_PACK", 3); ("SORT_HAND_RANK", 4); ("SORT_HAND_SUIT", 5) ].

Definition play_hand_offset : Z := 10.
Definition discard_offset : Z := play_hand_offset + 1024.
Definition shop_buy_offset : Z := discard_offset + 1024.
Definition sell_joker_offset : Z := shop_buy_offset + MAX_SHOP_SLOTS.
Definition pack_select_offset : Z := sell_joker_offset + MAX_JOKERS.
Definition blind_select_offset : Z := pack_select_offset + MAX_PACK_CHOICES.
Definition action_space_size : Z := blind_select_offset + 3.

Definition get_action_space_size : Z := action_space_size.

(** [card_indices_to_bitmap]: positions outside [1..MAX_HAND_SIZE] are
    skipped; comparing a non-integer item with [1] raises [TypeError]. *)
Definition card_indices_to_bitmap (indices : list pyval) : result Z :=
  foldM (fun bitmap idx =>
           i ← as_int idx;
           if (1 <=? i) && (i <=? MAX_HAND_SIZE)
           then Ok (Z.lor bitmap (Z.shiftl 1 (i - 1)))
           else Ok bitmap)
        0 indices.

(** [bitmap_to_card_indices] *)
Definition bitmap_to_card_indices (bitmap : Z) : list Z :=
  fold_left (fun indices i =>
               if Z.land bitmap (Z.shiftl 1 i) =? 0 then indices
               else (indices ++ [i + 1])%list)
            (range 0 MAX_HAND_SIZE) [].

Definition request (t : ActionType) (p : gmap string pyval) : ActionRequest :=
  {| type := Enum t; params := p |}.

(** [encode_action] *)
Definition encode_action (action : ActionRequest) : result Z :=
  let action_type := type_name (type action) in
  if String.eqb action_type "SHOP_REROLL" then
    dict_getitem simple_actions "SHOP_REROLL"
  else if String.eqb action_type "SHOP_END" then
    dict_getitem simple_actions "SHOP_END"
  else if String.eqb action_type "SKIP_BLIND" then
    dict_getitem simple_actions "SKIP_BLIND"
  else if String.eqb action_type "SKIP_PACK" then
    dict_getitem simple_actions "SKIP_PACK"
  else if String.eqb action_type "SORT_HAND" then
    match dict_get (params action) "mode" (PyStr "rank") with
    | PyStr mode => dict_getitem simple_actions ("SORT_HAND_" ++ upper mode)
    | _ => Raise AttributeError
    end
  else if String.eqb action_type "PLAY_HAND" then
    indices ← py_iter (dict_get (params action) "card_indices" (PyList []));
    bitmap ← card_indices_to_bitmap indices;
    Ok (play_hand_offset + bitmap)
  else if String.eqb action_type "DISCARD" then
    indices ← py_iter (dict_get (params action) "card_indices" (PyList []));
    bitmap ← card_indices_to_bitmap indices;
    Ok (discard_offset + bitmap)
  else if String.eqb action_type "SHOP_BUY" then
    slot ← as_int (dict_get (params action) "slot" (PyInt 1));
    Ok (shop_buy_offset + slot - 1)
  else if String.eqb action_type "SHOP_SELL_JOKER" then
    joker_idx ← as_int (dict_get (params action) "joker_index" (PyInt 1));
    Ok (sell_joker_offset + joker_idx - 1)
  else if String.eqb action_type "SELECT_PACK_ITEM" then
    choice_idx ← as_int (dict_get (params action) "choice_index" (PyInt 1));
    Ok (pack_select_offset + choice_idx - 1)
  else if String.eqb action_type "SELECT_BLIND" then
    let options : gmap string Z :=
      list_to_map [("small", 0); ("big", 1); ("boss", 2)] in
    match dict_get (params action) "option" (PyStr "small") with
    | PyStr option => Ok (blind_select_offset + default 0 (options !! option))
    | PyList _ => Raise TypeError
    | _ => Ok (blind_select_offset + 0)
    end
  else Raise ValueError.

(** [decode_action] *)
Definition decode_action (action_idx : Z) : result ActionRequest :=
  k0 ← dict_getitem simple_actions "SHOP_REROLL";
  if action_idx =? k0 then Ok (request SHOP_REROLL ∅) else
  k1 ← dict_getitem simple_actions "SHOP_END";
  if action_idx =? k1 then Ok (request SHOP_END ∅) else
  k2 ← dict_getitem simple_actions "SKIP_BLIND";
  if action_idx =? k2 then Ok (request SKIP_BLIND ∅) else
  k3 ← dict_getitem simple_actions "SKIP_PACK";
  if action_idx =? k3 then Ok (request SKIP_PACK ∅) else
  k4 ← dict_getitem simple_actions "SORT_HAND_RANK";
  if action_idx =? k4 then
    Ok (request SORT_HAND {["mode" := PyStr "rank"]}) else
  k5 ← dict_getitem simple_actions "SORT_HAND_SUIT";
  if action_idx =? k5 then
    Ok (request SORT_HAND {["mode" := PyStr "suit"]}) else
  if (play_hand_offset <=? action_idx) && (action_idx <? discard_offset) then
    let bitmap := action_idx - play_hand_offset in
    let indices := bitmap_to_card_indices bitmap in
    Ok (request PLAY_HAND {["card_indices" := PyList (PyInt <$> indices)]})
  else if (discard_offset <=? action_idx) && (action_idx <? shop_buy_offset) then
    let bitmap := action_idx - discard_offset in
    let indices := bitmap_to_card_indices bitmap in
    Ok (request DISCARD {["card_indices" := PyList (PyInt <$> indices)]})
  else if (shop_buy_offset <=? action_idx) && (action_idx <? sell_joker_offset) then
    let slot := action_idx - shop_buy_offset + 1 in
    Ok (request SHOP_BUY {["slot" := PyInt slot]})
  else if (sell_joker_offset <=? action_idx) && (action_idx <? pack_select_offset) then
    let joker_idx := action_idx - sell_joker_offset + 1 in
    Ok (request SHOP_SELL_JOKER {["joker_index" := PyInt joker_idx]})
  else if (pack_select_offset <=? action_idx) && (action_idx <? blind_select_offset) then
    let choice_idx := action_idx - pack_select_offset + 1 in
    Ok (request SELECT_PACK_ITEM {["choice_index" := PyInt choice_idx]})
  else if (blind_select_offset <=? action_idx) && (action_idx <? action_space_size) then
    let options := ["small"; "big"; "boss"] in
    let option_idx := action_idx - blind_select_offset in
    option ← list_getitem options option_idx;
    Ok (request SELECT_BLIND {["option" := PyStr option]})
  else Raise ValueError.

(** The body shared by the PLAY_HAND and DISCARD branches of
    [get_legal_action_mask], which differ only in the region offset: every
    combination of the available positions of each permitted size is turned
    into its bitmap and marked. *)
Definition mark_combinations (offset : Z) (ci : gmap string pyval)
    (hand_size : Z) (mask : list bool) : result (list bool) :=
  let available :=
    dict_get ci "available" (PyList (PyInt <$> range 1 (hand_size + 1))) in
  let min_select := dict_get ci "min_select" (PyInt 1) in
  let max_select := dict_get ci "max_select" (PyInt 5) in
  n ← py_len available;
  hi ← as_int max_select;
  lo ← as_int min_select;
  pool ← py_iter available;
  foldM (fun mask size =>
           combos ← combinations pool size;
           foldM (fun mask combo =>
                    bitmap ← card_indices_to_bitmap combo;
                    list_setitem mask (offset + bitmap) true)
                 mask combos)
        mask (range lo (Z.min hi n + 1)).

(** One iteration of the loop of [get_legal_action_mask]. *)
Definition mask_action (hand_size : Z) (mask : list bool) (action : LegalAction)
  : result (list bool) :=
  let action_type := type_name (la_type action) in
  let params := la_params action in
  if String.eqb action_type "SHOP_REROLL" then
    k ← dict_getitem simple_actions "SHOP_REROLL"; list_setitem mask k true
  else if String.eqb action_type "SHOP_END" then
    k ← dict_getitem simple_actions "SHOP_END"; list_setitem mask k true
  else if String.eqb action_type "SKIP_BLIND" then
    k ← dict_getitem simple_actions "SKIP_BLIND"; list_setitem mask k true
  else if String.eqb action_type "SKIP_PACK" then
    k ← dict_getitem simple_actions "SKIP_PACK"; list_setitem mask k true
  else if String.eqb action_type "SORT_HAND" then
    k ← dict_getitem simple_actions "SORT_HAND_RANK";
    mask ← list_setitem mask k true;
    k ← dict_getitem simple_actions "SORT_HAND_SUIT";
    list_setitem mask k true
  else if String.eqb action_type "PLAY_HAND" then
    match truthy_dict (card_indices params) with
    | Some ci => mark_combinations play_hand_offset ci hand_size mask
    | None => Ok mask
    end
  else if String.eqb action_type "DISCARD" then
    match truthy_dict (card_indices params) with
    | Some ci => mark_combinations discard_offset ci hand_size mask
    | None => Ok mask
    end
  else if String.eqb action_type "SHOP_BUY" then
    match truthy_int (slot params) with
    | Some slot =>
        if (1 <=? slot) && (slot <=? MAX_SHOP_SLOTS)
        then list_setitem mask (shop_buy_offset + slot - 1) true
        else Ok mask
    | None => Ok mask
    end
  else if String.eqb action_type "SHOP_SELL_JOKER" then
    match truthy_int (joker_index params) with
    | Some joker_idx =>
        if (1 <=? joker_idx) && (joker_idx <=? MAX_JOKERS)
        then list_setitem mask (sell_joker_offset + joker_idx - 1) true
        else Ok mask
    | None => Ok mask
    end
  else if String.eqb action_type "SELECT_PACK_ITEM" then
    match truthy_int (choice_index params) with
    | Some choice_idx =>
        if (1 <=? choice_idx) && (choice_idx <=? MAX_PACK_CHOICES)
        then list_setitem mask (pack_select_offset + choice_idx - 1) true
        else Ok mask
    | None => Ok mask
    end
  else if String.eqb action_type "SELECT_BLIND" then
    foldM (fun mask i => list_setitem mask (blind_select_offset + i) true)
          mask (range 0 3)
  else Ok mask.

(** [get_legal_action_mask] *)
Definition get_legal_action_mask (legal_actions : LegalActions) (hand_size : Z)
  : result (list bool) :=
  foldM (mask_action hand_size)
        (replicate (Z.to_nat action_space_size) false)
        (actions legal_actions).

End ActionEncoder.

(** ** Python arithmetic on floats *)

(** [float(z)]: the binary64 value nearest to the integer (ties to even);
    an integer that rounds beyond the largest float raises [OverflowError].
    This is the conversion behind [int / float] and [float + int]. *)
Definition Z2SF (z : Z) : spec_float := binary_normalize prec emax z 0 false.

Definition float_of_int (z : Z) : result float :=
  match Z2SF z with
  | S754_infinity _ => Raise OverflowError
  | sf => Ok (SF2Prim sf)
  end.

(** [a / b] for two integers: the correctly rounded quotient. *)
Definition int_truediv (a b : Z) : result float :=
  match a, b with
  | _, Z0 => Raise ZeroDivisionError
  | Z0, _ => Ok (SF2Prim (S754_zero (b <? 0)))
  | _, _ =>
      match SFdiv prec emax (S754_finite (a <? 0) (Z.to_pos (Z.abs a)) 0)
                            (S754_finite (b <? 0) (Z.to_pos (Z.abs b)) 0) with
      | S754_infinity _ => Raise OverflowError
      | sf => Ok (SF2Prim sf)
      end
  end.

(** [z / f] for an integer and a non-zero float constant. *)
Definition int_div_float (z : Z) (f : float) : result float :=
  x ← float_of_int z; Ok (x / f)%float.

(** A binary32 value, as the elements of a [torch.float32] tensor; rounding
    a Python float to it is to nearest, ties to even, overflowing to an
    infinity. *)
Definition float32 : Type := spec_float.

Definition round_float32 (x : float) : float32 :=
  match Prim2SF x with
  | S754_finite s m e => binary_normalize 24 128 (if s then Z.neg m else Z.pos m) e s
  | sf => sf
  end.

Definition zero32 : float32 := S754_zero false.

(** ** schemas.py: the game snapshot *)

Record CardData : Type := mkCardData {
  card_id : string;
  rank : option string;  (* coerced to a string by the field validator *)
  suit : option string;
  card_name : option string;
  card_edition : option string;
  enhancement : option string;
  seal : option string;
  debuffed : bool;
  facing : string;
  highlighted : bool;
  hand_index : option Z;
  card_area_index : option Z
}.

Record JokerData : Type := mkJokerData {
  joker_id : string;
  joker_name : option string;
  joker_key : option string;
  rarity : option Z;
  sell_cost : Z;
  ability : option (gmap string pyval);
  joker_edition : option (gmap string pyval);
  jd_joker_index : option Z;
  joker_area_index : option Z
}.

Record ConsumableData : Type := mkConsumableData {
  cons_index : Z;
  cons_name : option string;
  cons_key : option string
}.

Record BlindData : Type := mkBlindData {
  blind_name : option string;
  chips_needed : option Z;
  chips_scored : Z;
  boss : bool;
  debuff_text : option string
}.

Record ShopItem : Type := mkShopItem {
  item_slot : Z;
  item_name : option string;
  item_cost : Z;
  item_type : string
}.

Record ShopData : Type := mkShopData {
  items : list ShopItem;
  reroll_cost : Z
}.

Record PackData : Type := mkPackData {
  cards : list (gmap string pyval)
}.

Record DeckCounts : Type := mkDeckCounts {
  deck_size : Z;
  discard_size : Z
}.

Record HandLevel : Type := mkHandLevel {
  level : Z;
  hl_mult : option float;
  hl_chips : option Z
}.

Record GameState : Type := mkGameState {
  schema_version : string;
  timestamp_ms : Z;
  phase : GamePhase;
  error : option string;
  run_id : option string;
  round : Z;
  ante : Z;
  money : Z;
  hands_remaining : Z;
  discards_remaining : Z;
  hands_played : Z;
  blind : option BlindData;
  hand : list CardData;
  jokers : list JokerData;
  consumables : list ConsumableData;
  shop : option ShopData;
  pack : option PackData;
  deck_counts : DeckCounts;
  hand_levels : gmap string HandLevel
}.

(** Truthiness of an optional string: [None] and the empty string are
    falsy. *)
Definition truthy_str (s : option string) : option string :=
  match s with
  | Some "" => None
  | Some v => Some v
  | None => None
  end.

(** [a or b] on optional strings where [b] is a string. *)
Definition str_or (a : option string) (b : string) : string :=
  match truthy_str a with
  | Some v => v
  | None => b
  end.

(** The interpreter's builtins that the featurizer calls and that have no
    counterpart here: [hash] on strings (salted per process, fixed within
    one), [math.log10] on a positive integer, and [int] on a string
    ([None] when it raises [ValueError]). *)
Class PyRuntime : Type := mkPyRuntime {
  hash : string -> Z;
  log10 : Z -> float;
  int_of_str : string -> option Z
}.

(** ** obs_tokenizer.py: [ObservationTokenizer] *)

Module ObservationTokenizer.

Definition VOCAB : gmap string Z :=
  list_to_map
    [ ("phase", 10); ("rank", 15); ("suit", 6); ("edition", 6);
      ("enhancement", 15); ("seal", 6); ("joker", 200); ("consumable", 100) ].

Definition RANK_MAP : gmap string Z :=
  list_to_map
    [ ("2", 2); ("3", 3); ("4", 4); ("5", 5); ("6", 6); ("7", 7); ("8", 8);
      ("9", 9); ("10", 10); ("Jack", 11); ("Queen", 12); ("King", 13);
      ("Ace", 14); ("J", 11); ("Q", 12); ("K", 13); ("A", 14) ].

Definition SUIT_MAP : gmap string Z :=
  list_to_map [ ("Hearts", 1); ("Diamonds", 2); ("Clubs", 3); ("Spades", 4) ].

Definition EDITION_MAP : gmap string Z :=
  list_to_map [ ("foil", 1); ("holo", 2); ("polychrome", 3); ("negative", 4) ].

(** [PHASE_MAP], a dictionary keyed by the phase, as its lookup. *)
Definition PHASE_MAP (p : GamePhase) : option Z :=
  match p with
  | MENU => Some 0
  | SPLASH => Some 1
  | SELECTING_HAND => Some 2
  | HAND_PLAYED => Some 3
  | DRAW_TO_HAND => Some 4
  | BLIND_SELECT => Some 5
  | SHOP => Some 6
  | PACK_OPENING => Some 7
  | UNKNOWN => Some 8
  end.

Definition MAX_HAND_SIZE : Z := 10.
Definition MAX_JOKERS : Z := 5.
Definition MAX_CONSUMABLES : Z := 4.
Definition MAX_SHOP_ITEMS : Z := 6.

(** [_build_embedding_dims] *)
Definition card_features : Z := 8.

Definition obs_size : Z :=
  10 + MAX_HAND_SIZE * card_features + MAX_JOKERS * 4 + MAX_CONSUMABLES * 2
  + MAX_SHOP_ITEMS * 3.

Definition get_observation_size : Z := obs_size.

Definition flag (b : bool) : float := if b then 1%float else 0%float.

(** The loop shape that [tokenize_state] uses for the hand, the jokers, the
    consumables and the shop: slot [i] of [slots] receives the features of
    item [i] when there is one and [width] zeros otherwise. *)
Definition extend_padded {A} (features : list float) (xs : list A)
    (slots : Z) (tokenize : A -> result (list float)) (width : Z)
  : result (list float) :=
  foldM (fun features i =>
           if i <? Z.of_nat (length xs)
           then x ← list_getitem xs i;
                t ← tokenize x;
                Ok (features ++ t)%list
           else Ok (features ++ replicate (Z.to_nat width) 0%float)%list)
        features (range 0 slots).

Section Tokenizer.
Context `{PyRuntime}.

(** The rank code that [tokenize_card] computes first: the mapped rank, or
    the rank read as a number, or 0. *)
Definition card_rank (card : CardData) : Z :=
  match truthy_str (rank card) with
  | Some r =>
      let rank := default 0 (RANK_MAP !! r) in
      if rank =? 0 then default 0 (int_of_str r) else rank
  | None => 0
  end.

(** [tokenize_card] *)
Definition tokenize_card (card : CardData) : result (list float) :=
  let rank := card_rank card in
  let suit :=
    match truthy_str (suit card) with
    | Some s => default 0 (SUIT_MAP !! s)
    | None => 0
    end in
  let edition :=
    match truthy_str (card_edition card) with
    | Some e => default 0 (EDITION_MAP !! e)
    | None => 0
    end in
  enhancement ←
    match truthy_str (enhancement card) with
    | Some e => v ← dict_getitem VOCAB "enhancement"; Ok (hash e `mod` v)
    | None => Ok 0
    end;
  let seal_map : gmap string Z :=
    list_to_map [ ("Gold", 1); ("Red", 2); ("Blue", 3); ("Purple", 4) ] in
  let seal :=
    match truthy_str (seal card) with
    | Some s => default 0 (seal_map !! s)
    | None => 0
    end in
  f_rank ← int_div_float rank 14;
  f_suit ← int_div_float suit 4;
  f_edition ← int_div_float edition 4;
  v ← dict_getitem VOCAB "enhancement";
  f_enhancement ← int_truediv enhancement v;
  f_seal ← int_div_float seal 4;
  f_position ← int_truediv (default 0 (hand_index card)) MAX_HAND_SIZE;
  Ok [ f_rank; f_suit; f_edition; f_enhancement; f_seal;
       flag (debuffed card); flag (highlighted card); f_position ].

(** [tokenize_joker] *)
Definition tokenize_joker (joker : JokerData) : result (list float) :=
  v ← dict_getitem VOCAB "joker";
  let joker_id := hash (str_or (joker_key joker) (str_or (joker_name joker) "")) `mod` v in
  v ← dict_getitem VOCAB "joker";
  f_id ← int_truediv joker_id v;
  f_rarity ← int_div_float (default 1 (truthy_int (rarity joker))) 4;
  f_sell ← int_div_float (sell_cost joker) 20;
  Ok [ f_id; f_rarity; f_sell;
       flag (bool_decide (is_Some (truthy_dict (ability joker)))) ].

(** The body of the consumables loop of [tokenize_state]. *)
Definition tokenize_consumable (cons : ConsumableData) : result (list float) :=
  v ← dict_getitem VOCAB "consumable";
  let cons_id := hash (str_or (cons_key cons) (str_or (cons_name cons) "")) `mod` v in
  v ← dict_getitem VOCAB "consumable";
  f_id ← int_truediv cons_id v;
  Ok [ f_id; 1%float ].

(** The body of the shop loop of [tokenize_state]. *)
Definition tokenize_shop_item (money : Z) (item : ShopItem) : result (list float) :=
  let type_hash := hash (item_type item) `mod` 10 in
  f_type ← int_div_float type_hash 10;
  f_cost ← int_div_float (item_cost item) 50;
  Ok [ f_type; f_cost; flag (item_cost item <=? money) ].

(** [max(chips, 1)] on an optional count: comparing [None] with [1] raises
    [TypeError]. *)
Definition max_with_one (chips : option Z) : result Z :=
  match chips with
  | Some c => Ok (Z.max c 1)
  | None => Raise TypeError
  end.

(** The list of Python floats that [tokenize_state] accumulates. *)
Definition state_features (state : GameState) : result (list float) :=
  f_phase ← int_div_float (default 8 (PHASE_MAP (phase state))) 10;
  f_money ← int_div_float (Z.min (money state) 500) 500;
  f_ante ← int_div_float (ante state) 8;
  f_round ← int_div_float (round state) 32;
  f_hands ← int_div_float (hands_remaining state) 5;
  f_discards ← int_div_float (discards_remaining state) 5;
  let chips_needed :=
    match blind state with Some b => chips_needed b | None => Some 0 end in
  let chips_scored :=
    match blind state with Some b => chips_scored b | None => 0 end in
  needed ← max_with_one chips_needed;
  let f_needed := (log10 needed / 12)%float in
  let f_scored := (log10 (Z.max chips_scored 1) / 12)%float in
  f_deck ← int_div_float (deck_size (deck_counts state)) 52;
  f_discard ← int_div_float (discard_size (deck_counts state)) 52;
  let features :=
    [ f_phase; f_money; f_ante; f_round; f_hands; f_discards;
      f_needed; f_scored; f_deck; f_discard ] in
  features ← extend_padded features (hand state) MAX_HAND_SIZE
                           tokenize_card card_features;
  features ← extend_padded features (jokers state) MAX_JOKERS
                           tokenize_joker 4;
  features ← extend_padded features (consumables state) MAX_CONSUMABLES
                           tokenize_consumable 2;
  let shop_items :=
    match shop state with Some s => items s | None => [] end in
  extend_padded features shop_items MAX_SHOP_ITEMS
                (tokenize_shop_item (money state)) 3.

(** [tokenize_state]: the features as a [float32] tensor. *)
Definition tokenize_state (state : GameState) : result (list float32) :=
  features ← state_features state;
  Ok (map round_float32 features).

End Tokenizer.

End ObservationTokenizer.

(** ** client.py: the bridge as the episode controller sees it *)

Record ActionResult : Type := mkActionResult {
  ok : bool;
  result_error : option string;
  result_state : option GameState;
  result_legal : option LegalActions
}.

(** The replies of [BalatroClient] during one call of the controller; each
    method is called at most once per [step]. A request that cannot reach
    the bridge raises [BalatroConnectionError]. *)
Record BalatroClient : Type := mkBalatroClient {
  execute_action : ActionRequest -> result ActionResult;
  get_state : result GameState;
  get_legal_actions : result LegalActions
}.

(** [GamePhase.X.value] *)
Definition GamePhase_value (p : GamePhase) : string :=
  match p with
  | MENU => "MENU"
  | SPLASH => "SPLASH"
  | SELECTING_HAND => "SELECTING_HAND"
  | HAND_PLAYED => "HAND_PLAYED"
  | DRAW_TO_HAND => "DRAW_TO_HAND"
  | BLIND_SELECT => "BLIND_SELECT"
  | SHOP => "SHOP"
  | PACK_OPENING => "PACK_OPENING"
  | UNKNOWN => "UNKNOWN"
  end.

(** ** env.py: [BalatroEnv] *)

Module BalatroEnv.

(** The episode state of the environment object. *)
Record Env : Type := mkEnv {
  max_steps : Z;
  _current_state : option GameState;
  _current_legal : option LegalActions;
  _step_count : Z;
  _episode_reward : float;
  _prev_money : Z;
  _prev_chips : Z;
  _connected : bool
}.

Definition set_step_count (env : Env) (n : Z) : Env :=
  mkEnv (max_steps env) (_current_state env) (_current_legal env) n
        (_episode_reward env) (_prev_money env) (_prev_chips env)
        (_connected env).

Definition set_current_state (env : Env) (s : option GameState) : Env :=
  mkEnv (max_steps env) s (_current_legal env) (_step_count env)
        (_episode_reward env) (_prev_money env) (_prev_chips env)
        (_connected env).

Definition set_current_legal (env : Env) (l : option LegalActions) : Env :=
  mkEnv (max_steps env) (_current_state env) l (_step_count env)
        (_episode_reward env) (_prev_money env) (_prev_chips env)
        (_connected env).

Definition set_episode_reward (env : Env) (r : float) : Env :=
  mkEnv (max_steps env) (_current_state env) (_current_legal env)
        (_step_count env) r (_prev_money env) (_prev_chips env)
        (_connected env).

Definition set_connected (env : Env) (c : bool) : Env :=
  mkEnv (max_steps env) (_current_state env) (_current_legal env)
        (_step_count env) (_episode_reward env) (_prev_money env)
        (_prev_chips env) c.

(** The spaces advertised by [__init__]: [spaces.Discrete(n)] and the
    shape of the observation box. *)
Definition action_space_n : Z := ActionEncoder.get_action_space_size.
Definition observation_space_shape : Z :=
  ObservationTokenizer.get_observation_size.

(** The [info] dictionary: the keys that are always present, and the groups
    of keys that are present together. *)
Record StateInfo : Type := mkStateInfo {
  info_phase : string;
  info_money : Z;
  info_ante : Z;
  info_round : Z;
  info_hands_remaining : Z;
  info_discards_remaining : Z;
  info_hand_size : Z;
  info_joker_count : Z
}.

Record BlindInfo : Type := mkBlindInfo {
  info_chips_needed : option Z;
  info_chips_scored : Z
}.

Record Info : Type := mkInfo {
  step_count : Z;
  episode_reward : float;
  connected : bool;
  state_info : option StateInfo;
  blind_info : option BlindInfo;
  action_mask : option (list bool);
  info_error : option string
}.

Definition set_info_error (info : Info) (e : string) : Info :=
  mkInfo (step_count info) (episode_reward info) (connected info)
         (state_info info) (blind_info info) (action_mask info) (Some e).

(** What [step] returns: observation, reward, terminated, truncated, info. *)
Record StepReturn : Type := mkStepReturn {
  observation : list float32;
  reward : float;
  terminated : bool;
  truncated : bool;
  info : Info
}.

(** [_is_terminal] *)
Definition _is_terminal (env : Env) (state : GameState) : bool :=
  if bool_decide (phase state = MENU) || bool_decide (phase state = SPLASH)
  then true
  else if max_steps env <=? _step_count env then true
  else if bool_decide (is_Some (truthy_str (error state))) then true
  else false.

(** [_compute_reward] *)
Definition _compute_reward (prev_state : option GameState)
    (new_state : GameState) : result float :=
  match prev_state with
  | None => Ok 0%float
  | Some prev_state =>
      let reward := 0%float in
      let money_diff := money new_state - money prev_state in
      d ← float_of_int money_diff;
      let reward := (reward + d)%float in
      let prev_chips :=
        match blind prev_state with Some b => chips_scored b | None => 0 end in
      let new_chips :=
        match blind new_state with Some b => chips_scored b | None => 0 end in
      let chip_diff := new_chips - prev_chips in
      reward ←
        (if 0 <? chip_diff
         then c ← float_of_int chip_diff; Ok (reward + c / 1000 * 0.01)%float
         else Ok reward);
      let prev_blind_name :=
        match blind prev_state with Some b => blind_name b | None => None end in
      let new_blind_name :=
        match blind new_state with Some b => blind_name b | None => None end in
      let reward :=
        match truthy_str prev_blind_name, truthy_str new_blind_name with
        | Some p, Some n =>
            if negb (String.eqb p n) then (reward + 10)%float else reward
        | _, _ => reward
        end in
      let reward :=
        if ante prev_state <? ante new_state then (reward + 100)%float
        else reward in
      let reward :=
        if bool_decide (phase new_state = MENU)
           && negb (bool_decide (phase prev_state = MENU))
        then (reward - 100)%float
        else reward in
      Ok reward
  end.

Section Controller.
Context `{PyRuntime}.

(** [_get_obs] *)
Definition _get_obs (env : Env) : result (list float32) :=
  match _current_state env with
  | None =>
      Ok (replicate (Z.to_nat ObservationTokenizer.get_observation_size) zero32)
  | Some state => ObservationTokenizer.tokenize_state state
  end.

(** [_get_info] *)
Definition _get_info (env : Env) : result Info :=
  let state_info :=
    match _current_state env with
    | Some s =>
        Some (mkStateInfo (GamePhase_value (phase s)) (money s) (ante s)
                (round s) (hands_remaining s) (discards_remaining s)
                (Z.of_nat (length (hand s))) (Z.of_nat (length (jokers s))))
    | None => None
    end in
  let blind_info :=
    match _current_state env with
    | Some s =>
        match blind s with
        | Some b => Some (mkBlindInfo (chips_needed b) (chips_scored b))
        | None => None
        end
    | None => None
    end in
  mask ←
    match _current_legal env with
    | Some legal =>
        let hand_size :=
          match _current_state env with
          | Some s => Z.of_nat (length (hand s))
          | None => 8
          end in
        mask ← ActionEncoder.get_legal_action_mask legal hand_size;
        Ok (Some mask)
    | None => Ok None
    end;
  Ok (mkInfo (_step_count env) (_episode_reward env) (_connected env)
             state_info blind_info mask None).

(** The [try] block of [step]: submit the action and adopt the bridge's
    snapshot, or re-fetch it when the action was rejected. The environment
    is returned as far as it was updated when an exception interrupts. *)
Definition submit (client : BalatroClient) (env : Env)
    (action_request : ActionRequest) : Env * result unit :=
  match execute_action client action_request with
  | Raise e => (env, Raise e)
  | Ok result =>
      if ok result && bool_decide (is_Some (result_state result)) then
        let env := set_current_state env (result_state result) in
        let env := set_current_legal env (result_legal result) in
        (env, Ok tt)
      else
        match get_state client with
        | Raise e => (env, Raise e)
        | Ok state =>
            let env := set_current_state env (Some state) in
            match get_legal_actions client with
            | Raise e => (env, Raise e)
            | Ok legal => (set_current_legal env (Some legal), Ok tt)
            end
        end
  end.

(** [step]: the environment after the call, and what the call returns or
    raises. *)
Definition step (client : BalatroClient) (env : Env) (action : Z)
  : Env * result StepReturn :=
  let env := set_step_count env (_step_count env + 1) in
  let prev_state := _current_state env in
  match ActionEncoder.decode_action action with
  | Raise e => (env, Raise e)
  | Ok action_request =>
      match submit client env action_request with
      | (env, Raise (BalatroConnectionError e)) =>
          let env := set_connected env false in
          (env,
           info ← _get_info env;
           let info := set_info_error info e in
           obs ← _get_obs env;
           Ok (mkStepReturn obs (-100)%float true false info))
      | (env, Raise e) => (env, Raise e)
      | (env, Ok _) =>
          match _current_state env with
          | None => (env, Raise AttributeError)
          | Some current =>
              match _compute_reward prev_state current with
              | Raise e => (env, Raise e)
              | Ok reward =>
                  let env :=
                    set_episode_reward env (_episode_reward env + reward)%float in
                  let terminated := _is_terminal env current in
                  let truncated := max_steps env <=? _step_count env in
                  (env,
                   obs ← _get_obs env;
                   info ← _get_info env;
                   Ok (mkStepReturn obs reward terminated truncated info))
              end
          end
      end
  end.

End Controller.

End BalatroEnv.

(** ** The documented layout and action vocabulary

    The statements below compare the code with these tables. *)

(** The bitmap of a list of integer positions, without the dynamic checks. *)
Definition bitmap_of (l : list Z) : Z :=
  fold_left (fun bitmap i =>
               if (1 <=? i) && (i <=? ActionEncoder.MAX_HAND_SIZE)
               then Z.lor bitmap (Z.shiftl 1 (i - 1)) else bitmap)
            l 0.

(** The kind of a decoded request. *)
Definition decoded_kind (r : result ActionRequest) : option type_field :=
  match r with
  | Ok a => Some (type a)
  | Raise _ => None
  end.

(** The mask after setting the given indices. *)
Definition mark (mask : list bool) (idxs : list Z) : list bool :=
  fold_left (fun m i => <[Z.to_nat i := true]> m) idxs mask.

(** The kind that owns each action index: the six fixed slots of the
    parameterless and sort actions, four unassigned indices, and then the
    regions in their order. *)
Definition region_kind (i : Z) : option ActionType :=
  if i =? 0 then Some SHOP_REROLL
  else if i =? 1 then Some SHOP_END
  else if i =? 2 then Some SKIP_BLIND
  else if i =? 3 then Some SKIP_PACK
  else if (i =? 4) || (i =? 5) then Some SORT_HAND
  else if (10 <=? i) && (i <? 1034) then Some PLAY_HAND
  else if (1034 <=? i) && (i <? 2058) then Some DISCARD
  else if (2058 <=? i) && (i <? 2064) then Some SHOP_BUY
  else if (2064 <=? i) && (i <? 2069) then Some SHOP_SELL_JOKER
  else if (2069 <=? i) && (i <? 2074) then Some SELECT_PACK_ITEM
  else if (2074 <=? i) && (i <? 2077) then Some SELECT_BLIND
  else None.

(** The indices on which [decode_action] is defined. *)
Definition assigned (i : Z) : Prop :=
  0 <= i < 6 \/ ActionEncoder.play_hand_offset <= i < ActionEncoder.action_space_size.

Inductive sort_mode : Type := by_rank | by_suit.
Inductive blind_option : Type := small_blind | big_blind | boss_blind.

(** The eleven documented kinds of structured action, each with its own
    parameters. *)
Inductive StructuredAction : Type :=
| Play_hand (positions : list Z)
| Discard (positions : list Z)
| Shop_reroll
| Shop_end
| Skip_blind
| Skip_pack
| Sort_hand (m : sort_mode)
| Shop_buy (slot : Z)
| Shop_sell_joker (joker_index : Z)
| Select_pack_item (choice_index : Z)
| Select_blind (o : blind_option).

Definition sort_mode_name (m : sort_mode) : string :=
  match m with by_rank => "rank" | by_suit => "suit" end.

Definition blind_option_name (o : blind_option) : string :=
  match o with
  | small_blind => "small"
  | big_blind => "big"
  | boss_blind => "boss"
  end.

(** The request that a documented action is sent as. *)
Definition to_request (a : StructuredAction) : ActionRequest :=
  match a with
  | Play_hand ps =>
      ActionEncoder.request PLAY_HAND {["card_indices" := PyList (PyInt <$> ps)]}
  | Discard ps =>
      ActionEncoder.request DISCARD {["card_indices" := PyList (PyInt <$> ps)]}
  | Shop_reroll => ActionEncoder.request SHOP_REROLL ∅
  | Shop_end => ActionEncoder.request SHOP_END ∅
  | Skip_blind => ActionEncoder.request SKIP_BLIND ∅
  | Skip_pack => ActionEncoder.request SKIP_PACK ∅
  | Sort_hand m =>
      ActionEncoder.request SORT_HAND {["mode" := PyStr (sort_mode_name m)]}
  | Shop_buy s => ActionEncoder.request SHOP_BUY {["slot" := PyInt s]}
  | Shop_sell_joker j =>
      ActionEncoder.request SHOP_SELL_JOKER {["joker_index" := PyInt j]}
  | Select_pack_item c =>
      ActionEncoder.request SELECT_PACK_ITEM {["choice_index" := PyInt c]}
  | Select_blind o =>
      ActionEncoder.request SELECT_BLIND {["option" := PyStr (blind_option_name o)]}
  end.

Definition between (lo hi x : Z) : bool := (lo <=? x) && (x <=? hi).

(** The documented parameter domains: positions on a hand of up to ten
    cards, six shop slots, five jokers, five pack choices. *)
Definition in_domain (a : StructuredAction) : bool :=
  match a with
  | Play_hand ps | Discard ps => forallb (between 1 ActionEncoder.MAX_HAND_SIZE) ps
  | Shop_buy s => between 1 ActionEncoder.MAX_SHOP_SLOTS s
  | Shop_sell_joker j => between 1 ActionEncoder.MAX_JOKERS j
  | Select_pack_item c => between 1 ActionEncoder.MAX_PACK_CHOICES c
  | _ => true
  end.

(** Equality of parameter values up to the order and repetition of the
    items of a list. *)
Definition param_equiv (v w : pyval) : Prop :=
  match v, w with
  | PyList l1, PyList l2 => forall x, In x l1 <-> In x l2
  | _, _ => v = w
  end.

(** Two requests are semantically equal when they have the same kind and
    the same parameters, position lists being compared as sets. *)
Definition semantically_equal (a b : ActionRequest) : Prop :=
  type_name (type a) = type_name (type b)
  /\ forall key,
       match params a !! key, params b !! key with
       | Some v, Some w => param_equiv v w
       | None, None => True
       | _, _ => False
       end.

(** The eleven recognized tags. *)
Definition recognized_kinds : list string :=
  map ActionType_value
      [ PLAY_HAND; DISCARD; SORT_HAND; SHOP_BUY; SHOP_REROLL; SHOP_SELL_JOKER;
        SHOP_END; SELECT_BLIND; SKIP_BLIND; SELECT_PACK_ITEM; SKIP_PACK ].

(** An index that the mask may mark on behalf of a legal action of the
    given kind: it is below the size of the action space and decodes to a
    request of that kind. *)
Definition marks_kind (kind : string) (i : Z) : Prop :=
  0 <= i < ActionEncoder.get_action_space_size
  /\ exists a, ActionEncoder.decode_action i = Ok a /\ type_name (type a) = kind.

(** The items of a list value when all of them are integers. *)
Fixpoint int_items (l : list pyval) : option (list Z) :=
  match l with
  | [] => Some []
  | PyInt z :: l' => cons z <$> int_items l'
  | _ => None
  end.

(** A card-selection parameter block that the mask can expand: the
    available positions are a list of integers and the selection sizes are
    integers, the smallest one not negative. *)
Definition well_formed_selection (hand_size : Z) (ci : gmap string pyval) : bool :=
  match dict_get ci "available" (PyList (PyInt <$> range 1 (hand_size + 1))),
        dict_get ci "min_select" (PyInt 1),
        dict_get ci "max_select" (PyInt 5) with
  | PyList l, PyInt m, PyInt _ => bool_decide (is_Some (int_items l)) && (0 <=? m)
  | _, _, _ => false
  end.

Definition well_formed (hand_size : Z) (act : LegalAction) : bool :=
  if String.eqb (type_name (la_type act)) "PLAY_HAND"
     || String.eqb (type_name (la_type act)) "DISCARD"
  then match truthy_dict (card_indices (la_params act)) with
       | Some ci => well_formed_selection hand_size ci
       | None => true
       end
  else true.

(** The indices that a card-selection block marks: one per combination of
    the available positions, for each permitted size in increasing order. *)
Definition selection_marks (offset : Z) (A : list Z) (m M : Z) : list Z :=
  flat_map (fun size =>
              (fun c => offset + bitmap_of c)
                <$> combinations_nat A (Z.to_nat size))
           (range m (Z.min M (Z.of_nat (length A)) + 1)).

(** A PLAY_HAND legal action with the given available positions and
    selection sizes. *)
Definition play_hand_entry (A : list Z) (m M : Z) : LegalAction :=
  mkLegalAction (Enum PLAY_HAND) "Play selected cards"
    (mkActionParams
       (Some (list_to_map [ ("available", PyList (PyInt <$> A));
                            ("min_select", PyInt m);
                            ("max_select", PyInt M) ]))
       None None None None None None None).

(** The indices at which a mask is true. *)
Definition true_indices (mask : list bool) : list nat :=
  List.filter (fun i => bool_decide (mask !! i = Some true)) (seq 0 (length mask)).

(** A mask of the length of the action space. *)
Definition mask_sized (mask : list bool) : Prop :=
  Z.of_nat (length mask) = ActionEncoder.action_space_size.

(** ** A runtime and snapshots to evaluate the model on

    The statements about the featurizer and the controller hold for every
    [PyRuntime]; this one only serves to run them on concrete inputs. Its
    [hash] is a polynomial hash, its [log10] counts decimal digits (the
    integer part of the logarithm), its [int_of_str] reads ASCII decimal
    digits. *)
Definition poly_hash (s : string) : Z :=
  fold_left (fun h c => (31 * h + Z.of_nat (nat_of_ascii c)) `mod` 2 ^ 61)
            (list_ascii_of_string s) 7.

Fixpoint digits_below (fuel : nat) (z : Z) : Z :=
  match fuel with
  | O => 0
  | S fuel' => if z <? 10 then 0 else 1 + digits_below fuel' (z / 10)
  end.

Definition floor_log10 (z : Z) : float :=
  SF2Prim (Z2SF (digits_below (Z.to_nat (Z.log2 z + 1)) z)).

Definition digit_of_ascii (c : ascii) : option Z :=
  let n := nat_of_ascii c in
  if (Nat.leb 48 n && Nat.leb n 57)%bool then Some (Z.of_nat (n - 48)) else None.

Definition decimal_of_string (s : string) : option Z :=
  match list_ascii_of_string s with
  | [] => None
  | cs =>
      fold_left (fun acc c =>
                   match acc, digit_of_ascii c with
                   | Some a, Some d => Some (10 * a + d)
                   | _, _ => None
                   end) cs (Some 0)
  end.

Definition sample_runtime : PyRuntime :=
  mkPyRuntime poly_hash floor_log10 decimal_of_string.

(** A snapshot with the given phase, money, ante, step-relevant blind and
    error, and nothing else on the table. *)
Definition snapshot (p : GamePhase) (money ante : Z) (b : option BlindData)
    (err : option string) : GameState :=
  mkGameState "1.0.0" 1 p err None 1 ante money 4 3 0 b [] [] [] None None
              (mkDeckCounts 52 0) ∅.

Definition small_blind_data (scored : Z) : BlindData :=
  mkBlindData (Some "Small Blind") (Some 300) scored false None.

(** A bridge that accepts every action and answers with the given
    snapshot, and a bridge that cannot be reached. *)
Definition accepting_client (s : GameState) : BalatroClient :=
  mkBalatroClient
    (fun _ => Ok (mkActionResult true None (Some s) None))
    (Ok s)
    (Ok (mkLegalActions "1.0.0" (phase s) [] None)).

Definition unreachable_client (msg : string) : BalatroClient :=
  mkBalatroClient
    (fun _ => Raise (BalatroConnectionError msg))
    (Raise (BalatroConnectionError msg))
    (Raise (BalatroConnectionError msg)).

(** The environment right after a reset that stored the given snapshot and
    legal actions. *)
Definition env_after_reset (budget : Z) (s : GameState) (l : option LegalActions)
  : BalatroEnv.Env :=
  BalatroEnv.mkEnv budget (Some s) l 0 0%float (money s)
    (match blind s with Some b => chips_scored b | None => 0 end) true.

(** ** Snapshots that the featurizer accepts *)

(** An integer that converts to a float. *)
Definition fits_float (z : Z) : bool := succeeds (float_of_int z).

Section Featurizable.
Context `{PyRuntime}.

Definition card_ok (c : CardData) : bool :=
  fits_float (ObservationTokenizer.card_rank c)
  && succeeds (int_truediv (default 0 (hand_index c))
                           ObservationTokenizer.MAX_HAND_SIZE).

Definition joker_ok (j : JokerData) : bool :=
  fits_float (default 1 (truthy_int (rarity j))) && fits_float (sell_cost j).

Definition shop_item_ok (i : ShopItem) : bool := fits_float (item_cost i).

(** The snapshots on which [tokenize_state] does not raise: a blind, when
    there is one, states the chips it needs, and the integers that are
    turned into features convert to floats. Only the items that fit the
    slots are looked at. *)
Definition featurizable (s : GameState) : bool :=
  fits_float (Z.min (money s) 500)
  && fits_float (ante s) && fits_float (round s)
  && fits_float (hands_remaining s) && fits_float (discards_remaining s)
  && match blind s with
     | Some b => bool_decide (is_Some (chips_needed b))
     | None => true
     end
  && fits_float (deck_size (deck_counts s))
  && fits_float (discard_size (deck_counts s))
  && forallb card_ok (take 10 (hand s))
  && forallb joker_ok (take 5 (jokers s))
  && forallb shop_item_ok
       (take 6 (match shop s with Some sh => items sh | None => [] end)).

End Featurizable.

(** A blind as the schema builds it when the bridge only names it:
    [chips_needed] keeps its default, [None]. *)
Definition named_blind : BlindData :=
  mkBlindData (Some "Small Blind") None 0 false None.

Section Observable.
Context `{PyRuntime}.

(** An environment whose stored snapshot can be featurized and whose stored
    legal actions can be expanded into a mask: [_get_obs] and [_get_info]
    return on it. *)
Definition observable (env : BalatroEnv.Env) : bool :=
  match BalatroEnv._current_state env with
  | Some s => featurizable s
  | None => true
  end
  && match BalatroEnv._current_legal env with
     | Some legal =>
         forallb (well_formed
                    (match BalatroEnv._current_state env with
                     | Some s => Z.of_nat (length (hand s))
                     | None => 8
                     end))
                 (actions legal)
     | None => true
     end.

End Observable.
From stdpp Require pretty.

(** ** schemas.py: the methods of the schema classes *)

Module Schemas.

Definition GamePhase_members : list GamePhase :=
  [ MENU; SPLASH; SELECTING_HAND; HAND_PLAYED; DRAW_TO_HAND; BLIND_SELECT;
    SHOP; PACK_OPENING; UNKNOWN ].

(** [GamePhase._missing_] *)
Definition _missing_ (value : string) : GamePhase :=
  if negb (String.eqb value "") && String.prefix "STATE_" value
  then UNKNOWN
  else UNKNOWN.

(** [GamePhase(value)] on a string: the member with that value, and
    [_missing_] when there is none. *)
Definition GamePhase_of_value (value : string) : GamePhase :=
  match List.find (fun p => String.eqb (GamePhase_value p) value)
                  GamePhase_members with
  | Some p => p
  | None => _missing_ value
  end.

(** [GameState.is_decision_point] *)
Definition is_decision_point (self : GameState) : bool :=
  bool_decide (phase self ∈ [SELECTING_HAND; SHOP; BLIND_SELECT; PACK_OPENING]).

(** [a.type == action_type]: [ActionType] is a [str] enumeration, so the
    comparison is the one of the values. *)
Definition type_is (t : type_field) (action_type : ActionType) : bool :=
  String.eqb (type_name t) (ActionType_value action_type).

(** [LegalActions.has_action_type] *)
Definition has_action_type (self : LegalActions) (action_type : ActionType)
  : bool :=
  existsb (fun a => type_is (la_type a) action_type) (actions self).

(** [LegalActions.get_actions_of_type] *)
Definition get_actions_of_type (self : LegalActions) (action_type : ActionType)
  : list LegalAction :=
  List.filter (fun a => type_is (la_type a) action_type) (actions self).

End Schemas.

(** ** The indices that the legality mask sets

    [get_legal_action_mask] only ever writes [True] into the mask, so what a
    legal action does to the mask is the list of indices it sets. The
    functions below compute that list with the control flow of the card
    selection branches and of the loop body; they are related to the code
    by [mark_combinations_indices], [mask_action_indices] and
    [get_legal_action_mask_indices]. *)

(** A loop that gathers the lists its body returns. *)
Definition collect {A B} (f : A -> result (list B)) (l : list A)
  : result (list B) :=
  foldM (fun acc x => more ← f x; Ok (acc ++ more)%list) [] l.

Definition selection_indices (offset : Z) (ci : gmap string pyval)
    (hand_size : Z) : result (list Z) :=
  let available :=
    dict_get ci "available" (PyList (PyInt <$> range 1 (hand_size + 1))) in
  let min_select := dict_get ci "min_select" (PyInt 1) in
  let max_select := dict_get ci "max_select" (PyInt 5) in
  n ← py_len available;
  hi ← as_int max_select;
  lo ← as_int min_select;
  pool ← py_iter available;
  collect (fun size =>
             combos ← combinations pool size;
             collect (fun combo =>
                        bitmap ← ActionEncoder.card_indices_to_bitmap combo;
                        Ok [offset + bitmap])
                     combos)
          (range lo (Z.min hi n + 1)).

Definition slot_index (offset bound : Z) (v : option Z) : list Z :=
  match truthy_int v with
  | Some s => if (1 <=? s) && (s <=? bound) then [offset + s - 1] else []
  | None => []
  end.

Definition action_indices (hand_size : Z) (action : LegalAction)
  : result (list Z) :=
  let action_type := type_name (la_type action) in
  let params := la_params action in
  if String.eqb action_type "SHOP_REROLL" then Ok [0]
  else if String.eqb action_type "SHOP_END" then Ok [1]
  else if String.eqb action_type "SKIP_BLIND" then Ok [2]
  else if String.eqb action_type "SKIP_PACK" then Ok [3]
  else if String.eqb action_type "SORT_HAND" then Ok [4; 5]
  else if String.eqb action_type "PLAY_HAND" then
    match truthy_dict (card_indices params) with
    | Some ci => selection_indices ActionEncoder.play_hand_offset ci hand_size
    | None => Ok []
    end
  else if String.eqb action_type "DISCARD" then
    match truthy_dict (card_indices params) with
    | Some ci => selection_indices ActionEncoder.discard_offset ci hand_size
    | None => Ok []
    end
  else if String.eqb action_type "SHOP_BUY" then
    Ok (slot_index ActionEncoder.shop_buy_offset ActionEncoder.MAX_SHOP_SLOTS
                   (slot params))
  else if String.eqb action_type "SHOP_SELL_JOKER" then
    Ok (slot_index ActionEncoder.sell_joker_offset ActionEncoder.MAX_JOKERS
                   (joker_index params))
  else if String.eqb action_type "SELECT_PACK_ITEM" then
    Ok (slot_index ActionEncoder.pack_select_offset
                   ActionEncoder.MAX_PACK_CHOICES (choice_index params))
  else if String.eqb action_type "SELECT_BLIND" then
    Ok ((fun i => ActionEncoder.blind_select_offset + i) <$> range 0 3)
  else Ok [].

(** The indices set by a whole list of legal actions, in the order of the
    loop. *)
Definition actions_indices (hand_size : Z) (acts : list LegalAction)
  : result (list Z) :=
  collect (action_indices hand_size) acts.

(** A string of ASCII characters, on which [upper] is [str.upper]. *)
Definition ascii_only (s : string) : bool :=
  forallb (fun c => Nat.ltb (nat_of_ascii c) 128) (list_ascii_of_string s).

(** ** obs_tokenizer.py: what the features read, and [batch_tokenize] *)

(** The part of a snapshot that [tokenize_state] reads: every other field
    is blanked, and the lists are cut to the slots of the observation. *)
Definition card_view (c : CardData) : CardData :=
  mkCardData "" (rank c) (suit c) None (card_edition c) (enhancement c) (seal c)
             (debuffed c) "" (highlighted c) (hand_index c) None.

Definition joker_view (j : JokerData) : JokerData :=
  mkJokerData "" (joker_name j) (joker_key j) (rarity j) (sell_cost j)
              (ability j) None None None.

Definition consumable_view (c : ConsumableData) : ConsumableData :=
  mkConsumableData 0 (cons_name c) (cons_key c).

Definition shop_item_view (i : ShopItem) : ShopItem :=
  mkShopItem 0 None (item_cost i) (item_type i).

Definition blind_view (b : BlindData) : BlindData :=
  mkBlindData None (chips_needed b) (chips_scored b) false None.

Definition featurized_view (s : GameState) : GameState :=
  mkGameState "" 0 (phase s) None None (round s) (ante s) (money s)
    (hands_remaining s) (discards_remaining s) 0
    (blind_view <$> blind s)
    (card_view <$> take 10 (hand s))
    (joker_view <$> take 5 (jokers s))
    (consumable_view <$> take 4 (consumables s))
    ((fun sh => mkShopData (shop_item_view <$> take 6 (items sh)) 0) <$> shop s)
    None (deck_counts s) ∅.

(** How [batch_tokenize] ends: with the stacked tensor, with an exception
    of [tokenize_state], or with the [RuntimeError] of [torch.stack]. *)
Inductive batch_outcome : Type :=
| Batch (rows : list (list float32))
| TokenizeRaised (e : exn)
| StackRaised.

(** [torch.stack] on one-dimensional tensors: it needs at least one tensor,
    and tensors of one size. *)
Definition torch_stack (tensors : list (list float32))
  : option (list (list float32)) :=
  match tensors with
  | [] => None
  | t :: ts =>
      if forallb (fun u => Nat.eqb (length u) (length t)) ts
      then Some tensors else None
  end.

Section Batch.
Context `{PyRuntime}.

(** [batch_tokenize] *)
Definition batch_tokenize (states : list GameState) : batch_outcome :=
  match collect (fun s => t ← ObservationTokenizer.tokenize_state s; Ok [t])
                states with
  | Raise e => TokenizeRaised e
  | Ok tensors =>
      match torch_stack tensors with
      | Some rows => Batch rows
      | None => StackRaised
      end
  end.

End Batch.

(** ** env.py: the other methods of [BalatroEnv] *)

Module Episode.

Definition set_prev_money (env : BalatroEnv.Env) (m : Z) : BalatroEnv.Env :=
  BalatroEnv.mkEnv (BalatroEnv.max_steps env) (BalatroEnv._current_state env)
    (BalatroEnv._current_legal env) (BalatroEnv._step_count env)
    (BalatroEnv._episode_reward env) m (BalatroEnv._prev_chips env)
    (BalatroEnv._connected env).

Definition set_prev_chips (env : BalatroEnv.Env) (c : Z) : BalatroEnv.Env :=
  BalatroEnv.mkEnv (BalatroEnv.max_steps env) (BalatroEnv._current_state env)
    (BalatroEnv._current_legal env) (BalatroEnv._step_count env)
    (BalatroEnv._episode_reward env) (BalatroEnv._prev_money env) c
    (BalatroEnv._connected env).

(** [np.where(mask)[0]]: the indices of the true entries, increasing. *)
Definition np_where (mask : list bool) : list Z := Z.of_nat <$> true_indices mask.

(** [get_action_mask] *)
Definition get_action_mask (env : BalatroEnv.Env) : result (list bool) :=
  match BalatroEnv._current_legal env with
  | None => Ok (replicate (Z.to_nat BalatroEnv.action_space_n) false)
  | Some legal =>
      let hand_size :=
        match BalatroEnv._current_state env with
        | Some s => Z.of_nat (length (hand s))
        | None => 8
        end in
      ActionEncoder.get_legal_action_mask legal hand_size
  end.

(** [sample_legal_action]; [choice] is [np.random.choice] on a non-empty
    array of indices and [sample] the value that [action_space.sample()]
    draws. *)
Definition sample_legal_action (choice : list Z -> Z) (sample : Z)
    (env : BalatroEnv.Env) : result Z :=
  mask ← get_action_mask env;
  let legal_indices := np_where mask in
  if Nat.eqb (length legal_indices) 0 then Ok sample
  else Ok (choice legal_indices).

Section Reset.
Context `{PyRuntime}.

(** [gym.Env.reset(seed=seed)], which seeds the random generator of the
    environment, and [BalatroClient.reset], as [reset] calls them. *)
Variable super_reset : option Z -> result unit.
Variable client_reset : option string -> result (GameState * LegalActions).

(** The [try] statement of [reset]: the snapshot and legal actions come
    from the reset endpoint, or, when that raises a connectivity failure,
    from the two fetches. The snapshot that was stored is returned. *)
Definition fetch (client : BalatroClient) (env : BalatroEnv.Env)
    (seed_str : option string) : BalatroEnv.Env * result GameState :=
  match client_reset seed_str with
  | Ok (state, legal) =>
      (BalatroEnv.set_current_legal
         (BalatroEnv.set_current_state env (Some state)) (Some legal),
       Ok state)
  | Raise (BalatroConnectionError _) =>
      match get_state client with
      | Raise e => (env, Raise e)
      | Ok state =>
          let env := BalatroEnv.set_current_state env (Some state) in
          match get_legal_actions client with
          | Raise e => (env, Raise e)
          | Ok legal => (BalatroEnv.set_current_legal env (Some legal), Ok state)
          end
      end
  | Raise e => (env, Raise e)
  end.

(** [reset] *)
Definition reset (client : BalatroClient) (env : BalatroEnv.Env)
    (seed : option Z)
  : BalatroEnv.Env * result (list float32 * BalatroEnv.Info) :=
  match super_reset seed with
  | Raise e => (env, Raise e)
  | Ok _ =>
      let env := BalatroEnv.set_step_count env 0 in
      let env := BalatroEnv.set_episode_reward env 0%float in
      let seed_str :=
        match truthy_int seed with
        | Some z => Some (pretty.pretty z)
        | None => None
        end in
      match fetch client env seed_str with
      | (env, Raise e) => (env, Raise e)
      | (env, Ok state) =>
          let env := set_prev_money env (money state) in
          let env :=
            set_prev_chips env
              (match blind state with Some b => chips_scored b | None => 0 end) in
          (env,
           obs ← BalatroEnv._get_obs env;
           info ← BalatroEnv._get_info env;
           Ok (obs, info))
      end
  end.

End Reset.

(** [f"{n:,}"] on an integer: the decimal digits, from the right in groups
    of three. *)
Fixpoint rev_grouped (rev_digits : list ascii) : list ascii :=
  match rev_digits with
  | a :: b :: c :: ((_ :: _) as rest) =>
      a :: b :: c :: ","%char :: rev_grouped rest
  | _ => rev_digits
  end.

Definition grouped (digits : string) : string :=
  string_of_list_ascii (rev (rev_grouped (rev (list_ascii_of_string digits)))).

Definition format_comma (z : Z) : string :=
  match z with
  | Zneg p => "-" +:+ grouped (pretty.pretty (Zpos p))
  | _ => grouped (pretty.pretty z)
  end.

(** [s[0]] on a non-empty string: the first character, with the bytes that
    continue it when the string holds UTF-8. *)
Definition continuation (c : ascii) : bool :=
  (Nat.leb 128 (nat_of_ascii c) && Nat.ltb (nat_of_ascii c) 192)%bool.

Fixpoint take_continuation (s : string) : string :=
  match s with
  | String c s' => if continuation c then String c (take_continuation s') else ""
  | EmptyString => ""
  end.

Definition first_char (s : string) : string :=
  match s with
  | String c s' => String c (take_continuation s')
  | EmptyString => ""
  end.

Definition newline : string := String (ascii_of_nat 10) "".

(** The [ansi] branch of [render]. *)
Definition render_ansi (state : GameState) : result string :=
  let lines :=
    [ "Phase: " +:+ GamePhase_value (phase state);
      "Money: $" +:+ pretty.pretty (money state)
        +:+ " | Ante: " +:+ pretty.pretty (ante state)
        +:+ " | Round: " +:+ pretty.pretty (round state);
      "Hands: " +:+ pretty.pretty (hands_remaining state)
        +:+ " | Discards: " +:+ pretty.pretty (discards_remaining state) ] in
  lines ←
    match blind state with
    | Some b =>
        match chips_needed b with
        | Some needed =>
            Ok (lines ++ [ "Blind: " +:+ default "None" (blind_name b)
                             +:+ " - " +:+ format_comma (chips_scored b)
                             +:+ "/" +:+ format_comma needed ])%list
        | None => Raise TypeError
        end
    | None => Ok lines
    end;
  let lines :=
    match hand state with
    | [] => lines
    | _ =>
        let hand_str :=
          String.concat ", "
            (map (fun c => default "None" (rank c)
                           +:+ match truthy_str (suit c) with
                               | Some s => first_char s
                               | None => "?"
                               end)
                 (hand state)) in
        (lines ++ [ "Hand: [" +:+ hand_str +:+ "]" ])%list
    end in
  let lines :=
    match jokers state with
    | [] => lines
    | _ =>
        let joker_str :=
          String.concat ", " (map (fun j => str_or (joker_name j) "?") (jokers state)) in
        (lines ++ [ "Jokers: [" +:+ joker_str +:+ "]" ])%list
    end in
  Ok (String.concat newline lines).

(** [render]; [print_state_summary] is the printer of util.py, which the
    [human] mode calls. *)
Definition render (print_state_summary : GameState -> result unit)
    (render_mode : option string) (env : BalatroEnv.Env)
  : result (option string) :=
  match BalatroEnv._current_state env with
  | None => Ok None
  | Some state =>
      if bool_decide (render_mode = Some "human") then
        _ ← print_state_summary state; Ok None
      else if bool_decide (render_mode = Some "ansi") then
        text ← render_ansi state; Ok (Some text)
      else Ok None
  end.

End Episode.

(** ** client.py: [BalatroClient._request] over the HTTP session *)

Module Bridge.

(** What one [session.get] / [session.post] with [raise_for_status] and
    [json] ends with: the decoded body, one of the three exceptions that
    [_request] handles (with the text of the exception), or any other
    exception. *)
Inductive attempt (J : Type) : Type :=
| Reply (data : J)
| HTTPError (msg : string)
| ConnectionError (msg : string)
| Timeout (msg : string)
| Failure (e : exn).

Arguments Reply {J} data.
Arguments HTTPError {J} msg.
Arguments ConnectionError {J} msg.
Arguments Timeout {J} msg.
Arguments Failure {J} e.

(** The failures that [_request] retries. *)
Definition transient {J} (a : attempt J) : option string :=
  match a with
  | ConnectionError msg | Timeout msg => Some msg
  | _ => None
  end.

(** The fields that [__init__] sets. *)
Record Client : Type := mkClient {
  base_url : string;
  timeout : float;
  retry_count : Z;
  retry_delay : float
}.

(** What a call of [_request] did: what it returned or raised, how many
    requests it sent and how often it slept. *)
Record outcome (J : Type) : Type := mkOutcome {
  returned : result J;
  requests : nat;
  sleeps : nat
}.

Arguments mkOutcome {J} returned requests sleeps.
Arguments returned {J} o.
Arguments requests {J} o.
Arguments sleeps {J} o.

Definition gave_up (url : string) (retry_count : Z) (last_error : option string)
  : exn :=
  BalatroConnectionError
    ("Failed to connect to Balatro at " +:+ url +:+ " after "
     +:+ pretty.pretty retry_count +:+ " attempts: "
     +:+ default "None" last_error).

Section Request.
Context {J : Type}.

(** [time.sleep], which raises on a delay it does not accept, and the
    answers of the session to the successive requests of this call. *)
Variable sleep : float -> result unit.
Variable session : nat -> attempt J.

(** The [for] loop of [_request] over the attempts that are left. *)
Fixpoint request_loop (self : Client) (url method : string) (todo : list Z)
    (sent slept : nat) (last_error : option string) : outcome J :=
  match todo with
  | [] => mkOutcome (Raise (gave_up url (retry_count self) last_error)) sent slept
  | attempt :: todo =>
      if (negb (String.eqb method "GET") && negb (String.eqb method "POST"))%bool
      then mkOutcome (Raise ValueError) sent slept
      else
        match session sent with
        | Reply data => mkOutcome (Ok data) (S sent) slept
        | HTTPError msg =>
            mkOutcome (Raise (BalatroConnectionError ("HTTP error: " +:+ msg)))
                      (S sent) slept
        | Failure e => mkOutcome (Raise e) (S sent) slept
        | ConnectionError msg | Timeout msg =>
            if attempt <? retry_count self - 1 then
              match sleep (retry_delay self) with
              | Ok _ => request_loop self url method todo (S sent) (S slept) (Some msg)
              | Raise e => mkOutcome (Raise e) (S sent) slept
              end
            else request_loop self url method todo (S sent) slept (Some msg)
        end
  end.

(** [_request] *)
Definition _request (self : Client) (method endpoint : string) : outcome J :=
  let url := base_url self +:+ "/" +:+ endpoint in
  request_loop self url method (range 0 (retry_count self)) 0 0 None.

End Request.

End Bridge.

(** * Properties *)

(** ** Bitmaps *)

Import ActionEncoder.

Lemma bind_Ok {A B} (a : A) (k : A -> result B) : (Ok a ≫= k) = k a.
Proof. reflexivity. Qed.

Lemma bind_Raise {A B} (e : exn) (k : A -> result B) : (Raise e ≫= k) = Raise e.
Proof. reflexivity. Qed.

Lemma bind_inv_Ok {A B} (r : result A) (k : A -> result B) (b : B) :
  (r ≫= k) = Ok b -> exists a, r = Ok a /\ k a = Ok b.
Proof. destruct r as [a|e]; [eauto | discriminate]. Qed.

Lemma foldM_app {A S} (body : S -> A -> result S) (s : S) (l1 l2 : list A) :
  foldM body s (l1 ++ l2) = (foldM body s l1 ≫= fun s' => foldM body s' l2).
Proof.
  revert s. induction l1 as [|x l1 IH]; intros s; simpl; [reflexivity|].
  destruct (body s x) as [s'|e]; simpl; [apply IH | reflexivity].
Qed.

Lemma range_nil (lo hi : Z) : hi <= lo -> range lo hi = [].
Proof. intros Hle. unfold range. replace (Z.to_nat (hi - lo)) with O by lia. reflexivity. Qed.

Lemma range_cons (lo hi : Z) : lo < hi -> range lo hi = lo :: range (lo + 1) hi.
Proof.
  intros Hlt. unfold range.
  replace (Z.to_nat (hi - lo)) with (S (Z.to_nat (hi - (lo + 1)))) by lia.
  simpl. f_equal; [lia|].
  rewrite <- seq_shift, map_map. apply map_ext. intros k. lia.
Qed.

Lemma In_range (lo hi k : Z) : In k (range lo hi) <-> lo <= k < hi.
Proof.
  unfold range. rewrite in_map_iff. split.
  - intros (n & <- & Hn). apply in_seq in Hn. lia.
  - intros Hk. exists (Z.to_nat (k - lo)). split; [lia|]. apply in_seq. lia.
Qed.

Lemma card_indices_to_bitmap_ints (l : list Z) :
  card_indices_to_bitmap (PyInt <$> l) = Ok (bitmap_of l).
Proof.
  unfold card_indices_to_bitmap, bitmap_of. generalize 0.
  induction l as [|i l IH]; intros acc; simpl; [reflexivity|].
  destruct ((1 <=? i) && (i <=? MAX_HAND_SIZE)); simpl; apply IH.
Qed.

Lemma testbit_shiftl_1 (i k : Z) :
  0 <= i -> 0 <= k -> Z.testbit (Z.shiftl 1 i) k = (k =? i).
Proof.
  intros Hi Hk. rewrite Z.shiftl_spec by assumption.
  destruct (Z.eqb_spec k i) as [->|Hne].
  - rewrite Z.sub_diag. reflexivity.
  - destruct (Z.lt_ge_cases k i).
    + apply Z.testbit_neg_r. lia.
    + apply Z.bits_above_log2; [lia|]. change (Z.log2 1) with 0. lia.
Qed.

Lemma bitmap_fold_testbit (l : list Z) (acc k : Z) :
  0 <= k ->
  Z.testbit
    (fold_left (fun bitmap i =>
                  if (1 <=? i) && (i <=? MAX_HAND_SIZE)
                  then Z.lor bitmap (Z.shiftl 1 (i - 1)) else bitmap) l acc) k
  = Z.testbit acc k || (existsb (Z.eqb (k + 1)) l && (k <? MAX_HAND_SIZE)).
Proof.
  intros Hk. revert acc. induction l as [|i l IH]; intros acc; simpl.
  - rewrite orb_false_r. reflexivity.
  - rewrite IH. unfold MAX_HAND_SIZE.
    destruct (Z.leb_spec 1 i), (Z.leb_spec i 10); simpl;
      try rewrite Z.lor_spec; try rewrite testbit_shiftl_1 by lia;
      destruct (Z.eqb_spec k (i - 1)), (Z.eqb_spec (k + 1) i),
               (Z.ltb_spec k 10); simpl; try lia;
      destruct (Z.testbit acc k), (existsb (Z.eqb (k + 1)) l); reflexivity.
Qed.

Lemma bitmap_of_testbit (l : list Z) (k : Z) :
  0 <= k ->
  Z.testbit (bitmap_of l) k = existsb (Z.eqb (k + 1)) l && (k <? MAX_HAND_SIZE).
Proof.
  intros Hk. unfold bitmap_of. rewrite bitmap_fold_testbit by assumption.
  rewrite Z.testbit_0_l. reflexivity.
Qed.

Lemma bitmap_of_testbit_true (l : list Z) (k : Z) :
  0 <= k ->
  Z.testbit (bitmap_of l) k = true <-> In (k + 1) l /\ k < MAX_HAND_SIZE.
Proof.
  intros Hk. rewrite bitmap_of_testbit by assumption.
  rewrite andb_true_iff, existsb_exists, Z.ltb_lt. split.
  - intros [(x & Hx & Heq) Hlt]. apply Z.eqb_eq in Heq. subst x. auto.
  - intros [Hin Hlt]. split; [|assumption]. exists (k + 1). split; [assumption|apply Z.eqb_refl].
Qed.

Lemma land_shiftl_1_eq0 (b i : Z) :
  0 <= i -> (Z.land b (Z.shiftl 1 i) =? 0) = negb (Z.testbit b i).
Proof.
  intros Hi. destruct (Z.testbit b i) eqn:Hb; simpl.
  - apply Z.eqb_neq. intros Hz.
    assert (Hbit : Z.testbit (Z.land b (Z.shiftl 1 i)) i = true).
    { rewrite Z.land_spec, Hb, testbit_shiftl_1, Z.eqb_refl by lia. reflexivity. }
    rewrite Hz, Z.testbit_0_l in Hbit. discriminate.
  - apply Z.eqb_eq. apply Z.bits_inj'. intros k Hk.
    rewrite Z.land_spec, Z.testbit_0_l, testbit_shiftl_1 by lia.
    destruct (Z.eqb_spec k i) as [->|]; [rewrite Hb|]; auto using andb_false_r.
Qed.

(** The positions of a bitmap are the successors of its set bits below
    [MAX_HAND_SIZE], in increasing order. *)
Lemma bitmap_to_card_indices_filter (b : Z) :
  bitmap_to_card_indices b
  = map Z.succ (List.filter (Z.testbit b) (range 0 MAX_HAND_SIZE)).
Proof.
  unfold bitmap_to_card_indices.
  assert (Hgen : forall l acc,
             Forall (Z.le 0) l ->
             fold_left (fun indices i =>
                          if Z.land b (Z.shiftl 1 i) =? 0 then indices
                          else (indices ++ [i + 1])%list) l acc
             = (acc ++ map Z.succ (List.filter (Z.testbit b) l))%list).
  { induction l as [|i l IH]; intros acc Hl.
    - simpl. rewrite app_nil_r. reflexivity.
    - inversion Hl as [|? ? Hi Hl']; subst. simpl.
      rewrite land_shiftl_1_eq0 by assumption.
      rewrite IH by assumption.
      destruct (Z.testbit b i); simpl; [|reflexivity].
      rewrite <- app_assoc. reflexivity. }
  rewrite Hgen; [reflexivity|].
  apply List.Forall_forall. intros k Hk. apply In_range in Hk. lia.
Qed.

Lemma In_bitmap_to_card_indices (b p : Z) :
  In p (bitmap_to_card_indices b)
  <-> 1 <= p <= MAX_HAND_SIZE /\ Z.testbit b (p - 1) = true.
Proof.
  rewrite bitmap_to_card_indices_filter, in_map_iff. split.
  - intros (k & <- & Hk). apply filter_In in Hk as [Hk Hb].
    apply In_range in Hk. replace (Z.succ k - 1) with k by lia. split; [lia|assumption].
  - intros [Hp Hb]. exists (p - 1). split; [lia|].
    apply filter_In. split; [apply In_range; lia | assumption].
Qed.

Lemma bits_below_bound (x n : Z) :
  0 <= n -> 0 <= x -> (forall k, n <= k -> Z.testbit x k = false) -> x < 2 ^ n.
Proof.
  intros Hn Hx Hbits.
  assert (Hmod : x mod 2 ^ n = x).
  { apply Z.bits_inj'. intros k Hk.
    destruct (Z.lt_ge_cases k n).
    - apply Z.mod_pow2_bits_low. lia.
    - rewrite Z.mod_pow2_bits_high by lia. symmetry. apply Hbits. assumption. }
  rewrite <- Hmod. apply Z.mod_pos_bound. apply Z.pow_pos_nonneg; lia.
Qed.

Lemma bits_above_bound (x n k : Z) :
  0 <= x < 2 ^ n -> n <= k -> Z.testbit x k = false.
Proof.
  intros Hx Hk. destruct (Z.eq_dec x 0) as [->|Hne]; [apply Z.testbit_0_l|].
  apply Z.bits_above_log2; [lia|].
  assert (Z.log2 x < n) by (apply Z.log2_lt_pow2; lia). lia.
Qed.

Lemma bitmap_fold_nonneg (l : list Z) (acc : Z) :
  0 <= acc ->
  0 <= fold_left (fun bitmap i =>
                    if (1 <=? i) && (i <=? MAX_HAND_SIZE)
                    then Z.lor bitmap (Z.shiftl 1 (i - 1)) else bitmap) l acc.
Proof.
  revert acc. induction l as [|i l IH]; intros acc Hacc; simpl; [assumption|].
  apply IH. destruct (Z.leb_spec 1 i); simpl; [|assumption].
  destruct (i <=? MAX_HAND_SIZE); [|assumption].
  apply Z.lor_nonneg. split; [assumption|]. apply Z.shiftl_nonneg. lia.
Qed.

(** Every bitmap produced by the codec fits in the 1024 slots of a
    card-selection region. *)
Lemma bitmap_of_range (l : list Z) : 0 <= bitmap_of l < 1024.
Proof.
  assert (Hnn : 0 <= bitmap_of l) by (apply bitmap_fold_nonneg; lia).
  split; [assumption|].
  change 1024 with (2 ^ 10). apply bits_below_bound; [lia|assumption|].
  intros k Hk. rewrite bitmap_of_testbit by lia.
  unfold MAX_HAND_SIZE. destruct (Z.ltb_spec k 10); [lia|]. apply andb_false_r.
Qed.

(** Reading the positions of a bitmap and packing them again gives the
    bitmap back. *)
Lemma bitmap_of_bitmap_to_card_indices (b : Z) :
  0 <= b < 1024 -> bitmap_of (bitmap_to_card_indices b) = b.
Proof.
  intros Hb. apply Z.bits_inj'. intros k Hk.
  destruct (Z.testbit b k) eqn:Hbit.
  - apply bitmap_of_testbit_true; [assumption|].
    assert (k < 10).
    { destruct (Z.lt_ge_cases k 10); [assumption|].
      rewrite (bits_above_bound b 10 k) in Hbit by (change (2 ^ 10) with 1024; lia).
      discriminate. }
    split; [|unfold MAX_HAND_SIZE; lia].
    apply In_bitmap_to_card_indices. unfold MAX_HAND_SIZE.
    replace (k + 1 - 1) with k by lia. split; [lia|assumption].
  - apply not_true_is_false. intros Ht.
    apply bitmap_of_testbit_true in Ht as [Hin _]; [|assumption].
    apply In_bitmap_to_card_indices in Hin as [_ Hin].
    replace (k + 1 - 1) with k in Hin by lia. congruence.
Qed.

(** Packing positions and reading them back keeps exactly the positions
    that lie on the hand, as a set. *)
Lemma In_bitmap_to_card_indices_bitmap_of (l : list Z) (p : Z) :
  In p (bitmap_to_card_indices (bitmap_of l))
  <-> In p l /\ 1 <= p <= MAX_HAND_SIZE.
Proof.
  rewrite In_bitmap_to_card_indices. split.
  - intros [Hp Hb]. apply bitmap_of_testbit_true in Hb as [Hin _]; [|lia].
    replace (p - 1 + 1) with p in Hin by lia. auto.
  - intros [Hin Hp]. split; [assumption|].
    apply bitmap_of_testbit_true; [lia|].
    replace (p - 1 + 1) with p by lia. split; [assumption|lia].
Qed.

(** ** The index layout and [decode_action] *)

Lemma simple_actions_lookup :
  dict_getitem simple_actions "SHOP_REROLL" = Ok 0
  /\ dict_getitem simple_actions "SHOP_END" = Ok 1
  /\ dict_getitem simple_actions "SKIP_BLIND" = Ok 2
  /\ dict_getitem simple_actions "SKIP_PACK" = Ok 3
  /\ dict_getitem simple_actions "SORT_HAND_RANK" = Ok 4
  /\ dict_getitem simple_actions "SORT_HAND_SUIT" = Ok 5.
Proof. repeat split; vm_compute; reflexivity. Qed.

Ltac simple_lookups :=
  destruct simple_actions_lookup as (-> & -> & -> & -> & -> & ->).

Ltac offsets :=
  unfold assigned, get_action_space_size, action_space_size, blind_select_offset,
    pack_select_offset, sell_joker_offset, shop_buy_offset, discard_offset,
    play_hand_offset, MAX_SHOP_SLOTS, MAX_JOKERS, MAX_PACK_CHOICES in *.

(** [decode_action] with the constants of the layout read off. *)
Lemma decode_action_unfold (i : Z) :
  decode_action i =
  if i =? 0 then Ok (request SHOP_REROLL ∅)
  else if i =? 1 then Ok (request SHOP_END ∅)
  else if i =? 2 then Ok (request SKIP_BLIND ∅)
  else if i =? 3 then Ok (request SKIP_PACK ∅)
  else if i =? 4 then Ok (request SORT_HAND {["mode" := PyStr "rank"]})
  else if i =? 5 then Ok (request SORT_HAND {["mode" := PyStr "suit"]})
  else if (10 <=? i) && (i <? 1034) then
    Ok (request PLAY_HAND
          {["card_indices" := PyList (PyInt <$> bitmap_to_card_indices (i - 10))]})
  else if (1034 <=? i) && (i <? 2058) then
    Ok (request DISCARD
          {["card_indices" := PyList (PyInt <$> bitmap_to_card_indices (i - 1034))]})
  else if (2058 <=? i) && (i <? 2064) then
    Ok (request SHOP_BUY {["slot" := PyInt (i - 2058 + 1)]})
  else if (2064 <=? i) && (i <? 2069) then
    Ok (request SHOP_SELL_JOKER {["joker_index" := PyInt (i - 2064 + 1)]})
  else if (2069 <=? i) && (i <? 2074) then
    Ok (request SELECT_PACK_ITEM {["choice_index" := PyInt (i - 2069 + 1)]})
  else if (2074 <=? i) && (i <? 2077) then
    option ← list_getitem ["small"; "big"; "boss"] (i - 2074);
    Ok (request SELECT_BLIND {["option" := PyStr option]})
  else Raise ValueError.
Proof.
  unfold decode_action. simple_lookups. reflexivity.
Qed.

Ltac bool_to_prop :=
  repeat match goal with
    | H : (_ && _) = true |- _ => apply andb_true_iff in H as [? ?]
    | H : (_ && _) = false |- _ => apply andb_false_iff in H as [? | ?]
    | H : (_ || _) = true |- _ => apply orb_true_iff in H as [? | ?]
    | H : (_ || _) = false |- _ => apply orb_false_iff in H as [? ?]
    | H : (_ =? _) = true |- _ => apply Z.eqb_eq in H
    | H : (_ =? _) = false |- _ => apply Z.eqb_neq in H
    | H : (_ <=? _) = true |- _ => apply Z.leb_le in H
    | H : (_ <=? _) = false |- _ => apply Z.leb_gt in H
    | H : (_ <? _) = true |- _ => apply Z.ltb_lt in H
    | H : (_ <? _) = false |- _ => apply Z.ltb_ge in H
    end.

Ltac split_ifs :=
  repeat match goal with
    | |- context [if ?c then _ else _] => destruct c eqn:?
    end.

Lemma decoded_kind_region (i : Z) :
  decoded_kind (decode_action i) = Enum <$> region_kind i.
Proof.
  rewrite decode_action_unfold. unfold region_kind.
  destruct (i =? 0); [reflexivity|].
  destruct (i =? 1); [reflexivity|].
  destruct (i =? 2); [reflexivity|].
  destruct (i =? 3); [reflexivity|].
  destruct (i =? 4); [reflexivity|].
  destruct (i =? 5); [reflexivity|]. simpl orb.
  destruct ((10 <=? i) && (i <? 1034)); [reflexivity|].
  destruct ((1034 <=? i) && (i <? 2058)); [reflexivity|].
  destruct ((2058 <=? i) && (i <? 2064)); [reflexivity|].
  destruct ((2064 <=? i) && (i <? 2069)); [reflexivity|].
  destruct ((2069 <=? i) && (i <? 2074)); [reflexivity|].
  destruct ((2074 <=? i) && (i <? 2077)) eqn:Hb; [|reflexivity].
  bool_to_prop.
  assert (Hi : i - 2074 = 0 \/ i - 2074 = 1 \/ i - 2074 = 2) by lia.
  destruct Hi as [-> | [-> | ->]]; reflexivity.
Qed.

(** C1 (as the code has it): the index space is laid out in the documented
    order, each region directly after the one before it from PLAY_HAND on,
    but the card-selection regions start at index 10, not 6: the six simple
    slots 0..5 are followed by four indices that no kind owns, and the size
    reported by the codec and advertised by the environment is
    10+1024+1024+6+5+5+3 = 2077. Every index decodes to the kind of the
    region it lies in, and to nothing outside the regions. *)
Theorem action_index_layout :
  play_hand_offset = 10
  /\ discard_offset = play_hand_offset + 1024
  /\ shop_buy_offset = discard_offset + 1024
  /\ sell_joker_offset = shop_buy_offset + 6
  /\ pack_select_offset = sell_joker_offset + 5
  /\ blind_select_offset = pack_select_offset + 5
  /\ get_action_space_size = blind_select_offset + 3
  /\ get_action_space_size = 2077
  /\ BalatroEnv.action_space_n = get_action_space_size
  /\ (forall i : Z, decoded_kind (decode_action i) = Enum <$> region_kind i).
Proof.
  repeat split; try reflexivity. apply decoded_kind_region.
Qed.

(** C1, as stated, fails: the codec reports 2077 indices, not 2073, and the
    index right after the six simple slots is not the first PLAY_HAND index
    (it decodes to nothing; the empty PLAY_HAND selection is index 10). *)
Lemma action_space_size_is_not_2073 :
  get_action_space_size = 2073 + 4
  /\ BalatroEnv.action_space_n = 2073 + 4
  /\ decode_action 6 = Raise ValueError
  /\ decode_action 10 = Ok (request PLAY_HAND {["card_indices" := PyList []]}).
Proof. repeat split; vm_compute; reflexivity. Qed.

(** ** C2: the domain of [decode_action] *)

Lemma decode_action_assigned (i : Z) :
  assigned i -> exists a, decode_action i = Ok a.
Proof.
  pose proof (decoded_kind_region i) as Hk.
  unfold region_kind in Hk. offsets. intros Hi.
  destruct (decode_action i) as [a|e]; [eauto|]. exfalso.
  simpl in Hk. revert Hk. split_ifs; try discriminate; bool_to_prop; lia.
Qed.

Lemma decode_action_unassigned (i : Z) :
  ~ assigned i -> decode_action i = Raise ValueError.
Proof.
  offsets. intros Hi.
  rewrite decode_action_unfold. split_ifs; bool_to_prop; try lia; reflexivity.
Qed.

(** C2 (as the code has it): [decode_action] returns a request exactly on
    the assigned indices, [0, 6) and [10, ACTION_SPACE_SIZE), and raises
    [ValueError] on every other integer, the indices 6..9 included. *)
Theorem decode_action_domain (i : Z) :
  (assigned i -> exists a, decode_action i = Ok a)
  /\ (~ assigned i -> decode_action i = Raise ValueError).
Proof.
  split; [apply decode_action_assigned | apply decode_action_unassigned].
Qed.

Lemma decode_action_domain_witness :
  (exists a, decode_action 2076 = Ok a) /\ decode_action (-1) = Raise ValueError.
Proof.
  split.
  - apply (proj1 (decode_action_domain 2076)). unfold assigned. offsets. lia.
  - apply (proj2 (decode_action_domain (-1))). unfold assigned. offsets. lia.
Defined.

(** C2, as stated, fails at index 6, which is below the size the codec
    reports and yet is rejected. *)
Lemma decode_action_rejects_6 :
  0 <= 6 < get_action_space_size /\ decode_action 6 = Raise ValueError.
Proof. split; [offsets; lia | vm_compute; reflexivity]. Qed.

(** ** C3: round trips *)

Lemma encode_decode (i : Z) (a : ActionRequest) :
  decode_action i = Ok a -> encode_action a = Ok i.
Proof.
  rewrite decode_action_unfold.
  destruct (i =? 0) eqn:H0; [intros [= <-]; bool_to_prop; subst; reflexivity|].
  destruct (i =? 1) eqn:H1; [intros [= <-]; bool_to_prop; subst; reflexivity|].
  destruct (i =? 2) eqn:H2; [intros [= <-]; bool_to_prop; subst; reflexivity|].
  destruct (i =? 3) eqn:H3; [intros [= <-]; bool_to_prop; subst; reflexivity|].
  destruct (i =? 4) eqn:H4; [intros [= <-]; bool_to_prop; subst; reflexivity|].
  destruct (i =? 5) eqn:H5; [intros [= <-]; bool_to_prop; subst; reflexivity|].
  destruct ((10 <=? i) && (i <? 1034)) eqn:Hplay.
  { intros [= <-]. bool_to_prop.
    change (encode_action _) with
      (bitmap ← card_indices_to_bitmap (PyInt <$> bitmap_to_card_indices (i - 10));
       Ok (play_hand_offset + bitmap)).
    rewrite card_indices_to_bitmap_ints, bind_Ok.
    rewrite bitmap_of_bitmap_to_card_indices by lia. f_equal. offsets. lia. }
  destruct ((1034 <=? i) && (i <? 2058)) eqn:Hdisc.
  { intros [= <-]. clear Hplay. bool_to_prop.
    change (encode_action _) with
      (bitmap ← card_indices_to_bitmap (PyInt <$> bitmap_to_card_indices (i - 1034));
       Ok (discard_offset + bitmap)).
    rewrite card_indices_to_bitmap_ints, bind_Ok.
    rewrite bitmap_of_bitmap_to_card_indices by lia. f_equal. offsets. lia. }
  destruct ((2058 <=? i) && (i <? 2064)) eqn:Hbuy.
  { intros [= <-].
    change (encode_action _) with (Ok (shop_buy_offset + (i - 2058 + 1) - 1)).
    f_equal. offsets. lia. }
  destruct ((2064 <=? i) && (i <? 2069)) eqn:Hsell.
  { intros [= <-].
    change (encode_action _) with (Ok (sell_joker_offset + (i - 2064 + 1) - 1)).
    f_equal. offsets. lia. }
  destruct ((2069 <=? i) && (i <? 2074)) eqn:Hpack.
  { intros [= <-].
    change (encode_action _) with (Ok (pack_select_offset + (i - 2069 + 1) - 1)).
    f_equal. offsets. lia. }
  destruct ((2074 <=? i) && (i <? 2077)) eqn:Hblind; [|discriminate].
  clear - Hblind. bool_to_prop.
  assert (Hi : i = 2074 \/ i = 2075 \/ i = 2076) by lia.
  destruct Hi as [-> | [-> | ->]]; intros [= <-]; reflexivity.
Qed.

Lemma forallb_between (lo hi : Z) (l : list Z) :
  forallb (between lo hi) l = true -> forall p, In p l -> lo <= p <= hi.
Proof.
  intros Hall p Hp. rewrite forallb_forall in Hall. specialize (Hall p Hp).
  unfold between in Hall. bool_to_prop. lia.
Qed.

Lemma In_fmap_PyInt (x : pyval) (l : list Z) :
  In x (PyInt <$> l) <-> exists p, x = PyInt p /\ In p l.
Proof.
  change (PyInt <$> l) with (map PyInt l). rewrite in_map_iff.
  split; intros (p & Hp & Hin); exists p; auto.
Qed.

Lemma semantically_equal_singleton (t : ActionType) (key : string) (v w : pyval) :
  param_equiv v w ->
  semantically_equal (request t {[key := v]}) (request t {[key := w]}).
Proof.
  intros Hvw. split; [reflexivity|]. intros k. simpl.
  destruct (decide (key = k)) as [->|Hne].
  - rewrite !lookup_singleton_eq. assumption.
  - rewrite !lookup_singleton_ne by assumption. exact I.
Qed.

Lemma semantically_equal_refl (a : ActionRequest) : semantically_equal a a.
Proof.
  split; [reflexivity|]. intros k. destruct (params a !! k) as [v|]; [|exact I].
  destruct v; simpl; first [reflexivity | intros x; reflexivity].
Qed.

Lemma positions_equiv (ps : list Z) :
  forallb (between 1 MAX_HAND_SIZE) ps = true ->
  param_equiv (PyList (PyInt <$> bitmap_to_card_indices (bitmap_of ps)))
              (PyList (PyInt <$> ps)).
Proof.
  intros Hdom x. rewrite !In_fmap_PyInt.
  split; intros (p & -> & Hp); exists p; split; try reflexivity.
  - apply In_bitmap_to_card_indices_bitmap_of in Hp. tauto.
  - apply In_bitmap_to_card_indices_bitmap_of. split; [assumption|].
    eapply forallb_between; eassumption.
Qed.

Lemma decode_action_play_hand (b : Z) :
  0 <= b < 1024 ->
  decode_action (play_hand_offset + b)
  = Ok (request PLAY_HAND
          {["card_indices" := PyList (PyInt <$> bitmap_to_card_indices b)]}).
Proof.
  intros Hb. rewrite decode_action_unfold. offsets.
  replace (10 + b - 10) with b by lia.
  split_ifs; bool_to_prop; try lia; reflexivity.
Qed.

Lemma decode_action_discard (b : Z) :
  0 <= b < 1024 ->
  decode_action (discard_offset + b)
  = Ok (request DISCARD
          {["card_indices" := PyList (PyInt <$> bitmap_to_card_indices b)]}).
Proof.
  intros Hb. rewrite decode_action_unfold. offsets.
  replace (10 + 1024 + b - 1034) with b by lia.
  split_ifs; bool_to_prop; try lia; reflexivity.
Qed.

Lemma decode_encode (a : StructuredAction) :
  in_domain a = true ->
  exists i a', encode_action (to_request a) = Ok i
               /\ decode_action i = Ok a'
               /\ semantically_equal a' (to_request a).
Proof.
  intros Hdom. destruct a as [ps|ps| | | | |m|s|j|c|o]; simpl in Hdom.
  - pose proof (bitmap_of_range ps) as Hb.
    exists (play_hand_offset + bitmap_of ps). eexists. split; [|split].
    + change (encode_action _) with
        (bitmap ← card_indices_to_bitmap (PyInt <$> ps); Ok (play_hand_offset + bitmap)).
      rewrite card_indices_to_bitmap_ints. reflexivity.
    + apply decode_action_play_hand, Hb.
    + apply semantically_equal_singleton, positions_equiv, Hdom.
  - pose proof (bitmap_of_range ps) as Hb.
    exists (discard_offset + bitmap_of ps). eexists. split; [|split].
    + change (encode_action _) with
        (bitmap ← card_indices_to_bitmap (PyInt <$> ps); Ok (discard_offset + bitmap)).
      rewrite card_indices_to_bitmap_ints. reflexivity.
    + apply decode_action_discard, Hb.
    + apply semantically_equal_singleton, positions_equiv, Hdom.
  - exists 0. eexists. split; [reflexivity | split; [reflexivity | apply semantically_equal_refl]].
  - exists 1. eexists. split; [reflexivity | split; [reflexivity | apply semantically_equal_refl]].
  - exists 2. eexists. split; [reflexivity | split; [reflexivity | apply semantically_equal_refl]].
  - exists 3. eexists. split; [reflexivity | split; [reflexivity | apply semantically_equal_refl]].
  - destruct m; [exists 4 | exists 5]; eexists;
      (split; [reflexivity | split; [reflexivity | apply semantically_equal_refl]]).
  - unfold between, MAX_SHOP_SLOTS in Hdom. bool_to_prop.
    assert (Hs : s = 1 \/ s = 2 \/ s = 3 \/ s = 4 \/ s = 5 \/ s = 6) by lia.
    destruct Hs as [-> | [-> | [-> | [-> | [-> | ->]]]]]; eexists; eexists;
      (split; [reflexivity | split; [reflexivity | apply semantically_equal_refl]]).
  - unfold between, MAX_JOKERS in Hdom. bool_to_prop.
    assert (Hj : j = 1 \/ j = 2 \/ j = 3 \/ j = 4 \/ j = 5) by lia.
    destruct Hj as [-> | [-> | [-> | [-> | ->]]]]; eexists; eexists;
      (split; [reflexivity | split; [reflexivity | apply semantically_equal_refl]]).
  - unfold between, MAX_PACK_CHOICES in Hdom. bool_to_prop.
    assert (Hc : c = 1 \/ c = 2 \/ c = 3 \/ c = 4 \/ c = 5) by lia.
    destruct Hc as [-> | [-> | [-> | [-> | ->]]]]; eexists; eexists;
      (split; [reflexivity | split; [reflexivity | apply semantically_equal_refl]]).
  - destruct o; eexists; eexists;
      (split; [reflexivity | split; [reflexivity | apply semantically_equal_refl]]).
Qed.

(** C3 (as the code has it): on every assigned index, that is on [0, 6)
    and [10, 2077), decoding and encoding again gives the index back; and
    for every documented action with parameters in their documented domains,
    encoding and decoding again gives a semantically equal request (same
    kind, same parameters, card positions compared as sets). *)
Theorem codec_round_trip :
  (forall i : Z,
      assigned i -> exists a, decode_action i = Ok a /\ encode_action a = Ok i)
  /\ (forall a : StructuredAction,
         in_domain a = true ->
         exists i a', encode_action (to_request a) = Ok i
                      /\ decode_action i = Ok a'
                      /\ semantically_equal a' (to_request a)).
Proof.
  split.
  - intros i Hi. destruct (decode_action_assigned i Hi) as [a Ha].
    exists a. split; [assumption | apply encode_decode, Ha].
  - apply decode_encode.
Qed.

Lemma codec_round_trip_witness :
  (exists a, decode_action 17 = Ok a /\ encode_action a = Ok 17)
  /\ (exists i a', encode_action (to_request (Play_hand [3; 1; 3])) = Ok i
                   /\ decode_action i = Ok a'
                   /\ semantically_equal a' (to_request (Play_hand [3; 1; 3]))).
Proof.
  split.
  - apply (proj1 codec_round_trip 17). unfold assigned. offsets. lia.
  - apply (proj2 codec_round_trip (Play_hand [3; 1; 3])). reflexivity.
Defined.

(** C3, as stated, fails at index 6: it lies in [0, 2073) and has no
    decoding to encode. *)
Lemma round_trip_fails_at_6 :
  0 <= 6 < 2073 /\ (decode_action 6 ≫= encode_action) = Raise ValueError.
Proof. split; [lia | vm_compute; reflexivity]. Qed.

(** ** C4: what [encode_action] rejects *)

Lemma encode_action_unknown (a : ActionRequest) :
  ~ In (type_name (type a)) recognized_kinds -> encode_action a = Raise ValueError.
Proof.
  intros Hnot. unfold encode_action.
  repeat match goal with
    | |- context [String.eqb (type_name (type a)) ?s] =>
        destruct (String.eqb_spec (type_name (type a)) s) as [Heq|_];
        [exfalso; apply Hnot; rewrite Heq; simpl; tauto|]
    end.
  reflexivity.
Qed.

Lemma encode_action_defaults (a : ActionRequest) :
  let tag := type_name (type a) in
  (tag = "SORT_HAND" -> params a !! "mode" = None -> encode_action a = Ok 4)
  /\ (tag = "PLAY_HAND" -> params a !! "card_indices" = None ->
      encode_action a = Ok play_hand_offset)
  /\ (tag = "DISCARD" -> params a !! "card_indices" = None ->
      encode_action a = Ok discard_offset)
  /\ (tag = "SHOP_BUY" -> params a !! "slot" = None ->
      encode_action a = Ok shop_buy_offset)
  /\ (tag = "SHOP_SELL_JOKER" -> params a !! "joker_index" = None ->
      encode_action a = Ok sell_joker_offset)
  /\ (tag = "SELECT_PACK_ITEM" -> params a !! "choice_index" = None ->
      encode_action a = Ok pack_select_offset)
  /\ (tag = "SELECT_BLIND" -> params a !! "option" = None ->
      encode_action a = Ok blind_select_offset).
Proof.
  cbv zeta. repeat split; intros Htag Hnone;
    unfold encode_action, dict_get; rewrite Htag, Hnone;
    vm_compute; reflexivity.
Qed.

(** C4 (as the code has it): [encode_action] raises [ValueError] when the
    tag is not one of the eleven recognized kinds; a missing parameter is
    not an error: the codec encodes the default instead (mode rank, the
    empty selection, slot 1, joker 1, choice 1, option small), which is the
    first index of the kind's region (index 4 for SORT_HAND). *)
Theorem encode_action_missing_parameter (a : ActionRequest) :
  (~ In (type_name (type a)) recognized_kinds -> encode_action a = Raise ValueError)
  /\ (type_name (type a) = "SORT_HAND" -> params a !! "mode" = None ->
      encode_action a = encode_action (to_request (Sort_hand by_rank)))
  /\ (type_name (type a) = "PLAY_HAND" -> params a !! "card_indices" = None ->
      encode_action a = encode_action (to_request (Play_hand [])))
  /\ (type_name (type a) = "DISCARD" -> params a !! "card_indices" = None ->
      encode_action a = encode_action (to_request (Discard [])))
  /\ (type_name (type a) = "SHOP_BUY" -> params a !! "slot" = None ->
      encode_action a = encode_action (to_request (Shop_buy 1)))
  /\ (type_name (type a) = "SHOP_SELL_JOKER" -> params a !! "joker_index" = None ->
      encode_action a = encode_action (to_request (Shop_sell_joker 1)))
  /\ (type_name (type a) = "SELECT_PACK_ITEM" -> params a !! "choice_index" = None ->
      encode_action a = encode_action (to_request (Select_pack_item 1)))
  /\ (type_name (type a) = "SELECT_BLIND" -> params a !! "option" = None ->
      encode_action a = encode_action (to_request (Select_blind small_blind))).
Proof.
  split; [apply encode_action_unknown|].
  pose proof (encode_action_defaults a) as Hd. cbv zeta in Hd.
  destruct Hd as (H1 & H2 & H3 & H4 & H5 & H6 & H7).
  repeat split; intros Htag Hnone.
  - rewrite H1 by assumption. reflexivity.
  - rewrite H2 by assumption. reflexivity.
  - rewrite H3 by assumption. reflexivity.
  - rewrite H4 by assumption. reflexivity.
  - rewrite H5 by assumption. reflexivity.
  - rewrite H6 by assumption. reflexivity.
  - rewrite H7 by assumption. reflexivity.
Qed.

Lemma encode_action_missing_parameter_witness :
  encode_action (mkActionRequest (Raw "FLY") ∅) = Raise ValueError
  /\ encode_action (request SHOP_BUY ∅) = encode_action (to_request (Shop_buy 1)).
Proof.
  split.
  - apply (proj1 (encode_action_missing_parameter (mkActionRequest (Raw "FLY") ∅))).
    vm_compute. intros Hin.
    repeat (destruct Hin as [Hin|Hin]; [discriminate Hin|]). exact Hin.
  - apply (proj1 (proj2 (proj2 (proj2 (proj2
             (encode_action_missing_parameter (request SHOP_BUY ∅))))))).
    + reflexivity.
    + reflexivity.
Defined.

(** C4, as stated, fails: a SHOP_BUY request without a slot is encoded, as
    the index of slot 1, instead of being rejected. *)
Lemma encode_action_substitutes_default :
  params (request SHOP_BUY ∅) !! "slot" = None
  /\ encode_action (request SHOP_BUY ∅) = Ok 2058
  /\ encode_action (request SHOP_BUY {["slot" := PyInt 1]}) = Ok 2058.
Proof. repeat split; vm_compute; reflexivity. Qed.

(** ** Combinations *)

Lemma combinations_nat_0 {A} (pool : list A) : combinations_nat pool 0 = [[]].
Proof. destruct pool; reflexivity. Qed.

Lemma combinations_nat_spec {A} (pool : list A) (r : nat) (c : list A) :
  c ∈ combinations_nat pool r <-> c `sublist_of` pool /\ length c = r.
Proof.
  revert r c. induction pool as [|x xs IH]; intros r c.
  - destruct r as [|r]; simpl.
    + rewrite list_elem_of_singleton, sublist_nil_r. split.
      * intros ->. auto.
      * tauto.
    + rewrite elem_of_nil, sublist_nil_r. split; [tauto|].
      intros [-> Hlen]. discriminate.
  - destruct r as [|r].
    + rewrite combinations_nat_0, list_elem_of_singleton. split.
      * intros ->. split; [apply sublist_nil_l | reflexivity].
      * intros [_ Hlen]. destruct c; [reflexivity | discriminate].
    + simpl. rewrite elem_of_app, list_elem_of_fmap, sublist_cons_r.
      setoid_rewrite IH. split.
      * intros [(c' & -> & Hsub & Hlen) | [Hsub Hlen]].
        -- split; [right; eauto | simpl; congruence].
        -- split; [left; assumption | assumption].
      * intros [[Hsub | (c' & -> & Hsub)] Hlen].
        -- right. auto.
        -- left. exists c'. simpl in Hlen. split; [reflexivity|]. split; [assumption | congruence].
Qed.

Lemma combinations_nat_fmap {A B} (f : A -> B) (pool : list A) (r : nat) :
  combinations_nat (f <$> pool) r
  = (fun c : list A => f <$> c) <$> combinations_nat pool r.
Proof.
  revert r. induction pool as [|x xs IH]; intros [|r]; try reflexivity.
  simpl. rewrite fmap_app, !IH. f_equal.
  rewrite <- !list_fmap_compose. reflexivity.
Qed.

(** ** Marking indices of the mask *)

Lemma mark_app (mask : list bool) (l1 l2 : list Z) :
  mark mask (l1 ++ l2) = mark (mark mask l1) l2.
Proof. apply fold_left_app. Qed.

Lemma length_mark (mask : list bool) (idxs : list Z) :
  length (mark mask idxs) = length mask.
Proof.
  revert mask. induction idxs as [|i idxs IH]; intros mask; [reflexivity|].
  change (mark mask (i :: idxs)) with (mark (<[Z.to_nat i := true]> mask) idxs).
  rewrite IH. apply length_insert.
Qed.

Lemma lookup_mark (mask : list bool) (idxs : list Z) (j : nat) :
  (forall i, i ∈ idxs -> 0 <= i < Z.of_nat (length mask)) ->
  mark mask idxs !! j = Some true
  <-> mask !! j = Some true \/ exists i, i ∈ idxs /\ Z.to_nat i = j.
Proof.
  revert mask. induction idxs as [|i idxs IH]; intros mask Hrange.
  - simpl. split; [auto|]. intros [Hj | (i & Hi & _)]; [assumption|]. inversion Hi.
  - change (mark mask (i :: idxs)) with (mark (<[Z.to_nat i := true]> mask) idxs).
    rewrite IH.
    + destruct (decide (Z.to_nat i = j)) as [<-|Hne].
      * rewrite list_lookup_insert_eq
          by (specialize (Hrange i (list_elem_of_here _ _)); lia).
        split; [|auto]. intros _. right. exists i. split; [left|reflexivity].
      * rewrite list_lookup_insert_ne by assumption. split.
        -- intros [Hj | (i' & Hi' & Heq)]; [auto|].
           right. exists i'. split; [right; assumption | assumption].
        -- intros [Hj | (i' & Hi' & Heq)]; [auto|].
           apply elem_of_cons in Hi' as [-> | Hi']; [contradiction|].
           right. eauto.
    + intros i' Hi'. rewrite length_insert. apply Hrange. right. assumption.
Qed.

Lemma list_setitem_in_range {A} (l : list A) (i : Z) (v : A) :
  0 <= i < Z.of_nat (length l) ->
  list_setitem l i v = Ok (<[Z.to_nat i := v]> l).
Proof.
  intros Hi. unfold list_setitem.
  destruct (Z.leb_spec 0 i); [|lia].
  destruct (Z.ltb_spec i (Z.of_nat (length l))); [|lia]. reflexivity.
Qed.

Lemma foldM_setitem (mask : list bool) (f : Z -> Z) (idxs : list Z) :
  (forall i, i ∈ idxs -> 0 <= f i < Z.of_nat (length mask)) ->
  foldM (fun m i => list_setitem m (f i) true) mask idxs
  = Ok (mark mask (f <$> idxs)).
Proof.
  revert mask. induction idxs as [|i idxs IH]; intros mask Hrange; simpl.
  - reflexivity.
  - rewrite list_setitem_in_range by (apply Hrange; left).
    rewrite bind_Ok. rewrite IH; [reflexivity|].
    intros i' Hi'. rewrite length_insert. apply Hrange. right. assumption.
Qed.

(** A loop that only succeeds keeps every invariant of its body. *)
Lemma foldM_invariant {A S} (P : S -> Prop) (body : S -> A -> result S)
    (l : list A) (s s' : S) :
  P s ->
  (forall s x s', x ∈ l -> P s -> body s x = Ok s' -> P s') ->
  foldM body s l = Ok s' -> P s'.
Proof.
  revert s. induction l as [|x l IH]; intros s Hs Hbody; simpl.
  - intros [= <-]. assumption.
  - intros Hrun. apply bind_inv_Ok in Hrun as (s1 & Hx & Hrest).
    apply (IH s1); [|intros; eapply Hbody; eauto; right; assumption | assumption].
    eapply Hbody; [left | eassumption | eassumption].
Qed.

(** A bitmap only comes out of a list whose items are all integers. *)
Lemma card_indices_to_bitmap_Ok (l : list pyval) (b : Z) :
  card_indices_to_bitmap l = Ok b -> exists ps, l = PyInt <$> ps /\ b = bitmap_of ps.
Proof.
  unfold card_indices_to_bitmap, bitmap_of. generalize 0. revert b.
  induction l as [|v l IH]; intros b acc; simpl.
  - intros [= <-]. exists []. auto.
  - intros Hrun. apply bind_inv_Ok in Hrun as (acc' & Hv & Hrest).
    destruct v as [|i|s|vs]; try discriminate. simpl in Hv.
    apply IH in Hrest as (ps & -> & ->). exists (i :: ps). split; [reflexivity|].
    simpl. destruct ((1 <=? i) && (i <=? MAX_HAND_SIZE)); injection Hv as <-; reflexivity.
Qed.

(** ** The legality mask *)

Lemma int_items_Some (l : list pyval) (A : list Z) :
  int_items l = Some A -> l = PyInt <$> A.
Proof.
  revert A. induction l as [|v l IH]; intros A; simpl.
  - intros [= <-]. reflexivity.
  - destruct v as [|z|s|vs]; try discriminate.
    destruct (int_items l) as [A'|]; [|discriminate].
    intros [= <-]. simpl. f_equal. apply IH. reflexivity.
Qed.

Lemma marks_kind_region (i : Z) (t : ActionType) :
  region_kind i = Some t -> marks_kind (ActionType_value t) i.
Proof.
  intros Hr. pose proof (decoded_kind_region i) as Hk. rewrite Hr in Hk.
  split.
  - revert Hr. unfold region_kind. offsets.
    split_ifs; try discriminate; bool_to_prop; lia.
  - destruct (decode_action i) as [a|e]; [|discriminate].
    exists a. split; [reflexivity|]. simpl in Hk. injection Hk as ->. reflexivity.
Qed.

Lemma marks_kind_play_hand (b : Z) :
  0 <= b < 1024 -> marks_kind "PLAY_HAND" (play_hand_offset + b).
Proof.
  intros Hb. apply (marks_kind_region _ PLAY_HAND).
  unfold region_kind. offsets. split_ifs; bool_to_prop; try lia; reflexivity.
Qed.

Lemma marks_kind_discard (b : Z) :
  0 <= b < 1024 -> marks_kind "DISCARD" (discard_offset + b).
Proof.
  intros Hb. apply (marks_kind_region _ DISCARD).
  unfold region_kind. offsets. split_ifs; bool_to_prop; try lia; reflexivity.
Qed.

Section Selection.
Variables (offset : Z) (mask : list bool).
Hypothesis region_fits :
  forall b, 0 <= b < 1024 -> 0 <= offset + b < Z.of_nat (length mask).

(** The inner loop of a card-selection branch on combinations of
    integers. *)
Lemma mark_combos_ints (cs : list (list Z)) (idxs : list Z) :
  foldM (fun mask combo =>
           bitmap ← card_indices_to_bitmap combo;
           list_setitem mask (offset + bitmap) true)
        (mark mask idxs) ((fun c : list Z => PyInt <$> c) <$> cs)
  = Ok (mark mask (idxs ++ ((fun c => offset + bitmap_of c) <$> cs))).
Proof.
  revert idxs. induction cs as [|c cs IH]; intros idxs; simpl.
  - rewrite app_nil_r. reflexivity.
  - rewrite card_indices_to_bitmap_ints, bind_Ok.
    rewrite list_setitem_in_range
      by (rewrite length_mark; apply region_fits, bitmap_of_range).
    rewrite bind_Ok.
    change (<[Z.to_nat (offset + bitmap_of c) := true]> (mark mask idxs))
      with (mark (mark mask idxs) [offset + bitmap_of c]).
    rewrite <- mark_app, IH, <- app_assoc. reflexivity.
Qed.

(** The outer loop over the permitted sizes. *)
Lemma mark_sizes_ints (A : list Z) (sizes : list Z) (idxs : list Z) :
  Forall (Z.le 0) sizes ->
  foldM (fun mask size =>
           combos ← combinations (PyInt <$> A) size;
           foldM (fun mask combo =>
                    bitmap ← card_indices_to_bitmap combo;
                    list_setitem mask (offset + bitmap) true)
                 mask combos)
        (mark mask idxs) sizes
  = Ok (mark mask
          (idxs ++ flat_map (fun size =>
                               (fun c => offset + bitmap_of c)
                                 <$> combinations_nat A (Z.to_nat size)) sizes)).
Proof.
  intros Hsizes. revert idxs.
  induction Hsizes as [|size sizes Hsize _ IH]; intros idxs; simpl.
  - rewrite app_nil_r. reflexivity.
  - unfold combinations. destruct (Z.ltb_spec size 0); [lia|].
    rewrite bind_Ok, combinations_nat_fmap, mark_combos_ints, bind_Ok.
    rewrite IH, <- app_assoc. reflexivity.
Qed.

(** A well-formed card-selection block is expanded without an error, and
    marks exactly [selection_marks]. *)
Lemma mark_combinations_ints (ci : gmap string pyval) (hand_size : Z)
    (A : list Z) (m M : Z) :
  dict_get ci "available" (PyList (PyInt <$> range 1 (hand_size + 1)))
    = PyList (PyInt <$> A) ->
  dict_get ci "min_select" (PyInt 1) = PyInt m ->
  dict_get ci "max_select" (PyInt 5) = PyInt M ->
  0 <= m ->
  mark_combinations offset ci hand_size mask
  = Ok (mark mask (selection_marks offset A m M)).
Proof.
  intros Ha Hm HM Hm0. unfold mark_combinations. rewrite Ha, Hm, HM.
  simpl py_len. simpl as_int. simpl py_iter. rewrite !bind_Ok.
  rewrite length_fmap.
  apply (mark_sizes_ints A _ []).
  apply List.Forall_forall. intros k Hk. apply In_range in Hk. lia.
Qed.

(** Whatever a card-selection block contains, if expanding it returns then
    only indices of the region were marked. *)
Lemma mark_combinations_sound (good : Z -> Prop) (ci : gmap string pyval)
    (hand_size : Z) (mask' : list bool) :
  (forall b, 0 <= b < 1024 -> good (offset + b)) ->
  mark_combinations offset ci hand_size mask = Ok mask' ->
  exists idxs, mask' = mark mask idxs /\ forall i, i ∈ idxs -> good i.
Proof.
  intros Hgood. unfold mark_combinations. intros Hrun.
  apply bind_inv_Ok in Hrun as (n & _ & Hrun).
  apply bind_inv_Ok in Hrun as (hi & _ & Hrun).
  apply bind_inv_Ok in Hrun as (lo & _ & Hrun).
  apply bind_inv_Ok in Hrun as (pool & _ & Hrun).
  set (P := fun m : list bool =>
              exists idxs, m = mark mask idxs /\ forall i, i ∈ idxs -> good i).
  assert (HP0 : P mask).
  { exists []. split; [reflexivity|]. intros i Hi. inversion Hi. }
  revert Hrun. apply (foldM_invariant P); [exact HP0|].
  intros m1 size m2 _ Hm1 Hsize.
  apply bind_inv_Ok in Hsize as (combos & _ & Hinner).
  revert Hinner. apply (foldM_invariant P); [exact Hm1|].
  intros m3 combo m4 _ (idxs & -> & Hidxs) Hbody.
  apply bind_inv_Ok in Hbody as (bitmap & Hbitmap & Hset).
  apply card_indices_to_bitmap_Ok in Hbitmap as (ps & _ & ->).
  pose proof (bitmap_of_range ps) as Hb.
  rewrite list_setitem_in_range in Hset
    by (rewrite length_mark; apply region_fits, Hb).
  injection Hset as <-.
  exists (idxs ++ [offset + bitmap_of ps])%list. split.
  - rewrite mark_app. reflexivity.
  - intros i Hi. apply elem_of_app in Hi as [Hi|Hi]; [auto|].
    apply list_elem_of_singleton in Hi as ->. apply Hgood, Hb.
Qed.

End Selection.


Lemma mask_sized_mark (mask : list bool) (idxs : list Z) :
  mask_sized mask -> mask_sized (mark mask idxs).
Proof. unfold mask_sized. rewrite length_mark. auto. Qed.

Lemma mask_sized_fits (mask : list bool) (offset : Z) :
  mask_sized mask ->
  offset = play_hand_offset \/ offset = discard_offset ->
  forall b, 0 <= b < 1024 -> 0 <= offset + b < Z.of_nat (length mask).
Proof. intros Hlen Ho b Hb. rewrite Hlen. offsets. lia. Qed.

(** One iteration of the mask loop either expands a card-selection block,
    or marks, without fail, a few indices that all decode to the kind of the
    legal action. *)
Lemma mask_action_cases (hand_size : Z) (mask : list bool) (act : LegalAction) :
  mask_sized mask ->
  (exists offset ci,
      (type_name (la_type act) = "PLAY_HAND" /\ offset = play_hand_offset
       \/ type_name (la_type act) = "DISCARD" /\ offset = discard_offset)
      /\ truthy_dict (card_indices (la_params act)) = Some ci
      /\ mask_action hand_size mask act
         = mark_combinations offset ci hand_size mask)
  \/ (exists idxs,
         mask_action hand_size mask act = Ok (mark mask idxs)
         /\ forall i, i ∈ idxs -> marks_kind (type_name (la_type act)) i).
Proof.
  intros Hlen. unfold mask_action.
  assert (Hfit : forall i, 0 <= i < 2077 -> 0 <= i < Z.of_nat (length mask)).
  { intros i Hi. rewrite Hlen. offsets. lia. }
  assert (Hnone : exists idxs : list Z,
             Ok mask = Ok (mark mask idxs)
             /\ forall i, i ∈ idxs -> marks_kind (type_name (la_type act)) i).
  { exists []. split; [reflexivity|]. intros i Hi. inversion Hi. }
  assert (Hone : forall (t : ActionType) (i : Z),
             type_name (la_type act) = ActionType_value t ->
             region_kind i = Some t ->
             exists idxs : list Z,
               list_setitem mask i true = Ok (mark mask idxs)
               /\ forall j, j ∈ idxs -> marks_kind (type_name (la_type act)) j).
  { intros t i Ht Hr. pose proof (marks_kind_region i t Hr) as Hk.
    exists [i]. split.
    - apply list_setitem_in_range. apply Hfit. destruct Hk as [Hk _].
      revert Hk. offsets. lia.
    - intros j Hj. apply list_elem_of_singleton in Hj as ->. rewrite Ht. exact Hk. }
  simple_lookups. rewrite !bind_Ok.
  destruct (String.eqb_spec (type_name (la_type act)) "SHOP_REROLL") as [Ht|_].
  { right. apply (Hone SHOP_REROLL); [exact Ht | reflexivity]. }
  destruct (String.eqb_spec (type_name (la_type act)) "SHOP_END") as [Ht|_].
  { right. apply (Hone SHOP_END); [exact Ht | reflexivity]. }
  destruct (String.eqb_spec (type_name (la_type act)) "SKIP_BLIND") as [Ht|_].
  { right. apply (Hone SKIP_BLIND); [exact Ht | reflexivity]. }
  destruct (String.eqb_spec (type_name (la_type act)) "SKIP_PACK") as [Ht|_].
  { right. apply (Hone SKIP_PACK); [exact Ht | reflexivity]. }
  destruct (String.eqb_spec (type_name (la_type act)) "SORT_HAND") as [Ht|_].
  { right. exists [4; 5]. split.
    - rewrite list_setitem_in_range by (apply Hfit; lia). rewrite !bind_Ok.
      rewrite list_setitem_in_range by (rewrite length_insert; apply Hfit; lia).
      reflexivity.
    - intros j Hj. rewrite Ht.
      apply elem_of_cons in Hj as [-> | Hj];
        [|apply list_elem_of_singleton in Hj as ->];
        apply (marks_kind_region _ SORT_HAND); reflexivity. }
  destruct (String.eqb_spec (type_name (la_type act)) "PLAY_HAND") as [Ht|_].
  { destruct (truthy_dict (card_indices (la_params act))) as [ci|] eqn:Hci.
    - left. exists play_hand_offset, ci. auto.
    - right. exact Hnone. }
  destruct (String.eqb_spec (type_name (la_type act)) "DISCARD") as [Ht|_].
  { destruct (truthy_dict (card_indices (la_params act))) as [ci|] eqn:Hci.
    - left. exists discard_offset, ci. auto.
    - right. exact Hnone. }
  destruct (String.eqb_spec (type_name (la_type act)) "SHOP_BUY") as [Ht|_].
  { right. destruct (truthy_int (slot (la_params act))) as [s|]; [|exact Hnone].
    destruct ((1 <=? s) && (s <=? MAX_SHOP_SLOTS)) eqn:Hs; [|exact Hnone].
    apply (Hone SHOP_BUY); [exact Ht|].
    unfold region_kind. offsets. bool_to_prop.
    split_ifs; bool_to_prop; try lia; reflexivity. }
  destruct (String.eqb_spec (type_name (la_type act)) "SHOP_SELL_JOKER") as [Ht|_].
  { right. destruct (truthy_int (joker_index (la_params act))) as [s|]; [|exact Hnone].
    destruct ((1 <=? s) && (s <=? MAX_JOKERS)) eqn:Hs; [|exact Hnone].
    apply (Hone SHOP_SELL_JOKER); [exact Ht|].
    unfold region_kind. offsets. bool_to_prop.
    split_ifs; bool_to_prop; try lia; reflexivity. }
  destruct (String.eqb_spec (type_name (la_type act)) "SELECT_PACK_ITEM") as [Ht|_].
  { right. destruct (truthy_int (choice_index (la_params act))) as [s|]; [|exact Hnone].
    destruct ((1 <=? s) && (s <=? MAX_PACK_CHOICES)) eqn:Hs; [|exact Hnone].
    apply (Hone SELECT_PACK_ITEM); [exact Ht|].
    unfold region_kind. offsets. bool_to_prop.
    split_ifs; bool_to_prop; try lia; reflexivity. }
  destruct (String.eqb_spec (type_name (la_type act)) "SELECT_BLIND") as [Ht|_].
  { right. exists ((fun i => blind_select_offset + i) <$> range 0 3). split.
    - apply (foldM_setitem mask (fun i => blind_select_offset + i)).
      intros i Hi. apply list_elem_of_In, In_range in Hi. apply Hfit. offsets. lia.
    - intros j Hj. rewrite Ht.
      apply list_elem_of_fmap in Hj as (i & -> & Hi).
      apply list_elem_of_In, In_range in Hi.
      apply (marks_kind_region _ SELECT_BLIND).
      unfold region_kind. offsets. split_ifs; bool_to_prop; try lia; reflexivity. }
  right. exact Hnone.
Qed.

(** If an iteration of the mask loop returns, the mask it returns is the
    one it was given with some indices marked, each decoding to the kind of
    the legal action. *)
Lemma mask_action_sound (hand_size : Z) (mask mask' : list bool) (act : LegalAction) :
  mask_sized mask ->
  mask_action hand_size mask act = Ok mask' ->
  exists idxs, mask' = mark mask idxs
               /\ forall i, i ∈ idxs -> marks_kind (type_name (la_type act)) i.
Proof.
  intros Hlen Hrun.
  destruct (mask_action_cases hand_size mask act Hlen)
    as [(offset & ci & Hkind & _ & Heq) | (idxs & Heq & Hidxs)].
  - rewrite Heq in Hrun. revert Hrun. apply mark_combinations_sound.
    + apply mask_sized_fits; [assumption | tauto].
    + intros b Hb. destruct Hkind as [[-> ->] | [-> ->]];
        [apply marks_kind_play_hand | apply marks_kind_discard]; assumption.
  - rewrite Heq in Hrun. injection Hrun as <-. eauto.
Qed.

(** ** Subsets of the available positions and their bitmaps *)








(** ** C10: the mask only marks indices that decode to a legal kind *)

Lemma mask_sized_initial :
  mask_sized (replicate (Z.to_nat action_space_size) false).
Proof. unfold mask_sized. rewrite length_replicate. reflexivity. Qed.

Lemma lookup_initial_mask (i : nat) :
  replicate (Z.to_nat action_space_size) false !! i <> Some true.
Proof.
  intros Hi. apply lookup_replicate in Hi as [Hi _]. discriminate.
Qed.

Lemma marks_in_range (mask : list bool) (kind : string) (idxs : list Z) :
  mask_sized mask ->
  (forall i, i ∈ idxs -> marks_kind kind i) ->
  forall i, i ∈ idxs -> 0 <= i < Z.of_nat (length mask).
Proof.
  intros Hlen Hidxs i Hi. rewrite Hlen. destruct (Hidxs i Hi) as [Hr _]. exact Hr.
Qed.

(** C10: every index that the legality mask marks lies below the size of
    the action space and decodes, without error, to a request whose kind is
    the kind of one of the legal actions. *)
Theorem mask_decode_compatible (legal_actions : LegalActions) (hand_size : Z)
    (mask : list bool) (i : nat) :
  get_legal_action_mask legal_actions hand_size = Ok mask ->
  mask !! i = Some true ->
  0 <= Z.of_nat i < get_action_space_size
  /\ exists act a,
       act ∈ actions legal_actions
       /\ decode_action (Z.of_nat i) = Ok a
       /\ type_name (type a) = type_name (la_type act).
Proof.
  unfold get_legal_action_mask. intros Hrun.
  set (P := fun m : list bool =>
              mask_sized m
              /\ forall j, m !! j = Some true ->
                   exists act, act ∈ actions legal_actions
                               /\ marks_kind (type_name (la_type act)) (Z.of_nat j)).
  assert (HP : P mask).
  { revert Hrun. apply (foldM_invariant P).
    - split; [apply mask_sized_initial|].
      intros j Hj. destruct (lookup_initial_mask j Hj).
    - intros m act m' Hact [Hlen Hm] Hstep.
      apply mask_action_sound in Hstep as (idxs & -> & Hidxs); [|assumption].
      split; [apply mask_sized_mark, Hlen|].
      intros j Hj. apply lookup_mark in Hj; [|eapply marks_in_range; eassumption].
      destruct Hj as [Hj | (k & Hk & <-)]; [auto|].
      exists act. split; [assumption|].
      pose proof (Hidxs k Hk) as Hkind. destruct Hkind as [Hr Hd].
      rewrite Z2Nat.id by lia. split; assumption. }
  intros Hi. destruct HP as [_ HP]. destruct (HP i Hi) as (act & Hact & Hr & a & Ha & Hk).
  split; [exact Hr|]. exists act, a. auto.
Qed.

Lemma mask_decode_compatible_witness :
  0 <= Z.of_nat 2075 < get_action_space_size
  /\ exists act a,
       act ∈ [mkLegalAction (Enum SELECT_BLIND) "Select blind"
                (mkActionParams None None None None None None None None)]
       /\ decode_action (Z.of_nat 2075) = Ok a
       /\ type_name (type a) = type_name (la_type act).
Proof.
  apply (mask_decode_compatible
           (mkLegalActions "1.0.0" BLIND_SELECT
              [mkLegalAction (Enum SELECT_BLIND) "Select blind"
                 (mkActionParams None None None None None None None None)] None)
           8
           (mark (replicate (Z.to_nat action_space_size) false) [2074; 2075; 2076])
           2075%nat).
  - vm_compute. reflexivity.
  - vm_compute. reflexivity.
Defined.

(** ** C7: the PLAY_HAND region of the mask *)


Lemma well_formed_selection_inv (hand_size : Z) (ci : gmap string pyval) :
  well_formed_selection hand_size ci = true ->
  exists A m M,
    dict_get ci "available" (PyList (PyInt <$> range 1 (hand_size + 1)))
      = PyList (PyInt <$> A)
    /\ dict_get ci "min_select" (PyInt 1) = PyInt m
    /\ dict_get ci "max_select" (PyInt 5) = PyInt M
    /\ 0 <= m.
Proof.
  unfold well_formed_selection.
  destruct (dict_get ci "available" _) as [| |?|l]; try discriminate.
  destruct (dict_get ci "min_select" _) as [|m| |]; try discriminate.
  destruct (dict_get ci "max_select" _) as [|M| |]; try discriminate.
  intros Hwf. apply andb_true_iff in Hwf as [Hl Hm].
  apply bool_decide_eq_true in Hl as [A HA]. apply Z.leb_le in Hm.
  exists A, m, M. rewrite (int_items_Some l A HA). auto.
Qed.


(** A well-formed legal action never makes the mask loop raise. *)
Lemma mask_action_total (hand_size : Z) (mask : list bool) (act : LegalAction) :
  mask_sized mask -> well_formed hand_size act = true ->
  exists mask', mask_action hand_size mask act = Ok mask'.
Proof.
  intros Hlen Hwf.
  destruct (mask_action_cases hand_size mask act Hlen)
    as [(offset & ci & Hkind & Hci & Heq) | (idxs & Heq & _)]; [|eauto].
  rewrite Heq. unfold well_formed in Hwf. rewrite Hci in Hwf.
  assert (Hsel : well_formed_selection hand_size ci = true).
  { destruct Hkind as [[Ht _] | [Ht _]]; rewrite Ht in Hwf; exact Hwf. }
  apply well_formed_selection_inv in Hsel as (A & m & M & Ha & Hm & HM & Hm0).
  eexists. apply mark_combinations_ints; try eassumption.
  apply mask_sized_fits; [assumption|]. tauto.
Qed.


Section PlayHand.
Variables (hand_size : Z) (entry : LegalAction) (ci : gmap string pyval).
Variables (A : list Z) (m M : Z).
Hypothesis entry_kind : type_name (la_type entry) = "PLAY_HAND".
Hypothesis entry_params : card_indices (la_params entry) = Some ci.
Hypothesis entry_available : ci !! "available" = Some (PyList (PyInt <$> A)).
Hypothesis entry_min : ci !! "min_select" = Some (PyInt m).
Hypothesis entry_max : ci !! "max_select" = Some (PyInt M).
Hypothesis min_nonneg : 0 <= m.




End PlayHand.

(** Why the available positions are taken on the hand: a position beyond
    the tenth has no bit, [card_indices_to_bitmap] skips it, and the
    combination that selects it is marked as the selection without it. With
    [available = [11]] and exactly one card to select, the index marked is
    the one of the empty selection. *)
Lemma position_beyond_hand_is_skipped :
  exists mask,
    get_legal_action_mask
      (mkLegalActions "1.0.0" SELECTING_HAND [play_hand_entry [11] 1 1] None) 11
    = Ok mask
    /\ true_indices mask = [10%nat]
    /\ decode_action 10 = Ok (request PLAY_HAND {["card_indices" := PyList []]}).
Proof.
  eexists. split; [vm_compute; reflexivity|]. split; vm_compute; reflexivity.
Qed.

(** ** C8: the reward of a transition *)

(** C8: for a previous snapshot with money 10, no chips scored on the
    Small Blind, ante 1, phase SELECTING_HAND, and a new snapshot with money
    15, 2000 chips scored on the Small Blind, ante 1, phase HAND_PLAYED, the
    reward is exactly the float 5.02; and for a null previous snapshot the
    reward is 0. *)
Theorem compute_reward_scenario :
  (forall (prev new : GameState) (prev_blind new_blind : BlindData),
      money prev = 10 -> blind prev = Some prev_blind ->
      chips_scored prev_blind = 0 -> blind_name prev_blind = Some "Small Blind" ->
      ante prev = 1 -> phase prev = SELECTING_HAND ->
      money new = 15 -> blind new = Some new_blind ->
      chips_scored new_blind = 2000 -> blind_name new_blind = Some "Small Blind" ->
      ante new = 1 -> phase new = HAND_PLAYED ->
      BalatroEnv._compute_reward (Some prev) new = Ok 5.02%float)
  /\ (forall new : GameState, BalatroEnv._compute_reward None new = Ok 0%float).
Proof.
  split; [|reflexivity].
  intros prev new pb nb Hm Hb Hc Hn Ha Hp Hm' Hb' Hc' Hn' Ha' Hp'.
  unfold BalatroEnv._compute_reward.
  rewrite Hm, Hb, Hc, Hn, Ha, Hp, Hm', Hb', Hc', Hn', Ha', Hp'.
  vm_compute. reflexivity.
Qed.

Lemma compute_reward_scenario_witness :
  BalatroEnv._compute_reward
    (Some (snapshot SELECTING_HAND 10 1 (Some (small_blind_data 0)) None))
    (snapshot HAND_PLAYED 15 1 (Some (small_blind_data 2000)) None)
  = Ok 5.02%float.
Proof.
  apply (proj1 compute_reward_scenario
           (snapshot SELECTING_HAND 10 1 (Some (small_blind_data 0)) None)
           (snapshot HAND_PLAYED 15 1 (Some (small_blind_data 2000)) None)
           (small_blind_data 0) (small_blind_data 2000)); reflexivity.
Defined.

(** ** C5: termination and truncation of a step *)

Import BalatroEnv.

Section Step.
Context `{PyRuntime}.

Lemma submit_keeps_counters (client : BalatroClient) (env env' : Env)
    (a : ActionRequest) (r : result unit) :
  submit client env a = (env', r) ->
  max_steps env' = max_steps env
  /\ _step_count env' = _step_count env
  /\ _episode_reward env' = _episode_reward env.
Proof.
  unfold submit. intros Hs.
  destruct (execute_action client a) as [res|e].
  - destruct (ok res && bool_decide (is_Some (result_state res))).
    + injection Hs as <- _. auto.
    + destruct (get_state client) as [s|e].
      * destruct (get_legal_actions client) as [l|e];
          injection Hs as <- _; auto.
      * injection Hs as <- _. auto.
  - injection Hs as <- _. auto.
Qed.

Lemma get_info_no_error (env : Env) (i : Info) :
  _get_info env = Ok i ->
  info_error i = None /\ step_count i = _step_count env
  /\ connected i = _connected env.
Proof.
  unfold _get_info. intros Hi.
  apply bind_inv_Ok in Hi as (mask & _ & Hi). injection Hi as <-. auto.
Qed.

(** C5 (as the code has it): when a step returns without a connectivity
    failure, truncated is true exactly when the incremented step counter
    has reached [max_steps], and terminated is true exactly when the new
    phase is MENU or SPLASH, or the incremented step counter has reached
    [max_steps], or the new snapshot carries an error: the step budget sets
    both flags. *)
Theorem step_terminated_truncated (client : BalatroClient) (env env' : Env)
    (action : Z) (r : StepReturn) :
  step client env action = (env', Ok r) ->
  info_error (info r) = None ->
  exists new_state,
    _current_state env' = Some new_state
    /\ _step_count env' = _step_count env + 1
    /\ truncated r = (max_steps env <=? _step_count env + 1)
    /\ terminated r
       = (bool_decide (phase new_state = MENU)
          || bool_decide (phase new_state = SPLASH)
          || (max_steps env <=? _step_count env + 1)
          || bool_decide (is_Some (truthy_str (error new_state))))
    /\ (truncated r = true -> terminated r = true).
Proof.
  unfold step. intros Hstep Hnoerr.
  destruct (decode_action action) as [a|e]; [|discriminate].
  destruct (submit client _ a) as [env2 [[]|e]] eqn:Hsub.
  - apply submit_keeps_counters in Hsub as (Hmax & Hcount & _). simpl in Hmax, Hcount.
    destruct (_current_state env2) as [current|] eqn:Hcur; [|discriminate].
    destruct (_compute_reward _ current) as [rew|e]; [|discriminate].
    injection Hstep as <- Hr.
    apply bind_inv_Ok in Hr as (obs & _ & Hr).
    apply bind_inv_Ok in Hr as (i & _ & Hr). injection Hr as <-.
    exists current. simpl. rewrite Hmax, Hcount.
    split; [exact Hcur|]. split; [reflexivity|]. split; [reflexivity|].
    unfold _is_terminal. simpl. rewrite Hmax, Hcount.
    destruct (bool_decide (phase current = MENU)),
             (bool_decide (phase current = SPLASH)),
             (max_steps env <=? _step_count env + 1),
             (bool_decide (is_Some (truthy_str (error current))));
      simpl; auto.
  - exfalso. destruct e; try discriminate.
    injection Hstep as _ Hr.
    apply bind_inv_Ok in Hr as (i & _ & Hr).
    apply bind_inv_Ok in Hr as (obs & _ & Hr). injection Hr as <-.
    simpl in Hnoerr. discriminate.
Qed.

End Step.

(** C5, as stated, fails: a step that reaches the step budget is reported
    as terminated although the new phase is SELECTING_HAND and the snapshot
    carries no error. (The flags do not depend on the runtime.) *)
Lemma terminated_by_step_budget :
  let s := snapshot SELECTING_HAND 4 1 (Some (small_blind_data 0)) None in
  exists env' r,
    step (H := sample_runtime) (accepting_client s) (env_after_reset 1 s None) 0
    = (env', Ok r)
    /\ info_error (info r) = None
    /\ phase s = SELECTING_HAND /\ error s = None
    /\ truncated r = true
    /\ terminated r = true.
Proof.
  cbv zeta. eexists. eexists. split; [vm_compute; reflexivity|].
  repeat split.
Qed.

Lemma step_terminated_truncated_witness :
  let s := snapshot SELECTING_HAND 4 1 (Some (small_blind_data 0)) None in
  let env := env_after_reset 5 s None in
  let out := step (H := sample_runtime) (accepting_client s) env 0 in
  match snd out with
  | Ok r =>
      exists new_state,
        _current_state (fst out) = Some new_state
        /\ _step_count (fst out) = _step_count env + 1
        /\ truncated r = (max_steps env <=? _step_count env + 1)
        /\ terminated r
           = (bool_decide (phase new_state = MENU)
              || bool_decide (phase new_state = SPLASH)
              || (max_steps env <=? _step_count env + 1)
              || bool_decide (is_Some (truthy_str (error new_state))))
        /\ (truncated r = true -> terminated r = true)
  | Raise _ => False
  end.
Proof.
  cbv zeta.
  destruct (step (H := sample_runtime)
              (accepting_client (snapshot SELECTING_HAND 4 1 (Some (small_blind_data 0)) None))
              (env_after_reset 5 (snapshot SELECTING_HAND 4 1 (Some (small_blind_data 0)) None) None) 0)
    as [env' out] eqn:Hstep.
  assert (Hout : exists r, out = Ok r /\ info_error (info r) = None).
  { revert Hstep. vm_compute. intros [= <- <-]. eexists. split; reflexivity. }
  destruct Hout as (r & -> & Hnoerr).
  exact (step_terminated_truncated _ _ _ _ _ Hstep Hnoerr).
Defined.

(** ** The featurizer *)

Import ObservationTokenizer.

Lemma succeeds_Ok {A} (r : result A) : succeeds r = true -> exists a, r = Ok a.
Proof. destruct r; [eauto | discriminate]. Qed.

Lemma small_fits_float (z : Z) : 0 <= z <= 14 -> fits_float z = true.
Proof.
  intros Hz.
  assert (Hall : forallb fits_float (range 0 15) = true) by (vm_compute; reflexivity).
  rewrite forallb_forall in Hall. apply Hall, In_range. lia.
Qed.

Lemma small_truediv (a b : Z) :
  b = 15 \/ b = 100 \/ b = 200 -> 0 <= a < b -> succeeds (int_truediv a b) = true.
Proof.
  intros Hb Ha.
  assert (Hall : forall n,
             forallb (fun a => succeeds (int_truediv a n)) (range 0 n) = true ->
             0 <= a < n -> succeeds (int_truediv a n) = true).
  { intros n Hn Han. rewrite forallb_forall in Hn. apply Hn, In_range. lia. }
  destruct Hb as [-> | [-> | ->]]; apply Hall; try assumption;
    vm_compute; reflexivity.
Qed.

Lemma lookup_default_bounded (m : gmap string Z) (key : string) (bound : Z) :
  map_Forall (fun _ v => 0 <= v <= bound) m -> 0 <= bound ->
  0 <= default 0 (m !! key) <= bound.
Proof.
  intros Hall Hb. destruct (m !! key) as [v|] eqn:Hk; simpl; [|lia].
  exact (Hall key v Hk).
Qed.

Lemma list_to_map_Forall (l : list (string * Z)) (bound : Z) :
  Forall (fun kv => 0 <= kv.2 <= bound) l ->
  map_Forall (fun _ v => 0 <= v <= bound) (list_to_map l : gmap string Z).
Proof.
  intros Hl key v Hk. apply elem_of_list_to_map_2 in Hk.
  rewrite Forall_forall in Hl. exact (Hl _ Hk).
Qed.

Lemma VOCAB_lookup :
  dict_getitem VOCAB "enhancement" = Ok 15
  /\ dict_getitem VOCAB "joker" = Ok 200
  /\ dict_getitem VOCAB "consumable" = Ok 100.
Proof. repeat split; vm_compute; reflexivity. Qed.

(** The padding loop: every slot contributes [width] features, and the
    slots beyond the items contribute zeros. *)
Lemma extend_padded_from {A} (xs : list A) (tokenize : A -> result (list float))
    (width : nat) (k : nat) :
  forall (lo : Z) (features : list float),
    0 <= lo ->
    (forall i x, lo <= i < lo + Z.of_nat k -> xs !! Z.to_nat i = Some x ->
                 exists t, tokenize x = Ok t /\ length t = width) ->
    exists rest,
      foldM (fun features i =>
               if i <? Z.of_nat (length xs)
               then x ← list_getitem xs i;
                    t ← tokenize x;
                    Ok (features ++ t)%list
               else Ok (features ++ replicate width 0%float)%list)
            features (range lo (lo + Z.of_nat k))
      = Ok (features ++ rest)%list
      /\ length rest = (width * k)%nat
      /\ forall j, (width * Z.to_nat (Z.max 0 (Z.of_nat (length xs) - lo)) <= j)%nat ->
                   (j < width * k)%nat -> rest !! j = Some 0%float.
Proof.
  induction k as [|k IH]; intros lo features Hlo Htok.
  - exists []. rewrite range_nil by lia. simpl. rewrite app_nil_r.
    split; [reflexivity|]. split; [lia|]. intros j _ Hj. lia.
  - rewrite range_cons by lia. simpl foldM.
    replace (lo + Z.of_nat (S k)) with (lo + 1 + Z.of_nat k) by lia.
    destruct (Z.ltb_spec lo (Z.of_nat (length xs))) as [Hin|Hout].
    + destruct (lookup_lt_is_Some_2 xs (Z.to_nat lo)) as [x Hx]; [lia|].
      destruct (Htok lo x) as (t & Ht & Hlen); [lia | exact Hx |].
      assert (Hget : list_getitem xs lo = Ok x).
      { unfold list_getitem. destruct (Z.ltb_spec lo 0); [lia|].
        destruct (Z.ltb_spec lo 0); [lia|]. rewrite Hx. reflexivity. }
      rewrite Hget, bind_Ok, Ht, bind_Ok, bind_Ok.
      destruct (IH (lo + 1) (features ++ t)%list) as (rest & Hrun & Hrest & Hzero);
        [lia | intros i y Hi; apply Htok; lia |].
      exists (t ++ rest)%list. rewrite Hrun, <- app_assoc.
      split; [reflexivity|]. split; [rewrite length_app; lia|].
      intros j Hj Hjk.
      assert (Hw : (width * Z.to_nat (Z.max 0 (Z.of_nat (length xs) - lo))
                    = width + width * Z.to_nat (Z.max 0 (Z.of_nat (length xs) - (lo + 1))))%nat).
      { replace (Z.to_nat (Z.max 0 (Z.of_nat (length xs) - lo)))
          with (S (Z.to_nat (Z.max 0 (Z.of_nat (length xs) - (lo + 1))))) by lia.
        lia. }
      rewrite lookup_app_r by lia. apply Hzero; lia.
    + rewrite bind_Ok.
      destruct (IH (lo + 1) (features ++ replicate width 0%float)%list)
        as (rest & Hrun & Hrest & Hzero);
        [lia | intros i y Hi; apply Htok; lia |].
      exists (replicate width 0%float ++ rest)%list. rewrite Hrun, <- app_assoc.
      split; [reflexivity|]. split; [rewrite length_app, length_replicate; lia|].
      intros j _ Hjk. destruct (Nat.lt_ge_cases j width) as [Hjw|Hjw].
      * rewrite lookup_app_l by (rewrite length_replicate; exact Hjw).
        apply lookup_replicate_2, Hjw.
      * rewrite lookup_app_r by (rewrite length_replicate; exact Hjw).
        rewrite length_replicate. apply Hzero; [|lia].
        replace (Z.to_nat (Z.max 0 (Z.of_nat (length xs) - (lo + 1)))) with O by lia.
        lia.
Qed.

Lemma extend_padded_spec {A} (features : list float) (xs : list A) (slots : nat)
    (tokenize : A -> result (list float)) (width : nat) :
  Forall (fun x => exists t, tokenize x = Ok t /\ length t = width) (take slots xs) ->
  exists rest,
    extend_padded features xs (Z.of_nat slots) tokenize (Z.of_nat width)
    = Ok (features ++ rest)%list
    /\ length rest = (width * slots)%nat
    /\ forall j, (width * length xs <= j)%nat -> (j < width * slots)%nat ->
                 rest !! j = Some 0%float.
Proof.
  intros Hall. unfold extend_padded. rewrite Nat2Z.id.
  destruct (extend_padded_from xs tokenize width slots 0 features) as (rest & Hrun & Hlen & Hzero).
  - lia.
  - intros i x Hi Hx. rewrite Forall_forall in Hall. apply Hall.
    apply list_elem_of_lookup. exists (Z.to_nat i).
    rewrite lookup_take_lt by lia. exact Hx.
  - exists rest. split; [exact Hrun|]. split; [exact Hlen|].
    intros j Hj Hjk. apply Hzero; [|exact Hjk].
    replace (Z.to_nat (Z.max 0 (Z.of_nat (length xs) - 0))) with (length xs) by lia.
    exact Hj.
Qed.

Lemma int_div_float_fits (z : Z) (f : float) :
  fits_float z = true -> exists x, int_div_float z f = Ok x.
Proof.
  unfold fits_float, int_div_float. intros Hz.
  apply succeeds_Ok in Hz as [x ->]. eauto.
Qed.

Ltac bounded_map :=
  apply lookup_default_bounded; [|lia];
  apply list_to_map_Forall; repeat constructor; simpl; lia.

Section Items.
Context `{PyRuntime}.

Lemma tokenize_card_ok (c : CardData) :
  card_ok c = true -> exists t, tokenize_card c = Ok t /\ length t = 8%nat.
Proof.
  unfold card_ok. intros Hok. apply andb_true_iff in Hok as [Hrank Hpos].
  unfold tokenize_card. cbv zeta.
  destruct VOCAB_lookup as (-> & _ & _).
  assert (Hen : exists en,
             match truthy_str (enhancement c) with
             | Some e => v ← Ok 15; Ok (hash e `mod` v)
             | None => Ok 0
             end = Ok en /\ 0 <= en < 15).
  { destruct (truthy_str (enhancement c)) as [e|].
    - exists (hash e `mod` 15). split; [reflexivity|]. apply Z.mod_pos_bound. lia.
    - exists 0. split; [reflexivity | lia]. }
  destruct Hen as (en & -> & Hen). rewrite bind_Ok.
  destruct (int_div_float_fits (card_rank c) 14 Hrank) as [x1 ->]. rewrite bind_Ok.
  assert (Hsuit : 0 <= match truthy_str (suit c) with
                       | Some s => default 0 (SUIT_MAP !! s)
                       | None => 0
                       end <= 14).
  { destruct (truthy_str (suit c)); [|lia]. unfold SUIT_MAP. bounded_map. }
  destruct (int_div_float_fits _ 4 (small_fits_float _ Hsuit)) as [x2 ->].
  rewrite bind_Ok.
  assert (Hed : 0 <= match truthy_str (card_edition c) with
                     | Some e => default 0 (EDITION_MAP !! e)
                     | None => 0
                     end <= 14).
  { destruct (truthy_str (card_edition c)); [|lia]. unfold EDITION_MAP. bounded_map. }
  destruct (int_div_float_fits _ 4 (small_fits_float _ Hed)) as [x3 ->].
  rewrite !bind_Ok.
  destruct (succeeds_Ok _ (small_truediv en 15 (or_introl eq_refl) Hen)) as [x4 ->].
  rewrite bind_Ok.
  match goal with
  | |- context [int_div_float ?sv 4] =>
      assert (Hseal : 0 <= sv <= 14)
        by (destruct (truthy_str (seal c)); [bounded_map | lia]);
      destruct (int_div_float_fits sv 4 (small_fits_float _ Hseal)) as [x5 ->]
  end.
  rewrite bind_Ok.
  destruct (succeeds_Ok _ Hpos) as [x6 ->]. rewrite bind_Ok.
  eexists. split; reflexivity.
Qed.

Lemma tokenize_joker_ok (j : JokerData) :
  joker_ok j = true -> exists t, tokenize_joker j = Ok t /\ length t = 4%nat.
Proof.
  unfold joker_ok. intros Hok. apply andb_true_iff in Hok as [Hr Hs].
  unfold tokenize_joker. destruct VOCAB_lookup as (_ & -> & _). rewrite !bind_Ok.
  match goal with
  | |- context [int_truediv ?a 200] =>
      destruct (succeeds_Ok _ (small_truediv a 200 (or_intror (or_intror eq_refl))
                                 (Z.mod_pos_bound _ 200 eq_refl))) as [x1 ->]
  end.
  rewrite bind_Ok.
  destruct (int_div_float_fits _ 4 Hr) as [x2 ->]. rewrite bind_Ok.
  destruct (int_div_float_fits _ 20 Hs) as [x3 ->]. rewrite bind_Ok.
  eexists. split; reflexivity.
Qed.

Lemma tokenize_consumable_ok (c : ConsumableData) :
  exists t, tokenize_consumable c = Ok t /\ length t = 2%nat.
Proof.
  unfold tokenize_consumable. destruct VOCAB_lookup as (_ & _ & ->). rewrite !bind_Ok.
  match goal with
  | |- context [int_truediv ?a 100] =>
      destruct (succeeds_Ok _ (small_truediv a 100 (or_intror (or_introl eq_refl))
                                 (Z.mod_pos_bound _ 100 eq_refl))) as [x1 ->]
  end.
  rewrite bind_Ok. eexists. split; reflexivity.
Qed.

Lemma tokenize_shop_item_ok (money : Z) (i : ShopItem) :
  shop_item_ok i = true ->
  exists t, tokenize_shop_item money i = Ok t /\ length t = 3%nat.
Proof.
  unfold shop_item_ok. intros Hok. unfold tokenize_shop_item. cbv zeta.
  assert (Hh : 0 <= hash (item_type i) `mod` 10 <= 14).
  { pose proof (Z.mod_pos_bound (hash (item_type i)) 10 eq_refl). lia. }
  destruct (int_div_float_fits _ 10 (small_fits_float _ Hh)) as [x1 ->].
  rewrite bind_Ok.
  destruct (int_div_float_fits _ 50 Hok) as [x2 ->]. rewrite bind_Ok.
  eexists. split; reflexivity.
Qed.

End Items.

Section Totality.
Context `{PyRuntime}.

Lemma forallb_take_Forall {A} (ok : A -> bool) (tokenize : A -> result (list float))
    (width slots : nat) (xs : list A) :
  (forall x, ok x = true -> exists t, tokenize x = Ok t /\ length t = width) ->
  forallb ok (take slots xs) = true ->
  Forall (fun x => exists t, tokenize x = Ok t /\ length t = width) (take slots xs).
Proof.
  intros Hok Hall. apply Forall_forall. intros x Hx.
  apply Hok. rewrite forallb_forall in Hall. apply Hall, list_elem_of_In, Hx.
Qed.

(** On a featurizable snapshot the feature list is the ten scalars followed
    by the four padded blocks. *)
Lemma state_features_total (s : GameState) :
  featurizable s = true ->
  exists scalars cards js cs shop_block,
    state_features s = Ok (scalars ++ cards ++ js ++ cs ++ shop_block)%list
    /\ length scalars = 10%nat
    /\ length cards = 80%nat /\ length js = 20%nat
    /\ length cs = 8%nat /\ length shop_block = 18%nat
    /\ (forall j, (8 * length (hand s) <= j < 80)%nat -> cards !! j = Some 0%float)
    /\ (forall j, (4 * length (jokers s) <= j < 20)%nat -> js !! j = Some 0%float)
    /\ (forall j, (2 * length (consumables s) <= j < 8)%nat -> cs !! j = Some 0%float)
    /\ (forall j, (3 * length (match shop s with Some sh => items sh | None => [] end)
                   <= j < 18)%nat -> shop_block !! j = Some 0%float).
Proof.
  unfold featurizable. intros Hf.
  repeat (apply andb_true_iff in Hf as [Hf ?]).
  unfold state_features.
  assert (Hphase : fits_float (default 8 (PHASE_MAP (phase s))) = true)
    by (destruct (phase s); vm_compute; reflexivity).
  destruct (int_div_float_fits _ 10 Hphase) as [f1 ->]. rewrite bind_Ok.
  destruct (int_div_float_fits (Z.min (money s) 500) 500) as [f2 ->]; [assumption|].
  rewrite bind_Ok.
  destruct (int_div_float_fits (ante s) 8) as [f3 ->]; [assumption|]. rewrite bind_Ok.
  destruct (int_div_float_fits (round s) 32) as [f4 ->]; [assumption|]. rewrite bind_Ok.
  destruct (int_div_float_fits (hands_remaining s) 5) as [f5 ->]; [assumption|].
  rewrite bind_Ok.
  destruct (int_div_float_fits (discards_remaining s) 5) as [f6 ->]; [assumption|].
  rewrite bind_Ok.
  assert (Hneeded : exists needed,
             max_with_one (match blind s with
                           | Some b => chips_needed b
                           | None => Some 0
                           end) = Ok needed).
  { destruct (blind s) as [b|]; [|eexists; reflexivity].
    match goal with
    | Hb : bool_decide (is_Some (chips_needed b)) = true |- _ =>
        apply bool_decide_eq_true in Hb as [n ->]
    end.
    eexists. reflexivity. }
  destruct Hneeded as [needed ->]. rewrite bind_Ok. cbv zeta.
  destruct (int_div_float_fits (deck_size (deck_counts s)) 52) as [f9 ->]; [assumption|].
  rewrite bind_Ok.
  destruct (int_div_float_fits (discard_size (deck_counts s)) 52) as [f10 ->]; [assumption|].
  rewrite bind_Ok.
  change MAX_HAND_SIZE with (Z.of_nat 10). change card_features with (Z.of_nat 8).
  change MAX_JOKERS with (Z.of_nat 5). change MAX_CONSUMABLES with (Z.of_nat 4).
  change MAX_SHOP_ITEMS with (Z.of_nat 6).
  change 4 with (Z.of_nat 4) at 1. change 2 with (Z.of_nat 2) at 1.
  change 3 with (Z.of_nat 3) at 1.
  match goal with
  | |- context [extend_padded ?fs (hand s) _ _ _] =>
      destruct (extend_padded_spec fs (hand s) 10 tokenize_card 8)
        as (cards & -> & Hlc & Hzc);
      [eapply forallb_take_Forall; [apply tokenize_card_ok | assumption]|]
  end.
  rewrite bind_Ok.
  match goal with
  | |- context [extend_padded ?fs (jokers s) _ _ _] =>
      destruct (extend_padded_spec fs (jokers s) 5 tokenize_joker 4)
        as (js & -> & Hlj & Hzj);
      [eapply forallb_take_Forall; [apply tokenize_joker_ok | assumption]|]
  end.
  rewrite bind_Ok.
  match goal with
  | |- context [extend_padded ?fs (consumables s) _ _ _] =>
      destruct (extend_padded_spec fs (consumables s) 4 tokenize_consumable 2)
        as (cs & -> & Hlcs & Hzcs);
      [apply Forall_forall; intros x _; apply tokenize_consumable_ok|]
  end.
  rewrite bind_Ok.
  match goal with
  | |- context [extend_padded ?fs ?its _ (tokenize_shop_item ?m) _] =>
      destruct (extend_padded_spec fs its 6 (tokenize_shop_item m) 3)
        as (sb & -> & Hls & Hzs);
      [eapply forallb_take_Forall; [apply tokenize_shop_item_ok | assumption]|]
  end.
  eexists [f1; f2; f3; f4; f5; f6; _; _; f9; f10], cards, js, cs, sb.
  split; [rewrite <- !app_assoc; reflexivity|].
  split; [reflexivity|].
  repeat (split; [assumption|]).
  split; [intros j Hj; apply Hzc; lia|].
  split; [intros j Hj; apply Hzj; lia|].
  split; [intros j Hj; apply Hzcs; lia|].
  intros j Hj. apply Hzs; lia.
Qed.

End Totality.

Lemma round_float32_zero : round_float32 0%float = zero32.
Proof. vm_compute. reflexivity. Qed.

Section Tensor.
Context `{PyRuntime}.

Lemma tokenize_state_returns (s : GameState) :
  featurizable s = true -> exists v, tokenize_state s = Ok v.
Proof.
  intros Hf. destruct (state_features_total s Hf) as (sc & cards & js & cs & sb & Hrun & _).
  unfold tokenize_state. rewrite Hrun, bind_Ok. eauto.
Qed.

(** The featurizer on the snapshots it accepts: it returns a vector of the
    fixed length [obs_size] = 10 + 10*8 + 5*4 + 4*2 + 6*3 = 136 in which the
    slots of absent cards, jokers, consumables and shop items are zero. *)
Theorem tokenize_state_total (s : GameState) :
  featurizable s = true ->
  exists v,
    tokenize_state s = Ok v
    /\ Z.of_nat (length v) = get_observation_size
    /\ get_observation_size = 10 + 10 * 8 + 5 * 4 + 4 * 2 + 6 * 3
    /\ (forall j, (10 + 8 * length (hand s) <= j < 90)%nat -> v !! j = Some zero32)
    /\ (forall j, (90 + 4 * length (jokers s) <= j < 110)%nat -> v !! j = Some zero32)
    /\ (forall j, (110 + 2 * length (consumables s) <= j < 118)%nat ->
                  v !! j = Some zero32)
    /\ (forall j, (118 + 3 * length (match shop s with
                                     | Some sh => items sh
                                     | None => []
                                     end) <= j < 136)%nat -> v !! j = Some zero32).
Proof.
  intros Hf.
  destruct (state_features_total s Hf)
    as (sc & cards & js & cs & sb & Hrun & Hl0 & Hl1 & Hl2 & Hl3 & Hl4
        & Hz1 & Hz2 & Hz3 & Hz4).
  unfold tokenize_state. rewrite Hrun, bind_Ok. eexists. split; [reflexivity|].
  split; [rewrite length_map, !length_app; unfold get_observation_size; 
          rewrite Hl0, Hl1, Hl2, Hl3, Hl4; reflexivity|].
  split; [reflexivity|].
  assert (Hzero : forall (l : list float) j,
             l !! j = Some 0%float -> map round_float32 l !! j = Some zero32).
  { intros l j Hj. change (map round_float32 l) with (round_float32 <$> l).
    rewrite list_lookup_fmap, Hj. simpl. rewrite round_float32_zero. reflexivity. }
  repeat split; intros j Hj; apply Hzero.
  - rewrite lookup_app_r by lia. rewrite lookup_app_l by lia. apply Hz1. lia.
  - rewrite lookup_app_r by lia. rewrite lookup_app_r by lia.
    rewrite lookup_app_l by lia. apply Hz2. lia.
  - rewrite lookup_app_r by lia. rewrite lookup_app_r by lia.
    rewrite lookup_app_r by lia. rewrite lookup_app_l by lia. apply Hz3. lia.
  - rewrite lookup_app_r by lia. rewrite lookup_app_r by lia.
    rewrite lookup_app_r by lia. rewrite lookup_app_r by lia. apply Hz4. lia.
Qed.

(** C9 (the failing input): a snapshot whose blind leaves [chips_needed]
    unset makes [tokenize_state] raise [TypeError], at [max(chips_needed, 1)],
    whatever the runtime. *)
Theorem tokenize_state_raises_on_named_blind :
  featurizable (snapshot SELECTING_HAND 4 1 (Some named_blind) None) = false
  /\ tokenize_state (snapshot SELECTING_HAND 4 1 (Some named_blind) None)
     = Raise TypeError.
Proof. split; vm_compute; reflexivity. Qed.

End Tensor.

Lemma tokenize_state_total_witness :
  exists v,
    tokenize_state (H := sample_runtime) (snapshot BLIND_SELECT 4 1 None None) = Ok v
    /\ Z.of_nat (length v) = get_observation_size
    /\ get_observation_size = 10 + 10 * 8 + 5 * 4 + 4 * 2 + 6 * 3
    /\ (forall j, (10 + 8 * 0 <= j < 90)%nat -> v !! j = Some zero32)
    /\ (forall j, (90 + 4 * 0 <= j < 110)%nat -> v !! j = Some zero32)
    /\ (forall j, (110 + 2 * 0 <= j < 118)%nat -> v !! j = Some zero32)
    /\ (forall j, (118 + 3 * 0 <= j < 136)%nat -> v !! j = Some zero32).
Proof.
  apply (tokenize_state_total (H := sample_runtime) (snapshot BLIND_SELECT 4 1 None None)).
  vm_compute. reflexivity.
Defined.

(** ** C6: a step whose submission cannot reach the bridge *)

Lemma get_legal_action_mask_total (legal : LegalActions) (hand_size : Z) :
  forallb (well_formed hand_size) (actions legal) = true ->
  exists mask, get_legal_action_mask legal hand_size = Ok mask.
Proof.
  unfold get_legal_action_mask. intros Hwf.
  assert (Hgen : forall acts mask,
             mask_sized mask -> forallb (well_formed hand_size) acts = true ->
             exists mask', foldM (mask_action hand_size) mask acts = Ok mask').
  { induction acts as [|act acts IH]; intros mask Hlen Hall; simpl.
    - eauto.
    - simpl in Hall. apply andb_true_iff in Hall as [Hact Hall].
      destruct (mask_action_total hand_size mask act Hlen Hact) as [mask1 Hstep].
      rewrite Hstep, bind_Ok. apply IH; [|assumption].
      apply mask_action_sound in Hstep as (idxs & -> & _); [|assumption].
      apply mask_sized_mark, Hlen. }
  apply Hgen; [apply mask_sized_initial | assumption].
Qed.

Section Unreachable.
Context `{PyRuntime}.

Lemma get_obs_total (env : Env) :
  observable env = true -> exists obs, _get_obs env = Ok obs.
Proof.
  unfold observable, _get_obs. intros Hobs. apply andb_true_iff in Hobs as [Hs _].
  destruct (_current_state env) as [s|]; [|eauto].
  apply tokenize_state_returns, Hs.
Qed.

Lemma get_info_total (env : Env) :
  observable env = true ->
  exists i, _get_info env = Ok i
            /\ info_error i = None
            /\ step_count i = _step_count env
            /\ connected i = _connected env.
Proof.
  unfold observable. intros Hobs. apply andb_true_iff in Hobs as [_ Hl].
  assert (Hi : exists i, _get_info env = Ok i).
  { unfold _get_info. destruct (_current_legal env) as [legal|].
    - destruct (get_legal_action_mask_total legal _ Hl) as [mask ->].
      rewrite !bind_Ok. eauto.
    - rewrite bind_Ok. eauto. }
  destruct Hi as [i Hi]. exists i. split; [exact Hi|].
  apply get_info_no_error, Hi.
Qed.


End Unreachable.


(** * Further properties of the code *)

(** ** Bitmaps and card positions *)

Lemma bitmap_of_positions_mod (b : Z) :
  bitmap_of (bitmap_to_card_indices b) = b `mod` 1024.
Proof.
  apply Z.bits_inj'. intros k Hk. change 1024 with (2 ^ 10).
  destruct (Z.testbit (b `mod` 2 ^ 10) k) eqn:Hbit.
  - apply bitmap_of_testbit_true; [assumption|].
    destruct (Z.lt_ge_cases k 10) as [Hlt|Hge].
    + rewrite Z.mod_pow2_bits_low in Hbit by lia.
      split; [|unfold ActionEncoder.MAX_HAND_SIZE; lia].
      apply In_bitmap_to_card_indices. unfold ActionEncoder.MAX_HAND_SIZE.
      replace (k + 1 - 1) with k by lia. split; [lia | assumption].
    + rewrite Z.mod_pow2_bits_high in Hbit by lia. discriminate.
  - apply not_true_is_false. intros Ht.
    apply bitmap_of_testbit_true in Ht as [Hin Hlt]; [|assumption].
    apply In_bitmap_to_card_indices in Hin as [_ Hin].
    replace (k + 1 - 1) with k in Hin by lia.
    unfold ActionEncoder.MAX_HAND_SIZE in Hlt.
    rewrite Z.mod_pow2_bits_low in Hbit by lia. congruence.
Qed.

Lemma increasing_succ_filter (f : Z -> bool) (l : list Z) :
  (forall i j p q, (i < j)%nat -> l !! i = Some p -> l !! j = Some q -> p < q) ->
  forall i j p q, (i < j)%nat ->
    map Z.succ (List.filter f l) !! i = Some p ->
    map Z.succ (List.filter f l) !! j = Some q -> p < q.
Proof.
  induction l as [|a l IH]; intros Hinc i j p q Hij Hp Hq.
  - simpl in Hp. rewrite lookup_nil in Hp. discriminate.
  - assert (Hl : forall i j p q, (i < j)%nat ->
                   l !! i = Some p -> l !! j = Some q -> p < q).
    { intros i' j' p' q' Hlt Hp' Hq'.
      apply (Hinc (S i') (S j') p' q'); [lia | exact Hp' | exact Hq']. }
    simpl in Hp, Hq. destruct (f a).
    + destruct j as [|j]; [lia|]. simpl in Hq.
      destruct i as [|i].
      * simpl in Hp. injection Hp as <-.
        change (map Z.succ (List.filter f l)) with (Z.succ <$> List.filter f l) in Hq.
        rewrite list_lookup_fmap in Hq.
        destruct (List.filter f l !! j) as [x|] eqn:Hx; [|discriminate].
        injection Hq as <-.
        assert (Hin : In x l).
        { apply (proj1 (filter_In f x l)). apply list_elem_of_In.
          eapply list_elem_of_lookup_2. exact Hx. }
        apply list_elem_of_In, list_elem_of_lookup in Hin as [n Hn].
        pose proof (Hinc O (S n) a x ltac:(lia) eq_refl Hn). lia.
      * simpl in Hp. apply (IH Hl i j p q); [lia | exact Hp | exact Hq].
    + apply (IH Hl i j p q); assumption.
Qed.

Lemma range_increasing (lo hi : Z) (i j : nat) (p q : Z) :
  (i < j)%nat -> range lo hi !! i = Some p -> range lo hi !! j = Some q -> p < q.
Proof.
  unfold range. intros Hij Hp Hq.
  change (map ?f ?l) with (f <$> l) in Hp, Hq.
  rewrite list_lookup_fmap in Hp, Hq.
  destruct (seq 0 (Z.to_nat (hi - lo)) !! i) as [a|] eqn:Ha; [|discriminate].
  destruct (seq 0 (Z.to_nat (hi - lo)) !! j) as [c|] eqn:Hc; [|discriminate].
  apply lookup_seq in Ha as [-> _]. apply lookup_seq in Hc as [-> _].
  injection Hp as <-. injection Hq as <-. lia.
Qed.

(** X2: reading the positions of a bitmap and packing them again keeps
    exactly the ten low bits: the result is the bitmap modulo 1024, for
    every integer, so the two conversions are inverse on the 1024 bitmaps
    of a region. The positions are listed in strictly increasing order and
    lie between 1 and 10. *)
Theorem bitmap_positions_round_trip (b : Z) :
  card_indices_to_bitmap (PyInt <$> bitmap_to_card_indices b) = Ok (b `mod` 1024)
  /\ (forall i j p q, (i < j)%nat ->
        bitmap_to_card_indices b !! i = Some p ->
        bitmap_to_card_indices b !! j = Some q -> p < q)
  /\ (forall p, p ∈ bitmap_to_card_indices b ->
        1 <= p <= ActionEncoder.MAX_HAND_SIZE /\ Z.testbit b (p - 1) = true)
  /\ (length (bitmap_to_card_indices b) <= 10)%nat.
Proof.
  split; [|split; [|split]].
  - rewrite card_indices_to_bitmap_ints, bitmap_of_positions_mod. reflexivity.
  - rewrite bitmap_to_card_indices_filter.
    apply increasing_succ_filter. intros i j p q. apply range_increasing.
  - intros p Hp. apply In_bitmap_to_card_indices, list_elem_of_In, Hp.
  - rewrite bitmap_to_card_indices_filter, length_map.
    etransitivity; [apply filter_length_le|]. reflexivity.
Qed.

(** A list with an item that is not an integer cannot be packed. *)
Lemma card_indices_to_bitmap_raises (l : list pyval) :
  (exists v, v ∈ l /\ forall z, v <> PyInt z) ->
  card_indices_to_bitmap l = Raise TypeError.
Proof.
  unfold card_indices_to_bitmap. generalize 0.
  induction l as [|v l IH]; intros acc (w & Hw & Hnot).
  - inversion Hw.
  - simpl. destruct v as [|z|s|vs]; try reflexivity.
    simpl. apply elem_of_cons in Hw as [-> | Hw]; [destruct (Hnot z eq_refl)|].
    destruct ((1 <=? z) && (z <=? ActionEncoder.MAX_HAND_SIZE)); simpl; apply IH; eauto.
Qed.

Lemma bitmap_of_ext (ps qs : list Z) :
  (forall p, 1 <= p <= ActionEncoder.MAX_HAND_SIZE -> (In p ps <-> In p qs)) ->
  bitmap_of ps = bitmap_of qs.
Proof.
  intros Hsame. apply Z.bits_inj'. intros k Hk.
  destruct (Z.testbit (bitmap_of qs) k) eqn:Hq.
  - apply bitmap_of_testbit_true in Hq as [Hin Hlt]; [|assumption].
    apply bitmap_of_testbit_true; [assumption|]. split; [|assumption].
    apply Hsame; [lia | assumption].
  - apply not_true_is_false. intros Hp.
    apply bitmap_of_testbit_true in Hp as [Hin Hlt]; [|assumption].
    assert (Ht : Z.testbit (bitmap_of qs) k = true).
    { apply bitmap_of_testbit_true; [assumption|]. split; [|assumption].
      apply Hsame; [lia | assumption]. }
    congruence.
Qed.

(** X3: [card_indices_to_bitmap] on a list of integers returns a bitmap
    below 1024 whose positions are exactly the items that lie between 1 and
    10: items outside that range are dropped without an error, and the
    order and the repetitions of the items do not matter. A list that
    holds None, a string or a list raises [TypeError]. *)
Theorem card_indices_to_bitmap_spec :
  (forall ps : list Z,
      exists b,
        card_indices_to_bitmap (PyInt <$> ps) = Ok b
        /\ 0 <= b < 1024
        /\ forall p, p ∈ bitmap_to_card_indices b
                     <-> p ∈ ps /\ 1 <= p <= ActionEncoder.MAX_HAND_SIZE)
  /\ (forall ps qs : list Z,
         (forall p, 1 <= p <= ActionEncoder.MAX_HAND_SIZE -> (p ∈ ps <-> p ∈ qs)) ->
         card_indices_to_bitmap (PyInt <$> ps)
         = card_indices_to_bitmap (PyInt <$> qs))
  /\ (forall (l : list pyval) (v : pyval),
         v ∈ l ->
         v = PyNone \/ (exists s, v = PyStr s) \/ (exists items, v = PyList items) ->
         card_indices_to_bitmap l = Raise TypeError).
Proof.
  split; [|split].
  - intros ps. exists (bitmap_of ps).
    split; [apply card_indices_to_bitmap_ints|].
    split; [apply bitmap_of_range|].
    intros p. rewrite !list_elem_of_In. apply In_bitmap_to_card_indices_bitmap_of.
  - intros ps qs Hsame. rewrite !card_indices_to_bitmap_ints. f_equal.
    apply bitmap_of_ext. intros p Hp. rewrite <- !list_elem_of_In. apply Hsame, Hp.
  - intros l v Hv Hkind. apply card_indices_to_bitmap_raises. exists v.
    split; [exact Hv|]. intros z ->.
    destruct Hkind as [Hk | [[s Hk] | [items Hk]]]; discriminate Hk.
Qed.

Lemma card_indices_to_bitmap_spec_witness :
  card_indices_to_bitmap (PyInt <$> [3; 1; 3; 0; 11])
  = card_indices_to_bitmap (PyInt <$> [1; 3])
  /\ card_indices_to_bitmap [PyInt 1; PyStr "2"] = Raise TypeError.
Proof.
  split.
  - apply (proj1 (proj2 card_indices_to_bitmap_spec) [3; 1; 3; 0; 11] [1; 3]).
    intros p Hp. unfold ActionEncoder.MAX_HAND_SIZE in Hp.
    rewrite !elem_of_cons, !elem_of_nil. lia.
  - apply (proj2 (proj2 card_indices_to_bitmap_spec)
             [PyInt 1; PyStr "2"] (PyStr "2")).
    + right. left.
    + right. left. exists "2". reflexivity.
Defined.
(** ** [encode_action] on parameters outside the documented values *)

Lemma simple_actions_sort_key (u : string) :
  dict_getitem simple_actions (String.append "SORT_HAND_" u)
  = if String.eqb u "RANK" then Ok 4
    else if String.eqb u "SUIT" then Ok 5
    else Raise KeyError.
Proof.
  destruct (String.eqb_spec u "RANK") as [->|Hr]; [vm_compute; reflexivity|].
  destruct (String.eqb_spec u "SUIT") as [->|Hs]; [vm_compute; reflexivity|].
  unfold dict_getitem, simple_actions.
  rewrite (not_elem_of_list_to_map_1 (M := gmap string)); [reflexivity|].
  simpl. rewrite !elem_of_cons, elem_of_nil.
  intros [Heq | [Heq | [Heq | [Heq | [Heq | [Heq | []]]]]]];
    cbv in Heq; try discriminate Heq; congruence.
Qed.

Lemma encode_action_sort_hand (a : ActionRequest) :
  type_name (type a) = "SORT_HAND" ->
  encode_action a
  = match dict_get (params a) "mode" (PyStr "rank") with
    | PyStr mode => dict_getitem simple_actions (String.append "SORT_HAND_" (upper mode))
    | _ => Raise AttributeError
    end.
Proof. intros Ht. unfold encode_action. rewrite Ht. reflexivity. Qed.

Lemma encode_action_select_blind (a : ActionRequest) :
  type_name (type a) = "SELECT_BLIND" ->
  encode_action a
  = match dict_get (params a) "option" (PyStr "small") with
    | PyStr option =>
        Ok (blind_select_offset
            + default 0 ((list_to_map [("small", 0); ("big", 1); ("boss", 2)]
                          : gmap string Z) !! option))
    | PyList _ => Raise TypeError
    | _ => Ok (blind_select_offset + 0)
    end.
Proof. intros Ht. unfold encode_action. rewrite Ht. reflexivity. Qed.

Lemma blind_options_lookup (o : string) :
  default 0 ((list_to_map [("small", 0); ("big", 1); ("boss", 2)]
              : gmap string Z) !! o)
  = if String.eqb o "big" then 1 else if String.eqb o "boss" then 2 else 0.
Proof.
  destruct (String.eqb_spec o "big") as [->|Hbig]; [vm_compute; reflexivity|].
  destruct (String.eqb_spec o "boss") as [->|Hboss]; [vm_compute; reflexivity|].
  destruct (String.eqb_spec o "small") as [->|Hsmall]; [vm_compute; reflexivity|].
  rewrite (not_elem_of_list_to_map_1 (M := gmap string)); [reflexivity|].
  simpl. rewrite !elem_of_cons, elem_of_nil.
  intros [Heq | [Heq | [Heq | []]]]; congruence.
Qed.

(** X4: the two string parameters are read differently. The SORT_HAND mode
    is compared without regard to case (it is upper-cased) and strictly: a
    mode that is neither rank nor suit raises [KeyError], and a mode that is
    not a string raises [AttributeError]. The SELECT_BLIND option is
    compared exactly and leniently: any string other than big and boss,
    small included, is encoded as the small blind, and so is a null or
    numeric option; only a list raises, [TypeError]. *)
Theorem encode_action_string_parameters (a : ActionRequest) :
  (type_name (type a) = "SORT_HAND" ->
     (forall m, params a !! "mode" = Some (PyStr m) -> ascii_only m = true ->
        encode_action a
        = if String.eqb (upper m) "RANK" then Ok 4
          else if String.eqb (upper m) "SUIT" then Ok 5
          else Raise KeyError)
     /\ (forall v, params a !! "mode" = Some v -> (forall m, v <> PyStr m) ->
           encode_action a = Raise AttributeError))
  /\ (type_name (type a) = "SELECT_BLIND" ->
        (forall o, params a !! "option" = Some (PyStr o) ->
           encode_action a
           = Ok (blind_select_offset
                 + (if String.eqb o "big" then 1
                    else if String.eqb o "boss" then 2 else 0)))
        /\ (forall v, params a !! "option" = Some v ->
              (forall o, v <> PyStr o) -> (forall l, v <> PyList l) ->
              encode_action a = Ok blind_select_offset)
        /\ (forall l, params a !! "option" = Some (PyList l) ->
              encode_action a = Raise TypeError)).
Proof.
  split.
  - intros Ht. rewrite (encode_action_sort_hand a Ht). unfold dict_get. split.
    + intros m Hm _. rewrite Hm. apply simple_actions_sort_key.
    + intros v Hv Hnot. rewrite Hv.
      destruct v as [|z|s|l]; try reflexivity. destruct (Hnot s eq_refl).
  - intros Ht. rewrite (encode_action_select_blind a Ht). unfold dict_get.
    split; [|split].
    + intros o Ho. rewrite Ho, blind_options_lookup. reflexivity.
    + intros v Hv Hs Hl. rewrite Hv.
      destruct v as [|z|s|l]; [| |destruct (Hs s eq_refl)|destruct (Hl l eq_refl)];
        f_equal; lia.
    + intros l Hl. rewrite Hl. reflexivity.
Qed.

Lemma encode_action_string_parameters_witness :
  encode_action (request SORT_HAND {["mode" := PyStr "Suit"]}) = Ok 5
  /\ encode_action (request SORT_HAND {["mode" := PyStr "value"]}) = Raise KeyError
  /\ encode_action (request SORT_HAND {["mode" := PyInt 1]}) = Raise AttributeError
  /\ encode_action (request SELECT_BLIND {["option" := PyStr "Boss"]})
     = Ok blind_select_offset.
Proof.
  split; [|split; [|split]].
  - apply (proj1 (proj1 (encode_action_string_parameters
                           (request SORT_HAND {["mode" := PyStr "Suit"]}))
                        eq_refl) "Suit"); reflexivity.
  - apply (proj1 (proj1 (encode_action_string_parameters
                           (request SORT_HAND {["mode" := PyStr "value"]}))
                        eq_refl) "value"); reflexivity.
  - apply (proj2 (proj1 (encode_action_string_parameters
                           (request SORT_HAND {["mode" := PyInt 1]}))
                        eq_refl) (PyInt 1)); [reflexivity|].
    intros m Hm. discriminate Hm.
  - assert (Hopt : params (request SELECT_BLIND {["option" := PyStr "Boss"]})
                     !! "option" = Some (PyStr "Boss")) by reflexivity.
    rewrite (proj1 (proj2 (encode_action_string_parameters
                             (request SELECT_BLIND {["option" := PyStr "Boss"]}))
                          eq_refl) "Boss" Hopt).
    f_equal.
Defined.

Lemma encode_action_slot (s : Z) :
  encode_action (to_request (Shop_buy s)) = Ok (shop_buy_offset + s - 1)
  /\ encode_action (to_request (Shop_sell_joker s)) = Ok (sell_joker_offset + s - 1)
  /\ encode_action (to_request (Select_pack_item s)) = Ok (pack_select_offset + s - 1).
Proof. repeat split. Qed.

(** X5: [encode_action] does not check the range of a slot, joker or pack
    choice: it adds the number to the offset of the region, whatever the
    number is. So a slot beyond the sixth is encoded as the index of a joker
    to sell, a joker beyond the fifth as a pack choice, and a pack choice
    from the sixth to the eighth as a blind; and a SHOP_BUY request whose
    slot is not between 1 and 6 never decodes back to a SHOP_BUY request. *)
Theorem encode_action_unchecked_slot (s : Z) :
  encode_action (to_request (Shop_buy s)) = Ok (shop_buy_offset + s - 1)
  /\ encode_action (to_request (Shop_buy (s + MAX_SHOP_SLOTS)))
     = encode_action (to_request (Shop_sell_joker s))
  /\ encode_action (to_request (Shop_sell_joker (s + ActionEncoder.MAX_JOKERS)))
     = encode_action (to_request (Select_pack_item s))
  /\ (encode_action (to_request (Select_pack_item (1 + MAX_PACK_CHOICES)))
      = encode_action (to_request (Select_blind small_blind)))
  /\ (~ 1 <= s <= MAX_SHOP_SLOTS ->
      decoded_kind (encode_action (to_request (Shop_buy s)) ≫= decode_action)
      <> Some (Enum SHOP_BUY)).
Proof.
  destruct (encode_action_slot s) as (Hbuy & Hsell & Hpack).
  destruct (encode_action_slot (s + MAX_SHOP_SLOTS)) as (Hbuy' & _ & _).
  destruct (encode_action_slot (s + ActionEncoder.MAX_JOKERS)) as (_ & Hsell' & _).
  split; [exact Hbuy|].
  split; [rewrite Hbuy', Hsell; f_equal; offsets; lia|].
  split; [rewrite Hsell', Hpack; f_equal; offsets; unfold ActionEncoder.MAX_JOKERS; lia|].
  split; [reflexivity|].
  intros Hs. rewrite Hbuy, bind_Ok, decoded_kind_region.
  unfold region_kind. offsets.
  split_ifs; simpl; try discriminate; bool_to_prop; lia.
Qed.

Lemma encode_action_unchecked_slot_witness :
  decoded_kind (encode_action (to_request (Shop_buy 7)) ≫= decode_action)
  = Some (Enum SHOP_SELL_JOKER)
  /\ decoded_kind (encode_action (to_request (Shop_buy 7)) ≫= decode_action)
     <> Some (Enum SHOP_BUY).
Proof.
  split; [reflexivity|].
  apply (proj2 (proj2 (proj2 (proj2 (encode_action_unchecked_slot 7))))).
  unfold MAX_SHOP_SLOTS. lia.
Defined.
(** ** The mask as the set of indices of its legal actions *)

Lemma foldM_collect_acc {A B} (f : A -> result (list B)) (l : list A) (acc : list B) :
  foldM (fun acc x => more ← f x; Ok (acc ++ more)%list) acc l
  = (r ← collect f l; Ok (acc ++ r)%list).
Proof.
  unfold collect. revert acc. induction l as [|x l IH]; intros acc; simpl.
  - rewrite app_nil_r. reflexivity.
  - destruct (f x) as [more|e]; simpl; [|reflexivity].
    rewrite (IH (acc ++ more)%list), (IH more).
    destruct (foldM _ [] l) as [r|e]; simpl; [|reflexivity].
    rewrite app_assoc. reflexivity.
Qed.

Lemma collect_nil {A B} (f : A -> result (list B)) : collect f [] = Ok [].
Proof. reflexivity. Qed.

Lemma collect_cons {A B} (f : A -> result (list B)) (x : A) (l : list A) :
  collect f (x :: l) = (a ← f x; r ← collect f l; Ok (a ++ r)%list).
Proof.
  unfold collect at 1. simpl. destruct (f x) as [a|e]; simpl; [|reflexivity].
  apply foldM_collect_acc.
Qed.

Lemma collect_app {A B} (f : A -> result (list B)) (l1 l2 : list A) :
  collect f (l1 ++ l2)
  = (a ← collect f l1; b ← collect f l2; Ok (a ++ b)%list).
Proof.
  induction l1 as [|x l1 IH].
  - change ([] ++ l2)%list with l2. rewrite collect_nil, bind_Ok.
    destruct (collect f l2); reflexivity.
  - change ((x :: l1) ++ l2)%list with (x :: (l1 ++ l2))%list.
    rewrite !collect_cons, IH. destruct (f x) as [a|e]; simpl; [|reflexivity].
    destruct (collect f l1) as [r1|e]; simpl; [|reflexivity].
    destruct (collect f l2) as [r2|e]; simpl; [|reflexivity].
    rewrite app_assoc. reflexivity.
Qed.

(** What a gathering loop returns: every body returned, and the result
    holds exactly the items of what the bodies returned. *)
Lemma collect_Ok {A B} (f : A -> result (list B)) (l : list A) (r : list B) :
  collect f l = Ok r ->
  (forall x, x ∈ l -> exists more, f x = Ok more)
  /\ forall i, i ∈ r <-> exists x more, x ∈ l /\ f x = Ok more /\ i ∈ more.
Proof.
  revert r. induction l as [|x l IH]; intros r.
  - rewrite collect_nil. intros [= <-]. split.
    + intros x Hx. inversion Hx.
    + intros i. split; [intros Hi; inversion Hi|].
      intros (x & more & Hx & _). inversion Hx.
  - rewrite collect_cons. intros Hrun.
    apply bind_inv_Ok in Hrun as (a & Ha & Hrun).
    apply bind_inv_Ok in Hrun as (r' & Hr' & Hrun). injection Hrun as <-.
    destruct (IH r' Hr') as [Hall Hmem]. split.
    + intros y Hy. apply elem_of_cons in Hy as [-> | Hy]; [eauto | auto].
    + intros i. rewrite elem_of_app, Hmem. split.
      * intros [Hi | (y & more & Hy & Hf & Hi)].
        -- exists x, a. split; [left | auto].
        -- exists y, more. split; [right; assumption | auto].
      * intros (y & more & Hy & Hf & Hi).
        apply elem_of_cons in Hy as [-> | Hy].
        -- left. congruence.
        -- right. eauto.
Qed.

Lemma collect_total {A B} (f : A -> result (list B)) (l : list A) :
  (forall x, x ∈ l -> exists more, f x = Ok more) -> exists r, collect f l = Ok r.
Proof.
  induction l as [|x l IH]; intros Hall.
  - exists []. reflexivity.
  - destruct (Hall x) as [a Ha]; [left|].
    destruct IH as [r Hr]; [intros y Hy; apply Hall; right; assumption|].
    exists (a ++ r)%list. rewrite collect_cons, Ha, bind_Ok, Hr. reflexivity.
Qed.

(** A loop over the mask whose body sets the indices that [f] lists sets
    the indices that the gathering loop of [f] lists. *)
Lemma foldM_mark_collect {A} (body : list bool -> A -> result (list bool))
    (f : A -> result (list Z)) (l : list A) :
  (forall x mask, x ∈ l -> mask_sized mask ->
     body mask x = (idxs ← f x; Ok (mark mask idxs))) ->
  forall mask, mask_sized mask ->
    foldM body mask l = (idxs ← collect f l; Ok (mark mask idxs)).
Proof.
  induction l as [|x l IH]; intros Hbody mask Hlen.
  - reflexivity.
  - simpl. rewrite collect_cons, (Hbody x mask) by (left || assumption).
    destruct (f x) as [a|e]; simpl; [|reflexivity].
    rewrite IH; [| intros y m Hy; apply Hbody; right; assumption
                 | apply mask_sized_mark, Hlen].
    destruct (collect f l) as [r|e]; simpl; [|reflexivity].
    rewrite mark_app. reflexivity.
Qed.

Lemma mark_combinations_indices (offset : Z) (ci : gmap string pyval)
    (hand_size : Z) (mask : list bool) :
  mask_sized mask ->
  offset = play_hand_offset \/ offset = discard_offset ->
  mark_combinations offset ci hand_size mask
  = (idxs ← selection_indices offset ci hand_size; Ok (mark mask idxs)).
Proof.
  intros Hlen Hoff. unfold mark_combinations, selection_indices.
  destruct (py_len _) as [n|e]; simpl; [|reflexivity].
  destruct (as_int (dict_get ci "max_select" _)) as [hi|e]; simpl; [|reflexivity].
  destruct (as_int (dict_get ci "min_select" _)) as [lo|e]; simpl; [|reflexivity].
  destruct (py_iter _) as [pool|e]; simpl; [|reflexivity].
  apply (foldM_mark_collect _ _ _); [|exact Hlen].
  intros size m1 _ Hm1.
  destruct (combinations pool size) as [combos|e]; simpl; [|reflexivity].
  apply (foldM_mark_collect _ _ _); [|exact Hm1].
  intros combo m2 _ Hm2.
  destruct (card_indices_to_bitmap combo) as [b|e] eqn:Hb; simpl; [|reflexivity].
  apply card_indices_to_bitmap_Ok in Hb as (ps & _ & ->).
  apply list_setitem_in_range.
  apply mask_sized_fits; [exact Hm2 | exact Hoff | apply bitmap_of_range].
Qed.

Lemma mask_action_indices (hand_size : Z) (mask : list bool) (act : LegalAction) :
  mask_sized mask ->
  mask_action hand_size mask act
  = (idxs ← action_indices hand_size act; Ok (mark mask idxs)).
Proof.
  intros Hlen. unfold mask_action, action_indices.
  assert (Hfit : forall i, 0 <= i < 2077 -> 0 <= i < Z.of_nat (length mask)).
  { intros i Hi. rewrite Hlen. offsets. lia. }
  assert (Hslot : forall offset bound v,
             0 <= offset -> offset + bound <= 2077 ->
             match truthy_int v with
             | Some s =>
                 if (1 <=? s) && (s <=? bound)
                 then list_setitem mask (offset + s - 1) true
                 else Ok mask
             | None => Ok mask
             end = Ok (mark mask (slot_index offset bound v))).
  { intros offset bound v Ho Hb. unfold slot_index.
    destruct (truthy_int v) as [s|]; [|reflexivity].
    destruct ((1 <=? s) && (s <=? bound)) eqn:Hs; [|reflexivity].
    bool_to_prop. apply list_setitem_in_range, Hfit. lia. }
  simple_lookups. rewrite !bind_Ok.
  destruct (String.eqb (type_name (la_type act)) "SHOP_REROLL");
    [apply list_setitem_in_range, Hfit; lia|].
  destruct (String.eqb (type_name (la_type act)) "SHOP_END");
    [apply list_setitem_in_range, Hfit; lia|].
  destruct (String.eqb (type_name (la_type act)) "SKIP_BLIND");
    [apply list_setitem_in_range, Hfit; lia|].
  destruct (String.eqb (type_name (la_type act)) "SKIP_PACK");
    [apply list_setitem_in_range, Hfit; lia|].
  destruct (String.eqb (type_name (la_type act)) "SORT_HAND").
  { rewrite list_setitem_in_range by (apply Hfit; lia). rewrite !bind_Ok.
    rewrite list_setitem_in_range by (rewrite length_insert; apply Hfit; lia).
    reflexivity. }
  destruct (String.eqb (type_name (la_type act)) "PLAY_HAND").
  { destruct (truthy_dict (card_indices (la_params act))) as [ci|]; [|reflexivity].
    apply mark_combinations_indices; [exact Hlen | tauto]. }
  destruct (String.eqb (type_name (la_type act)) "DISCARD").
  { destruct (truthy_dict (card_indices (la_params act))) as [ci|]; [|reflexivity].
    apply mark_combinations_indices; [exact Hlen | tauto]. }
  destruct (String.eqb (type_name (la_type act)) "SHOP_BUY");
    [rewrite bind_Ok; apply Hslot; offsets; lia|].
  destruct (String.eqb (type_name (la_type act)) "SHOP_SELL_JOKER");
    [rewrite bind_Ok; apply Hslot; offsets; lia|].
  destruct (String.eqb (type_name (la_type act)) "SELECT_PACK_ITEM");
    [rewrite bind_Ok; apply Hslot; offsets; lia|].
  destruct (String.eqb (type_name (la_type act)) "SELECT_BLIND").
  { rewrite bind_Ok.
    apply (foldM_setitem mask (fun i => blind_select_offset + i)).
    intros i Hi. apply list_elem_of_In, In_range in Hi. apply Hfit. offsets. lia. }
  reflexivity.
Qed.

Lemma foldM_mask_action_indices (hand_size : Z) (acts : list LegalAction)
    (mask : list bool) :
  mask_sized mask ->
  foldM (mask_action hand_size) mask acts
  = (idxs ← actions_indices hand_size acts; Ok (mark mask idxs)).
Proof.
  intros Hlen. apply (foldM_mark_collect _ _ _); [|exact Hlen].
  intros act m _ Hm. apply mask_action_indices, Hm.
Qed.

Lemma get_legal_action_mask_indices (legal : LegalActions) (hand_size : Z) :
  get_legal_action_mask legal hand_size
  = (idxs ← actions_indices hand_size (actions legal);
     Ok (mark (replicate (Z.to_nat action_space_size) false) idxs)).
Proof. apply foldM_mask_action_indices, mask_sized_initial. Qed.

Lemma length_chars (s : string) : length (chars s) = String.length s.
Proof.
  unfold chars. rewrite length_map.
  induction s as [|c s IH]; simpl; [reflexivity | f_equal; exact IH].
Qed.

Lemma py_len_py_iter (v : pyval) (n : Z) (pool : list pyval) :
  py_len v = Ok n -> py_iter v = Ok pool -> n = Z.of_nat (length pool).
Proof.
  destruct v as [|z|s|l]; try discriminate; simpl; intros [= <-] [= <-].
  - rewrite length_chars. reflexivity.
  - reflexivity.
Qed.

(** What a card-selection block lists: one index per combination of the
    items of [available] whose size is between [min_select] and
    [max_select]. *)
Lemma selection_indices_Ok (offset : Z) (ci : gmap string pyval) (hand_size : Z)
    (idxs : list Z) :
  selection_indices offset ci hand_size = Ok idxs ->
  exists pool lo hi,
    py_iter (dict_get ci "available" (PyList (PyInt <$> range 1 (hand_size + 1))))
      = Ok pool
    /\ as_int (dict_get ci "min_select" (PyInt 1)) = Ok lo
    /\ as_int (dict_get ci "max_select" (PyInt 5)) = Ok hi
    /\ forall i, i ∈ idxs
         <-> exists c b, c `sublist_of` pool
                         /\ lo <= Z.of_nat (length c) <= hi
                         /\ card_indices_to_bitmap c = Ok b
                         /\ i = offset + b.
Proof.
  unfold selection_indices. intros Hsel.
  apply bind_inv_Ok in Hsel as (n & Hn & Hsel).
  apply bind_inv_Ok in Hsel as (hi & Hhi & Hsel).
  apply bind_inv_Ok in Hsel as (lo & Hlo & Hsel).
  apply bind_inv_Ok in Hsel as (pool & Hpool & Hsel).
  pose proof (py_len_py_iter _ _ _ Hn Hpool) as ->.
  exists pool, lo, hi. repeat (split; [assumption|]).
  apply collect_Ok in Hsel as [Hall Hmem].
  assert (Hsize : forall size more,
             (combos ← combinations pool size;
              collect (fun combo =>
                         bitmap ← card_indices_to_bitmap combo;
                         Ok [offset + bitmap]) combos) = Ok more ->
             0 <= size
             /\ forall i, i ∈ more
                  <-> exists c b, c ∈ combinations_nat pool (Z.to_nat size)
                                  /\ card_indices_to_bitmap c = Ok b
                                  /\ i = offset + b).
  { intros size more Hrun. apply bind_inv_Ok in Hrun as (combos & Hc & Hrun).
    unfold combinations in Hc. destruct (Z.ltb_spec size 0); [discriminate|].
    injection Hc as <-. split; [assumption|].
    apply collect_Ok in Hrun as [_ Hmem']. intros i. rewrite Hmem'. split.
    - intros (c & one & Hin & Hone & Hi).
      apply bind_inv_Ok in Hone as (b & Hb & Hone). injection Hone as <-.
      apply list_elem_of_singleton in Hi as ->. eauto.
    - intros (c & b & Hin & Hb & ->). exists c, [offset + b].
      split; [assumption|]. rewrite Hb, bind_Ok.
      split; [reflexivity | apply list_elem_of_singleton; reflexivity]. }
  intros i. rewrite Hmem. split.
  - intros (size & more & Hin & Hrun & Hi).
    apply list_elem_of_In, In_range in Hin.
    apply Hsize in Hrun as [Hnn Hmore]. apply Hmore in Hi as (c & b & Hc & Hb & ->).
    apply combinations_nat_spec in Hc as [Hsub Hlen].
    exists c, b. split; [assumption|]. split; [lia | auto].
  - intros (c & b & Hsub & Hlen & Hb & ->).
    pose proof (sublist_length _ _ Hsub) as Hle.
    assert (Hin : Z.of_nat (length c) ∈ range lo (Z.min hi (Z.of_nat (length pool)) + 1)).
    { apply list_elem_of_In, In_range. lia. }
    destruct (Hall _ Hin) as [more Hrun].
    exists (Z.of_nat (length c)), more. split; [assumption|]. split; [assumption|].
    apply (Hsize _ _ Hrun). exists c, b. split; [|auto].
    apply combinations_nat_spec. split; [assumption | lia].
Qed.

Lemma slot_index_elem (offset bound : Z) (v : option Z) (i : Z) :
  i ∈ slot_index offset bound v
  <-> exists s, v = Some s /\ 1 <= s <= bound /\ i = offset + s - 1.
Proof.
  unfold slot_index, truthy_int. split.
  - destruct v as [s|]; [|intros Hi; inversion Hi].
    destruct (s =? 0); [intros Hi; inversion Hi|].
    destruct ((1 <=? s) && (s <=? bound)) eqn:Hs; [|intros Hi; inversion Hi].
    bool_to_prop. intros Hi. apply list_elem_of_singleton in Hi as ->.
    exists s. auto.
  - intros (s & -> & Hs & ->).
    destruct (Z.eqb_spec s 0); [lia|].
    destruct (Z.leb_spec 1 s); [|lia]. destruct (Z.leb_spec s bound); [|lia].
    simpl. apply list_elem_of_singleton. reflexivity.
Qed.

Ltac region_of :=
  unfold region_kind; offsets;
  unfold ActionEncoder.MAX_JOKERS in *;
  split_ifs; bool_to_prop; try lia; reflexivity.

(** The indices of a legal action decode to its kind. *)
Lemma action_indices_kind (hand_size : Z) (act : LegalAction) (idxs : list Z) :
  action_indices hand_size act = Ok idxs ->
  forall i, i ∈ idxs -> marks_kind (type_name (la_type act)) i.
Proof.
  unfold action_indices. intros Hidx i Hi.
  assert (Hsel : forall offset ci,
             selection_indices offset ci hand_size = Ok idxs ->
             exists b, 0 <= b < 1024 /\ i = offset + b).
  { intros offset ci Hsel.
    apply selection_indices_Ok in Hsel as (pool & lo & hi & _ & _ & _ & Hmem).
    destruct (proj1 (Hmem i) Hi) as (c & b & _ & _ & Hb & Heq).
    apply card_indices_to_bitmap_Ok in Hb as (ps & _ & ->).
    exists (bitmap_of ps). split; [apply bitmap_of_range | exact Heq]. }
  revert Hidx.
  destruct (String.eqb_spec (type_name (la_type act)) "SHOP_REROLL") as [->|_].
  { intros [= <-]. apply list_elem_of_singleton in Hi as ->.
    apply (marks_kind_region _ SHOP_REROLL). reflexivity. }
  destruct (String.eqb_spec (type_name (la_type act)) "SHOP_END") as [->|_].
  { intros [= <-]. apply list_elem_of_singleton in Hi as ->.
    apply (marks_kind_region _ SHOP_END). reflexivity. }
  destruct (String.eqb_spec (type_name (la_type act)) "SKIP_BLIND") as [->|_].
  { intros [= <-]. apply list_elem_of_singleton in Hi as ->.
    apply (marks_kind_region _ SKIP_BLIND). reflexivity. }
  destruct (String.eqb_spec (type_name (la_type act)) "SKIP_PACK") as [->|_].
  { intros [= <-]. apply list_elem_of_singleton in Hi as ->.
    apply (marks_kind_region _ SKIP_PACK). reflexivity. }
  destruct (String.eqb_spec (type_name (la_type act)) "SORT_HAND") as [->|_].
  { intros [= <-]. apply elem_of_cons in Hi as [-> | Hi];
      [|apply list_elem_of_singleton in Hi as ->];
      apply (marks_kind_region _ SORT_HAND); reflexivity. }
  destruct (String.eqb_spec (type_name (la_type act)) "PLAY_HAND") as [->|_].
  { destruct (truthy_dict _) as [ci|]; [|intros [= <-]; inversion Hi].
    intros Hrun. destruct (Hsel _ _ Hrun) as (b & Hb & Heq). rewrite Heq.
    apply marks_kind_play_hand, Hb. }
  destruct (String.eqb_spec (type_name (la_type act)) "DISCARD") as [->|_].
  { destruct (truthy_dict _) as [ci|]; [|intros [= <-]; inversion Hi].
    intros Hrun. destruct (Hsel _ _ Hrun) as (b & Hb & Heq). rewrite Heq.
    apply marks_kind_discard, Hb. }
  destruct (String.eqb_spec (type_name (la_type act)) "SHOP_BUY") as [->|_].
  { intros [= <-]. apply slot_index_elem in Hi as (s & _ & Hs & ->).
    apply (marks_kind_region _ SHOP_BUY). region_of. }
  destruct (String.eqb_spec (type_name (la_type act)) "SHOP_SELL_JOKER") as [->|_].
  { intros [= <-]. apply slot_index_elem in Hi as (s & _ & Hs & ->).
    apply (marks_kind_region _ SHOP_SELL_JOKER). region_of. }
  destruct (String.eqb_spec (type_name (la_type act)) "SELECT_PACK_ITEM") as [->|_].
  { intros [= <-]. apply slot_index_elem in Hi as (s & _ & Hs & ->).
    apply (marks_kind_region _ SELECT_PACK_ITEM). region_of. }
  destruct (String.eqb_spec (type_name (la_type act)) "SELECT_BLIND") as [->|_].
  { intros [= <-]. rewrite !elem_of_cons, elem_of_nil in Hi.
    destruct Hi as [-> | [-> | [-> | []]]];
      apply (marks_kind_region _ SELECT_BLIND); reflexivity. }
  intros [= <-]. inversion Hi.
Qed.

Lemma action_indices_range (hand_size : Z) (act : LegalAction) (idxs : list Z) :
  action_indices hand_size act = Ok idxs ->
  forall i, i ∈ idxs -> 0 <= i < action_space_size.
Proof.
  intros Hidx i Hi. destruct (action_indices_kind _ _ _ Hidx i Hi) as [Hr _].
  exact Hr.
Qed.

(** The entries of the mask that are true are the indices of the legal
    actions. *)
Lemma mask_true_iff (legal : LegalActions) (hand_size : Z) (mask : list bool) :
  get_legal_action_mask legal hand_size = Ok mask ->
  mask_sized mask
  /\ (forall act, act ∈ actions legal ->
        exists idxs, action_indices hand_size act = Ok idxs)
  /\ forall i, 0 <= i ->
       (mask !! Z.to_nat i = Some true
        <-> exists act idxs, act ∈ actions legal
                             /\ action_indices hand_size act = Ok idxs
                             /\ i ∈ idxs).
Proof.
  rewrite get_legal_action_mask_indices. intros Hrun.
  apply bind_inv_Ok in Hrun as (all & Hall & Hrun). injection Hrun as <-.
  apply collect_Ok in Hall as [Hevery Hmem].
  assert (Hrange : forall i, i ∈ all ->
             0 <= i < Z.of_nat (length (replicate (Z.to_nat action_space_size) false))).
  { intros i Hi. apply Hmem in Hi as (act & idxs & _ & Hidx & Hi).
    rewrite length_replicate. rewrite Z2Nat.id by (offsets; lia).
    eapply action_indices_range; eassumption. }
  split; [apply mask_sized_mark, mask_sized_initial|]. split; [exact Hevery|].
  intros i Hi. rewrite lookup_mark by exact Hrange. split.
  - intros [Hinit | (k & Hk & Heq)]; [destruct (lookup_initial_mask _ Hinit)|].
    pose proof (Hrange k Hk) as Hk0.
    assert (k = i) by lia. subst k. apply Hmem, Hk.
  - intros Hex. right. exists i. split; [apply Hmem, Hex | reflexivity].
Qed.

Lemma mask_lookup_bool (mask : list bool) (i : Z) (b : bool) :
  mask_sized mask -> 0 <= i < action_space_size ->
  (mask !! Z.to_nat i = Some true <-> b = true) ->
  mask !! Z.to_nat i = Some b.
Proof.
  intros Hlen Hi Hiff.
  destruct (lookup_lt_is_Some_2 mask (Z.to_nat i)) as [v Hv].
  { unfold mask_sized in Hlen. lia. }
  rewrite Hv in *. destruct v, b; try reflexivity.
  - destruct (proj1 Hiff eq_refl). reflexivity.
  - discriminate (proj2 Hiff eq_refl).
Qed.

(** Two masks of the same length with the same true entries are equal. *)
Lemma bool_list_ext (l1 l2 : list bool) :
  length l1 = length l2 ->
  (forall j, l1 !! j = Some true <-> l2 !! j = Some true) -> l1 = l2.
Proof.
  intros Hlen Hiff. apply list_eq. intros j.
  destruct (l1 !! j) as [b1|] eqn:H1, (l2 !! j) as [b2|] eqn:H2.
  - specialize (Hiff j). rewrite H1, H2 in Hiff.
    destruct b1, b2; try reflexivity.
    + discriminate (proj1 Hiff eq_refl).
    + discriminate (proj2 Hiff eq_refl).
  - apply lookup_lt_Some in H1. apply lookup_ge_None in H2. lia.
  - apply lookup_ge_None in H1. apply lookup_lt_Some in H2. lia.
  - reflexivity.
Qed.
(** ** The legality mask, kind by kind *)

Lemma has_action_type_iff (legal : LegalActions) (t : ActionType) :
  Schemas.has_action_type legal t = true
  <-> exists act, act ∈ actions legal
                  /\ type_name (la_type act) = ActionType_value t.
Proof.
  unfold Schemas.has_action_type, Schemas.type_is. rewrite existsb_exists. split.
  - intros (act & Hin & Heq). apply String.eqb_eq in Heq.
    exists act. split; [apply list_elem_of_In, Hin | exact Heq].
  - intros (act & Hin & Heq). exists act.
    split; [apply list_elem_of_In, Hin | apply String.eqb_eq, Heq].
Qed.

(** An index of a legal action lies in the region of the action's kind. *)
Lemma action_indices_region (hand_size : Z) (act : LegalAction) (idxs : list Z)
    (i : Z) (t : ActionType) :
  action_indices hand_size act = Ok idxs -> i ∈ idxs ->
  region_kind i = Some t -> type_name (la_type act) = ActionType_value t.
Proof.
  intros Hidx Hi Hr.
  destruct (action_indices_kind _ _ _ Hidx i Hi) as [_ (a & Ha & Hk)].
  pose proof (decoded_kind_region i) as Hd. rewrite Ha, Hr in Hd.
  simpl in Hd. injection Hd as Hd. rewrite <- Hk, Hd. reflexivity.
Qed.

(** The entry of the mask at an index that every legal action of one kind
    sets tells whether the set holds an action of that kind. *)
Lemma mask_kind_entry (legal : LegalActions) (hand_size : Z) (mask : list bool)
    (t : ActionType) (i : Z) :
  get_legal_action_mask legal hand_size = Ok mask ->
  region_kind i = Some t ->
  (forall act idxs, type_name (la_type act) = ActionType_value t ->
     action_indices hand_size act = Ok idxs -> i ∈ idxs) ->
  mask !! Z.to_nat i = Some (Schemas.has_action_type legal t).
Proof.
  intros Hrun Hr Hsets.
  destruct (mask_true_iff legal hand_size mask Hrun) as (Hlen & Hevery & Htrue).
  assert (Hi : 0 <= i < action_space_size).
  { destruct (marks_kind_region i t Hr) as [Hi _]. exact Hi. }
  apply mask_lookup_bool; [exact Hlen | exact Hi |].
  rewrite Htrue by lia. rewrite has_action_type_iff. split.
  - intros (act & idxs & Hin & Hidx & Hmem). exists act.
    split; [exact Hin | eapply action_indices_region; eassumption].
  - intros (act & Hin & Ht). destruct (Hevery act Hin) as [idxs Hidx].
    exists act, idxs. split; [exact Hin|]. split; [exact Hidx | eauto].
Qed.

Ltac fixed_indices :=
  let Ht := fresh "Ht" in
  let Hidx := fresh "Hidx" in
  intros act idxs Ht Hidx; unfold action_indices in Hidx; rewrite Ht in Hidx;
  simpl in Hidx; injection Hidx as <-;
  rewrite ?elem_of_cons; auto.

(** X6: the entries of the mask for the kinds without a selection are
    exact. Whenever [get_legal_action_mask] returns, the mask has as many
    entries as the action space; entries 0 to 3 tell whether the set holds a
    SHOP_REROLL, SHOP_END, SKIP_BLIND and SKIP_PACK action; entries 4 and 5
    both tell whether it holds a SORT_HAND action (whatever modes the action
    lists); the three blind entries all tell whether it holds a SELECT_BLIND
    action (whatever options it lists); and the four entries 6 to 9 are
    false. [has_action_type] is the method of the schema. *)
Theorem mask_simple_kinds_exact (legal : LegalActions) (hand_size : Z)
    (mask : list bool) :
  get_legal_action_mask legal hand_size = Ok mask ->
  Z.of_nat (length mask) = get_action_space_size
  /\ mask !! 0%nat = Some (Schemas.has_action_type legal SHOP_REROLL)
  /\ mask !! 1%nat = Some (Schemas.has_action_type legal SHOP_END)
  /\ mask !! 2%nat = Some (Schemas.has_action_type legal SKIP_BLIND)
  /\ mask !! 3%nat = Some (Schemas.has_action_type legal SKIP_PACK)
  /\ mask !! 4%nat = Some (Schemas.has_action_type legal SORT_HAND)
  /\ mask !! 5%nat = Some (Schemas.has_action_type legal SORT_HAND)
  /\ (forall j, (6 <= j < 10)%nat -> mask !! j = Some false)
  /\ (forall j, (2074 <= j < 2077)%nat ->
        mask !! j = Some (Schemas.has_action_type legal SELECT_BLIND)).
Proof.
  intros Hrun.
  destruct (mask_true_iff legal hand_size mask Hrun) as (Hlen & Hevery & Htrue).
  split; [exact Hlen|].
  split; [apply (mask_kind_entry legal hand_size mask SHOP_REROLL 0 Hrun eq_refl);
          fixed_indices|].
  split; [apply (mask_kind_entry legal hand_size mask SHOP_END 1 Hrun eq_refl);
          fixed_indices|].
  split; [apply (mask_kind_entry legal hand_size mask SKIP_BLIND 2 Hrun eq_refl);
          fixed_indices|].
  split; [apply (mask_kind_entry legal hand_size mask SKIP_PACK 3 Hrun eq_refl);
          fixed_indices|].
  split; [apply (mask_kind_entry legal hand_size mask SORT_HAND 4 Hrun eq_refl);
          fixed_indices|].
  split; [apply (mask_kind_entry legal hand_size mask SORT_HAND 5 Hrun eq_refl);
          fixed_indices|].
  split.
  - intros j Hj. rewrite <- (Nat2Z.id j).
    apply mask_lookup_bool; [exact Hlen | offsets; lia |].
    split; [|discriminate]. rewrite Htrue by lia.
    intros (act & idxs & _ & Hidx & Hmem). exfalso.
    destruct (action_indices_kind _ _ _ Hidx _ Hmem) as [_ (a & Ha & _)].
    rewrite decode_action_unassigned in Ha; [discriminate|].
    unfold assigned. offsets. lia.
  - intros j Hj. rewrite <- (Nat2Z.id j).
    assert (Hcases : Z.of_nat j = 2074 \/ Z.of_nat j = 2075 \/ Z.of_nat j = 2076)
      by lia.
    destruct Hcases as [-> | [-> | ->]];
      [ apply (mask_kind_entry legal hand_size mask SELECT_BLIND 2074 Hrun eq_refl)
      | apply (mask_kind_entry legal hand_size mask SELECT_BLIND 2075 Hrun eq_refl)
      | apply (mask_kind_entry legal hand_size mask SELECT_BLIND 2076 Hrun eq_refl) ];
      fixed_indices.
Qed.

Lemma mask_simple_kinds_exact_witness :
  let legal :=
    mkLegalActions "1.0.0" SHOP
      [ mkLegalAction (Enum SHOP_END) "Leave shop"
          (mkActionParams None None None None None None None None);
        mkLegalAction (Enum SORT_HAND) "Sort hand"
          (mkActionParams None (Some ["rank"]) None None None None None None) ]
      None in
  let mask := mark (replicate (Z.to_nat action_space_size) false) [1; 4; 5] in
  Z.of_nat (length mask) = get_action_space_size
  /\ mask !! 0%nat = Some (Schemas.has_action_type legal SHOP_REROLL)
  /\ mask !! 1%nat = Some (Schemas.has_action_type legal SHOP_END)
  /\ mask !! 2%nat = Some (Schemas.has_action_type legal SKIP_BLIND)
  /\ mask !! 3%nat = Some (Schemas.has_action_type legal SKIP_PACK)
  /\ mask !! 4%nat = Some (Schemas.has_action_type legal SORT_HAND)
  /\ mask !! 5%nat = Some (Schemas.has_action_type legal SORT_HAND)
  /\ (forall j, (6 <= j < 10)%nat -> mask !! j = Some false)
  /\ (forall j, (2074 <= j < 2077)%nat ->
        mask !! j = Some (Schemas.has_action_type legal SELECT_BLIND)).
Proof.
  cbv zeta. apply (mask_simple_kinds_exact _ 8). vm_compute. reflexivity.
Defined.

Lemma action_indices_slot_kinds (hand_size : Z) (act : LegalAction) :
  (type_name (la_type act) = "SHOP_BUY" ->
   action_indices hand_size act
   = Ok (slot_index shop_buy_offset MAX_SHOP_SLOTS (slot (la_params act))))
  /\ (type_name (la_type act) = "SHOP_SELL_JOKER" ->
      action_indices hand_size act
      = Ok (slot_index sell_joker_offset ActionEncoder.MAX_JOKERS
              (joker_index (la_params act))))
  /\ (type_name (la_type act) = "SELECT_PACK_ITEM" ->
      action_indices hand_size act
      = Ok (slot_index pack_select_offset MAX_PACK_CHOICES
              (choice_index (la_params act)))).
Proof.
  repeat split; intros Ht; unfold action_indices; rewrite Ht; reflexivity.
Qed.

(** The entry of a slot: it is set exactly by the legal actions of the
    kind that name the slot. *)
Lemma mask_slot_entry (legal : LegalActions) (hand_size : Z) (mask : list bool)
    (t : ActionType) (offset bound : Z) (field : ActionParams -> option Z) (s : Z) :
  get_legal_action_mask legal hand_size = Ok mask ->
  (forall act, type_name (la_type act) = ActionType_value t ->
     action_indices hand_size act
     = Ok (slot_index offset bound (field (la_params act)))) ->
  0 <= offset ->
  1 <= s <= bound ->
  region_kind (offset + s - 1) = Some t ->
  mask !! Z.to_nat (offset + s - 1) = Some true
  <-> exists act, act ∈ actions legal
                  /\ type_name (la_type act) = ActionType_value t
                  /\ field (la_params act) = Some s.
Proof.
  intros Hrun Hkind Hoff Hs Hr.
  destruct (mask_true_iff legal hand_size mask Hrun) as (_ & Hevery & Htrue).
  rewrite Htrue by lia. split.
  - intros (act & idxs & Hin & Hidx & Hmem).
    pose proof (action_indices_region _ _ _ _ _ Hidx Hmem Hr) as Ht.
    rewrite (Hkind act Ht) in Hidx. injection Hidx as <-.
    apply slot_index_elem in Hmem as (s' & Hfield & _ & Heq).
    exists act. split; [exact Hin|]. split; [exact Ht|].
    rewrite Hfield. f_equal. lia.
  - intros (act & Hin & Ht & Hfield).
    exists act, (slot_index offset bound (field (la_params act))).
    split; [exact Hin|]. split; [apply Hkind, Ht|].
    apply slot_index_elem. exists s. auto.
Qed.

(** X7: the entries of the mask for the shop slots, the jokers and the
    pack choices are exact. Whenever [get_legal_action_mask] returns, the
    entry of shop slot [s] (1 to 6) is true exactly when the set holds a
    SHOP_BUY action whose [slot] is [s], and likewise for SHOP_SELL_JOKER
    with [joker_index] (1 to 5) and SELECT_PACK_ITEM with [choice_index]
    (1 to 5); an action of these kinds whose number is missing, zero or out
    of range sets nothing. *)
Theorem mask_slot_kinds_exact (legal : LegalActions) (hand_size : Z)
    (mask : list bool) :
  get_legal_action_mask legal hand_size = Ok mask ->
  (forall s, 1 <= s <= MAX_SHOP_SLOTS ->
     (mask !! Z.to_nat (shop_buy_offset + s - 1) = Some true
      <-> exists act, act ∈ actions legal
                      /\ type_name (la_type act) = "SHOP_BUY"
                      /\ slot (la_params act) = Some s))
  /\ (forall s, 1 <= s <= ActionEncoder.MAX_JOKERS ->
        (mask !! Z.to_nat (sell_joker_offset + s - 1) = Some true
         <-> exists act, act ∈ actions legal
                         /\ type_name (la_type act) = "SHOP_SELL_JOKER"
                         /\ joker_index (la_params act) = Some s))
  /\ (forall s, 1 <= s <= MAX_PACK_CHOICES ->
        (mask !! Z.to_nat (pack_select_offset + s - 1) = Some true
         <-> exists act, act ∈ actions legal
                         /\ type_name (la_type act) = "SELECT_PACK_ITEM"
                         /\ choice_index (la_params act) = Some s)).
Proof.
  intros Hrun. split; [|split]; intros s Hs.
  - apply (mask_slot_entry legal hand_size mask SHOP_BUY _ MAX_SHOP_SLOTS slot s Hrun);
      [intros act; apply action_indices_slot_kinds | offsets; lia | exact Hs |].
    region_of.
  - apply (mask_slot_entry legal hand_size mask SHOP_SELL_JOKER _
             ActionEncoder.MAX_JOKERS joker_index s Hrun);
      [intros act; apply action_indices_slot_kinds | offsets; lia | exact Hs |].
    region_of.
  - apply (mask_slot_entry legal hand_size mask SELECT_PACK_ITEM _
             MAX_PACK_CHOICES choice_index s Hrun);
      [intros act; apply action_indices_slot_kinds | offsets; lia | exact Hs |].
    region_of.
Qed.

Lemma mask_slot_kinds_exact_witness :
  let buy s :=
    mkLegalAction (Enum SHOP_BUY) "Buy"
      (mkActionParams None None (Some s) (Some 4) None None None None) in
  let legal := mkLegalActions "1.0.0" SHOP [buy 2; buy 9; buy 0] None in
  let mask := mark (replicate (Z.to_nat action_space_size) false) [2059] in
  (forall s, 1 <= s <= MAX_SHOP_SLOTS ->
     (mask !! Z.to_nat (shop_buy_offset + s - 1) = Some true
      <-> exists act, act ∈ actions legal
                      /\ type_name (la_type act) = "SHOP_BUY"
                      /\ slot (la_params act) = Some s))
  /\ (forall s, 1 <= s <= ActionEncoder.MAX_JOKERS ->
        (mask !! Z.to_nat (sell_joker_offset + s - 1) = Some true
         <-> exists act, act ∈ actions legal
                         /\ type_name (la_type act) = "SHOP_SELL_JOKER"
                         /\ joker_index (la_params act) = Some s))
  /\ (forall s, 1 <= s <= MAX_PACK_CHOICES ->
        (mask !! Z.to_nat (pack_select_offset + s - 1) = Some true
         <-> exists act, act ∈ actions legal
                         /\ type_name (la_type act) = "SELECT_PACK_ITEM"
                         /\ choice_index (la_params act) = Some s)).
Proof.
  cbv zeta. apply (mask_slot_kinds_exact _ 8). vm_compute. reflexivity.
Defined.

Lemma action_indices_discard (hand_size : Z) (act : LegalAction) :
  type_name (la_type act) = "DISCARD" ->
  action_indices hand_size act
  = match truthy_dict (card_indices (la_params act)) with
    | Some ci => selection_indices discard_offset ci hand_size
    | None => Ok []
    end.
Proof. intros Ht. unfold action_indices. rewrite Ht. reflexivity. Qed.

(** X8: the DISCARD region of the mask is exact, for any number of
    DISCARD entries. Whenever [get_legal_action_mask] returns, the entry of
    bitmap [b] in the DISCARD region is true exactly when some DISCARD
    action of the set, with a non-empty [card_indices] block, has a
    combination of the items of its [available] list (positions 1 to the
    hand size when the block has none) whose size lies between its
    [min_select] (1 when missing) and [max_select] (5 when missing) and
    whose bitmap is [b]. *)
Theorem mask_discard_region_exact (legal : LegalActions) (hand_size : Z)
    (mask : list bool) (b : Z) :
  get_legal_action_mask legal hand_size = Ok mask ->
  0 <= b < 1024 ->
  mask !! Z.to_nat (discard_offset + b) = Some true
  <-> exists act ci pool lo hi c,
        act ∈ actions legal
        /\ type_name (la_type act) = "DISCARD"
        /\ truthy_dict (card_indices (la_params act)) = Some ci
        /\ py_iter (dict_get ci "available"
                      (PyList (PyInt <$> range 1 (hand_size + 1)))) = Ok pool
        /\ as_int (dict_get ci "min_select" (PyInt 1)) = Ok lo
        /\ as_int (dict_get ci "max_select" (PyInt 5)) = Ok hi
        /\ c `sublist_of` pool
        /\ lo <= Z.of_nat (length c) <= hi
        /\ card_indices_to_bitmap c = Ok b.
Proof.
  intros Hrun Hb.
  destruct (mask_true_iff legal hand_size mask Hrun) as (_ & Hevery & Htrue).
  rewrite Htrue by (offsets; lia). split.
  - intros (act & idxs & Hin & Hidx & Hmem).
    assert (Ht : type_name (la_type act) = "DISCARD").
    { apply (action_indices_region _ _ _ _ DISCARD Hidx Hmem). region_of. }
    rewrite (action_indices_discard _ _ Ht) in Hidx.
    destruct (truthy_dict (card_indices (la_params act))) as [ci|] eqn:Hci;
      [|injection Hidx as <-; inversion Hmem].
    apply selection_indices_Ok in Hidx as (pool & lo & hi & Hpool & Hlo & Hhi & Hsel).
    apply Hsel in Hmem as (c & b' & Hsub & Hlen & Hbm & Heq).
    assert (b' = b) by lia. subst b'.
    exists act, ci, pool, lo, hi, c. auto 10.
  - intros (act & ci & pool & lo & hi & c & Hin & Ht & Hci & Hpool & Hlo & Hhi
            & Hsub & Hlen & Hbm).
    destruct (Hevery act Hin) as [idxs Hidx]. exists act, idxs.
    split; [exact Hin|]. split; [exact Hidx|].
    rewrite (action_indices_discard _ _ Ht), Hci in Hidx.
    apply selection_indices_Ok in Hidx
      as (pool' & lo' & hi' & Hpool' & Hlo' & Hhi' & Hsel).
    rewrite Hpool in Hpool'. rewrite Hlo in Hlo'. rewrite Hhi in Hhi'.
    injection Hpool' as <-. injection Hlo' as <-. injection Hhi' as <-.
    apply Hsel. exists c, b. auto.
Qed.

Lemma mask_discard_region_exact_witness :
  let entry :=
    mkLegalAction (Enum DISCARD) "Discard selected cards"
      (mkActionParams (Some {["max_select" := PyInt 2]})
                      None None None None None None None) in
  let legal := mkLegalActions "1.0.0" SELECTING_HAND [entry] None in
  let mask := mark (replicate (Z.to_nat action_space_size) false)
                   [1035; 1036; 1038; 1037; 1039; 1040] in
  mask !! Z.to_nat (discard_offset + 5) = Some true
  <-> exists act ci pool lo hi c,
        act ∈ actions legal
        /\ type_name (la_type act) = "DISCARD"
        /\ truthy_dict (card_indices (la_params act)) = Some ci
        /\ py_iter (dict_get ci "available"
                      (PyList (PyInt <$> range 1 (3 + 1)))) = Ok pool
        /\ as_int (dict_get ci "min_select" (PyInt 1)) = Ok lo
        /\ as_int (dict_get ci "max_select" (PyInt 5)) = Ok hi
        /\ c `sublist_of` pool
        /\ lo <= Z.of_nat (length c) <= hi
        /\ card_indices_to_bitmap c = Ok 5.
Proof.
  cbv zeta. apply (mask_discard_region_exact _ 3).
  - vm_compute. reflexivity.
  - lia.
Defined.

(** ** The mask of a union of legal actions *)

Lemma lookup_zip_orb (l1 l2 : list bool) (j : nat) :
  length l1 = length l2 ->
  zip_with orb l1 l2 !! j = Some true
  <-> l1 !! j = Some true \/ l2 !! j = Some true.
Proof.
  intros Hlen. rewrite lookup_zip_with.
  destruct (l1 !! j) as [b1|] eqn:H1, (l2 !! j) as [b2|] eqn:H2; simpl.
  - destruct b1, b2; simpl; split; auto; intros [H|H]; congruence.
  - apply lookup_lt_Some in H1. apply lookup_ge_None in H2. lia.
  - apply lookup_ge_None in H1. apply lookup_lt_Some in H2. lia.
  - split; [discriminate | intros [H|H]; discriminate].
Qed.

Lemma legal_mask_app (legal la lb : LegalActions) (hand_size : Z) :
  actions legal = (actions la ++ actions lb)%list ->
  get_legal_action_mask legal hand_size
  = (ma ← get_legal_action_mask la hand_size;
     mb ← get_legal_action_mask lb hand_size;
     Ok (zip_with orb ma mb)).
Proof.
  intros Hacts. rewrite !get_legal_action_mask_indices, Hacts.
  unfold actions_indices. rewrite collect_app.
  destruct (collect (action_indices hand_size) (actions la)) as [ia|e] eqn:Ha;
    simpl; [|reflexivity].
  destruct (collect (action_indices hand_size) (actions lb)) as [ib|e] eqn:Hb;
    simpl; [|reflexivity].
  f_equal.
  assert (Hrange : forall acts idxs,
             collect (action_indices hand_size) acts = Ok idxs ->
             forall i, i ∈ idxs ->
               0 <= i < Z.of_nat (length (replicate (Z.to_nat action_space_size) false))).
  { intros acts idxs Hc i Hi. apply collect_Ok in Hc as [_ Hmem].
    apply Hmem in Hi as (act & more & _ & Hidx & Hi).
    rewrite length_replicate, Z2Nat.id by (offsets; lia).
    eapply action_indices_range; eassumption. }
  apply bool_list_ext.
  - rewrite length_zip_with, !length_mark. lia.
  - intros j. rewrite lookup_zip_orb by (rewrite !length_mark; reflexivity).
    rewrite (lookup_mark _ ia) by exact (Hrange _ _ Ha).
    rewrite (lookup_mark _ ib) by exact (Hrange _ _ Hb).
    rewrite (lookup_mark _ (ia ++ ib)%list).
    + setoid_rewrite elem_of_app. split.
      * intros [Hinit | (i & [Hi|Hi] & Heq)]; eauto 6.
      * intros [[Hinit | (i & Hi & Heq)] | [Hinit | (i & Hi & Heq)]]; eauto 6.
    + intros i Hi. apply elem_of_app in Hi as [Hi|Hi];
        [exact (Hrange _ _ Ha i Hi) | exact (Hrange _ _ Hb i Hi)].
Qed.

Lemma legal_mask_perm (l l' : LegalActions) (hand_size : Z) (mask : list bool) :
  actions l ≡ₚ actions l' ->
  get_legal_action_mask l hand_size = Ok mask ->
  get_legal_action_mask l' hand_size = Ok mask.
Proof.
  intros Hperm Hrun.
  destruct (mask_true_iff l hand_size mask Hrun) as (Hlen & Hevery & Htrue).
  assert (Hrun' : exists mask', get_legal_action_mask l' hand_size = Ok mask').
  { rewrite get_legal_action_mask_indices.
    destruct (collect_total (action_indices hand_size) (actions l')) as [idxs Hidx].
    - intros act Hact. apply Hevery. rewrite Hperm. exact Hact.
    - unfold actions_indices. rewrite Hidx. eauto. }
  destruct Hrun' as [mask' Hrun']. rewrite Hrun'. f_equal.
  destruct (mask_true_iff l' hand_size mask' Hrun') as (Hlen' & _ & Htrue').
  apply bool_list_ext.
  - unfold mask_sized in Hlen, Hlen'. lia.
  - intros j. rewrite <- (Nat2Z.id j).
    rewrite Htrue, Htrue' by lia.
    split; intros (act & idxs & Hin & Hidx & Hmem); exists act, idxs;
      (split; [|auto]); [rewrite Hperm | rewrite <- Hperm]; exact Hin.
Qed.

(** X9: the mask of a set of legal actions is the entrywise disjunction of
    the masks of its parts: for a set whose actions are those of two sets
    one after the other, [get_legal_action_mask] returns the disjunction of
    the two masks, and raises what the first part raises, or else what the
    second raises. So a mask that is returned does not depend on the order
    of the legal actions. *)
Theorem legal_action_mask_union :
  (forall (legal la lb : LegalActions) (hand_size : Z),
      actions legal = (actions la ++ actions lb)%list ->
      get_legal_action_mask legal hand_size
      = (ma ← get_legal_action_mask la hand_size;
         mb ← get_legal_action_mask lb hand_size;
         Ok (zip_with orb ma mb)))
  /\ (forall (l l' : LegalActions) (hand_size : Z) (mask : list bool),
         actions l ≡ₚ actions l' ->
         get_legal_action_mask l hand_size = Ok mask ->
         get_legal_action_mask l' hand_size = Ok mask).
Proof. split; [exact legal_mask_app | exact legal_mask_perm]. Qed.

Lemma legal_action_mask_union_witness :
  let reroll :=
    mkLegalAction (Enum SHOP_REROLL) "Reroll"
      (mkActionParams None None None None None None None None) in
  let play := play_hand_entry [1; 2] 1 2 in
  get_legal_action_mask (mkLegalActions "1.0.0" SHOP [reroll; play] None) 8
  = (ma ← get_legal_action_mask (mkLegalActions "1.0.0" SHOP [reroll] None) 8;
     mb ← get_legal_action_mask (mkLegalActions "1.0.0" SHOP [play] None) 8;
     Ok (zip_with orb ma mb))
  /\ get_legal_action_mask (mkLegalActions "1.0.0" SHOP [play; reroll] None) 8
     = Ok (mark (replicate (Z.to_nat action_space_size) false) [0; 11; 12; 13]).
Proof.
  cbv zeta. split.
  - apply (proj1 legal_action_mask_union). reflexivity.
  - apply (proj2 legal_action_mask_union
             (mkLegalActions "1.0.0" SHOP
                [mkLegalAction (Enum SHOP_REROLL) "Reroll"
                   (mkActionParams None None None None None None None None);
                 play_hand_entry [1; 2] 1 2] None)).
    + apply perm_swap.
    + vm_compute. reflexivity.
Defined.
(** ** env.py: further properties of [step] and [_compute_reward] *)

Section StepMore.
Context `{PyRuntime}.

Lemma get_info_fields (env : Env) (i : Info) :
  _get_info env = Ok i ->
  info_error i = None /\ step_count i = _step_count env
  /\ episode_reward i = _episode_reward env /\ connected i = _connected env.
Proof.
  unfold _get_info. intros Hi.
  apply bind_inv_Ok in Hi as (mask & _ & Hi). injection Hi as <-. auto.
Qed.

Lemma get_info_mask (env : Env) (i : Info) (legal : LegalActions) :
  _get_info env = Ok i ->
  _current_legal env = Some legal ->
  exists mask,
    get_legal_action_mask legal
      (match _current_state env with
       | Some s => Z.of_nat (length (hand s))
       | None => 8
       end) = Ok mask
    /\ action_mask i = Some mask.
Proof.
  unfold _get_info. intros Hi Hl. rewrite Hl in Hi.
  apply bind_inv_Ok in Hi as (mask & Hm & Hi). injection Hi as <-.
  apply bind_inv_Ok in Hm as (m & Hm & Hs). injection Hs as <-.
  exists m. split; [exact Hm | reflexivity].
Qed.

Lemma get_info_no_mask (env : Env) (i : Info) :
  _get_info env = Ok i -> _current_legal env = None -> action_mask i = None.
Proof.
  unfold _get_info. intros Hi Hl. rewrite Hl, bind_Ok in Hi.
  injection Hi as <-. reflexivity.
Qed.

Lemma get_obs_stored (env : Env) (s : GameState) (obs : list float32) :
  _current_state env = Some s -> _get_obs env = Ok obs -> tokenize_state s = Ok obs.
Proof. unfold _get_obs. intros ->. auto. Qed.

(** X10: an index that [decode_action] does not assign, the indices 6..9
    of the advertised action space included, makes [step] raise
    [ValueError]: the step counter has been incremented, nothing else of
    the environment has changed, and the bridge is not contacted (the
    outcome is the same for every client). *)
Theorem step_rejects_unassigned_index (client : BalatroClient) (env : Env)
    (action : Z) :
  ~ assigned action ->
  step client env action
  = (set_step_count env (_step_count env + 1), Raise ValueError).
Proof.
  intros Hna. unfold step. rewrite (decode_action_unassigned _ Hna). reflexivity.
Qed.

(** X11: the accounting of [step]. Whatever the call does, the step counter
    grows by exactly one and the step budget is unchanged. When the call
    returns without a connectivity failure, the reward it returns has been
    added to the episode's total, and info reports that total and the new
    step counter. When it returns after a connectivity failure, the reward
    is -100.0 but the episode's total is left as it was, and the
    environment is marked as disconnected. *)
Theorem step_accounting (client : BalatroClient) (env env' : Env) (action : Z)
    (out : result StepReturn) :
  step client env action = (env', out) ->
  _step_count env' = _step_count env + 1
  /\ max_steps env' = max_steps env
  /\ (forall r, out = Ok r -> info_error (info r) = None ->
        _episode_reward env' = (_episode_reward env + reward r)%float
        /\ episode_reward (info r) = _episode_reward env'
        /\ step_count (info r) = _step_count env + 1
        /\ _connected env' = _connected env)
  /\ (forall r, out = Ok r -> info_error (info r) <> None ->
        reward r = (-100)%float
        /\ _episode_reward env' = _episode_reward env
        /\ episode_reward (info r) = _episode_reward env
        /\ step_count (info r) = _step_count env + 1
        /\ _connected env' = false).
Proof.
  unfold step. intros Hstep.
  destruct (decode_action action) as [a|e].
  2:{ injection Hstep as <- <-. simpl. repeat split; intros; discriminate. }
  destruct (submit client _ a) as [env2 r0] eqn:Hsub.
  assert (Hconn : _connected env2 = _connected env).
  { revert Hsub. unfold submit.
    destruct (execute_action client a) as [res|e].
    - destruct (ok res && bool_decide (is_Some (result_state res))).
      + intros [= <- _]. reflexivity.
      + destruct (get_state client) as [s|e].
        * destruct (get_legal_actions client) as [l|e];
            intros [= <- _]; reflexivity.
        * intros [= <- _]. reflexivity.
    - intros [= <- _]. reflexivity. }
  apply submit_keeps_counters in Hsub as (Hmax & Hcount & Hrew).
  simpl in Hmax, Hcount, Hrew.
  destruct r0 as [[]|e].
  - destruct (_current_state env2) as [current|] eqn:Hcur.
    2:{ injection Hstep as <- <-. repeat split; try assumption; intros; discriminate. }
    destruct (_compute_reward _ current) as [rew|e].
    2:{ injection Hstep as <- <-. repeat split; try assumption; intros; discriminate. }
    injection Hstep as <- <-. simpl.
    split; [exact Hcount|]. split; [exact Hmax|]. split.
    + intros r Hr _.
      apply bind_inv_Ok in Hr as (obs & _ & Hr).
      apply bind_inv_Ok in Hr as (i & Hi & Hr). injection Hr as <-.
      apply get_info_fields in Hi as (_ & Hc & He & _). simpl in *.
      rewrite He, Hc, Hcount, Hrew. auto.
    + intros r Hr Herr. exfalso. apply Herr.
      apply bind_inv_Ok in Hr as (obs & _ & Hr).
      apply bind_inv_Ok in Hr as (i & Hi & Hr). injection Hr as <-.
      apply get_info_fields in Hi as (Hn & _). exact Hn.
  - destruct e; try (injection Hstep as <- <-;
                     repeat split; try assumption; intros; discriminate).
    injection Hstep as <- <-. simpl.
    split; [exact Hcount|]. split; [exact Hmax|]. split.
    + intros r Hr Herr. exfalso.
      apply bind_inv_Ok in Hr as (i & _ & Hr).
      apply bind_inv_Ok in Hr as (obs & _ & Hr). injection Hr as <-.
      simpl in Herr. discriminate.
    + intros r Hr _.
      apply bind_inv_Ok in Hr as (i & Hi & Hr).
      apply bind_inv_Ok in Hr as (obs & _ & Hr). injection Hr as <-.
      apply get_info_fields in Hi as (_ & Hc & He & _). simpl in *.
      rewrite He, Hc, Hrew, Hcount. auto.
Qed.

(** X12: when the action was not accepted with a snapshot, the re-fetch of
    the snapshot succeeds and the fetch of the legal actions then fails to
    connect, [step] keeps the new snapshot together with the legal actions
    of the previous step, and marks the environment as disconnected.
    Whenever it returns, it returns the observation of the new snapshot
    with reward -100.0, terminated, and a mask computed from the previous
    legal actions with the hand size of the new snapshot. It returns
    whenever the new snapshot can be featurized and the previous legal
    actions expanded for the new hand size; what it raises otherwise is
    the exception of [_get_info] or of [_get_obs]. *)
Theorem step_stale_legal_actions (client : BalatroClient) (env : Env)
    (action : Z) (a : ActionRequest) (res : ActionResult) (s : GameState)
    (msg : string) :
  decode_action action = Ok a ->
  execute_action client a = Ok res ->
  ok res && bool_decide (is_Some (result_state res)) = false ->
  get_state client = Ok s ->
  get_legal_actions client = Raise (BalatroConnectionError msg) ->
  let env' := fst (step client env action) in
  let out := snd (step client env action) in
  _current_state env' = Some s
  /\ _current_legal env' = _current_legal env
  /\ _connected env' = false
  /\ _step_count env' = _step_count env + 1
  /\ (forall r, out = Ok r ->
        reward r = (-100)%float
        /\ terminated r = true
        /\ truncated r = false
        /\ tokenize_state s = Ok (observation r)
        /\ info_error (info r) = Some msg
        /\ (forall legal, _current_legal env = Some legal ->
              exists mask,
                get_legal_action_mask legal (Z.of_nat (length (hand s))) = Ok mask
                /\ action_mask (info r) = Some mask))
  /\ (observable (set_current_state env (Some s)) = true -> exists r, out = Ok r)
  /\ (forall e, out = Raise e ->
        _get_info env' = Raise e \/ _get_obs env' = Raise e).
Proof.
  intros Hdec Hexec Hrej Hstate Hlegal.
  unfold step. rewrite Hdec. unfold submit. rewrite Hexec, Hrej, Hstate, Hlegal.
  cbv zeta. cbv beta iota.
  set (env1 := set_connected
                 (set_current_state (set_step_count env (_step_count env + 1))
                                    (Some s)) false).
  simpl fst. simpl snd.
  split; [reflexivity|]. split; [reflexivity|]. split; [reflexivity|].
  split; [reflexivity|]. split; [|split].
  - intros r Hr.
    apply bind_inv_Ok in Hr as (i & Hi & Hr).
    apply bind_inv_Ok in Hr as (obs & Ho & Hr). injection Hr as <-. simpl.
    split; [reflexivity|]. split; [reflexivity|]. split; [reflexivity|].
    split; [exact (get_obs_stored env1 s obs eq_refl Ho)|].
    split; [reflexivity|].
    intros legal Hl.
    destruct (get_info_mask env1 i legal Hi Hl) as (mask & Hm & Ha).
    exists mask. split; [exact Hm | exact Ha].
  - intros Hobs.
    assert (Hobs1 : observable env1 = true) by exact Hobs.
    destruct (get_info_total env1 Hobs1) as (i & Hi & _).
    destruct (get_obs_total env1 Hobs1) as (obs & Ho).
    rewrite Hi, bind_Ok, Ho, bind_Ok. eauto.
  - intros e. destruct (_get_info env1) as [i|e1]; simpl.
    + destruct (_get_obs env1) as [obs|e2]; simpl; [discriminate|].
      intros [= ->]. right. reflexivity.
    + intros [= ->]. left. reflexivity.
Qed.

End StepMore.

Lemma step_rejects_unassigned_index_witness :
  0 <= 7 < action_space_n
  /\ step (H := sample_runtime) (unreachable_client "down")
          (env_after_reset 100 (snapshot SHOP 4 1 None None) None) 7
     = (set_step_count (env_after_reset 100 (snapshot SHOP 4 1 None None) None) 1,
        Raise ValueError).
Proof.
  split; [vm_compute; split; [discriminate | reflexivity]|].
  apply (step_rejects_unassigned_index (H := sample_runtime)
           (unreachable_client "down")
           (env_after_reset 100 (snapshot SHOP 4 1 None None) None) 7).
  unfold assigned. offsets. lia.
Defined.

Lemma step_accounting_witness :
  let s := snapshot SELECTING_HAND 4 1 (Some (small_blind_data 0)) None in
  let env := env_after_reset 5 s None in
  let out := step (H := sample_runtime) (accepting_client s) env 0 in
  _step_count (fst out) = _step_count env + 1
  /\ max_steps (fst out) = max_steps env
  /\ (forall r, snd out = Ok r -> info_error (info r) = None ->
        _episode_reward (fst out) = (_episode_reward env + reward r)%float
        /\ episode_reward (info r) = _episode_reward (fst out)
        /\ step_count (info r) = _step_count env + 1
        /\ _connected (fst out) = _connected env)
  /\ (forall r, snd out = Ok r -> info_error (info r) <> None ->
        reward r = (-100)%float
        /\ _episode_reward (fst out) = _episode_reward env
        /\ episode_reward (info r) = _episode_reward env
        /\ step_count (info r) = _step_count env + 1
        /\ _connected (fst out) = false).
Proof.
  cbv zeta.
  apply (step_accounting (H := sample_runtime)
           (accepting_client (snapshot SELECTING_HAND 4 1 (Some (small_blind_data 0)) None))
           (env_after_reset 5 (snapshot SELECTING_HAND 4 1 (Some (small_blind_data 0)) None) None)
           _ 0 _).
  vm_compute. reflexivity.
Defined.

Lemma step_stale_legal_actions_witness :
  let s := snapshot SELECTING_HAND 4 1 (Some (small_blind_data 0)) None in
  let legal :=
    mkLegalActions "1.0.0" SHOP
      [ mkLegalAction (Enum SHOP_END) "Leave shop"
          (mkActionParams None None None None None None None None) ]
      None in
  let client :=
    mkBalatroClient
      (fun _ => Ok (mkActionResult false (Some "not in shop") None None))
      (Ok s)
      (Raise (BalatroConnectionError "timed out")) in
  let env := env_after_reset 100 (snapshot SHOP 4 1 None None) (Some legal) in
  let env' := fst (step (H := sample_runtime) client env 1) in
  let out := snd (step (H := sample_runtime) client env 1) in
  _current_state env' = Some s
  /\ _current_legal env' = _current_legal env
  /\ _connected env' = false
  /\ _step_count env' = _step_count env + 1
  /\ (forall r, out = Ok r ->
        reward r = (-100)%float
        /\ terminated r = true
        /\ truncated r = false
        /\ tokenize_state (H := sample_runtime) s = Ok (observation r)
        /\ info_error (info r) = Some "timed out"
        /\ (forall legal, _current_legal env = Some legal ->
              exists mask,
                get_legal_action_mask legal (Z.of_nat (length (hand s))) = Ok mask
                /\ action_mask (info r) = Some mask))
  /\ (observable (H := sample_runtime) (set_current_state env (Some s)) = true ->
      exists r, out = Ok r)
  /\ (forall e, out = Raise e ->
        _get_info env' = Raise e \/ _get_obs (H := sample_runtime) env' = Raise e).
Proof.
  cbv zeta.
  apply (step_stale_legal_actions (H := sample_runtime) _ _ 1
           (request SHOP_END ∅)
           (mkActionResult false (Some "not in shop") None None)).
  - vm_compute. reflexivity.
  - reflexivity.
  - reflexivity.
  - reflexivity.
  - reflexivity.
Defined.

(** X13: a transition that gains nothing is worth exactly 0.0: when the
    money is unchanged, the chips scored have not grown, the blind's name
    has not changed to another name, the ante has not grown and the game
    has not just fallen back to the menu, [_compute_reward] returns 0.0.
    In particular losing chips, losing the blind or a lower ante costs
    nothing. *)
Theorem compute_reward_no_gain (prev new : GameState) :
  money new = money prev ->
  match blind new with Some b => chips_scored b | None => 0 end
  <= match blind prev with Some b => chips_scored b | None => 0 end ->
  match truthy_str (match blind prev with Some b => blind_name b | None => None end),
        truthy_str (match blind new with Some b => blind_name b | None => None end)
  with
  | Some p, Some n => p = n
  | _, _ => True
  end ->
  ante new <= ante prev ->
  (phase new = MENU -> phase prev = MENU) ->
  _compute_reward (Some prev) new = Ok 0%float.
Proof.
  intros Hmoney Hchips Hname Hante Hphase. unfold _compute_reward.
  rewrite Hmoney, Z.sub_diag.
  change (float_of_int 0) with (Ok 0%float). rewrite bind_Ok.
  change (0 + 0)%float with 0%float.
  destruct (0 <? _) eqn:Hlt; [apply Z.ltb_lt in Hlt; lia|].
  rewrite bind_Ok.
  assert (Hblind :
    match truthy_str (match blind prev with Some b => blind_name b | None => None end),
          truthy_str (match blind new with Some b => blind_name b | None => None end)
    with
    | Some p, Some n => if negb (String.eqb p n) then (0 + 10)%float else 0%float
    | _, _ => 0%float
    end = 0%float).
  { destruct (truthy_str _) as [p|]; [|reflexivity].
    destruct (truthy_str _) as [n|]; [|reflexivity].
    subst n. rewrite String.eqb_refl. reflexivity. }
  rewrite Hblind.
  destruct (ante prev <? ante new) eqn:Ha; [apply Z.ltb_lt in Ha; lia|].
  destruct (bool_decide (phase new = MENU)) eqn:Hm; [|reflexivity].
  apply bool_decide_eq_true in Hm.
  rewrite (bool_decide_eq_true_2 _ (Hphase Hm)). reflexivity.
Qed.

Lemma compute_reward_no_gain_witness :
  _compute_reward
    (Some (snapshot SELECTING_HAND 4 2 (Some (small_blind_data 300)) None))
    (snapshot SHOP 4 1 None None)
  = Ok 0%float.
Proof.
  apply compute_reward_no_gain.
  - reflexivity.
  - simpl. lia.
  - exact I.
  - simpl. lia.
  - discriminate.
Defined.
(** ** obs_tokenizer.py: what an observation depends on, and batches *)

Lemma bind_ext {A B} (r : result A) (k k' : A -> result B) :
  (forall a, k a = k' a) -> (r ≫= k) = (r ≫= k').
Proof. intros Hk. destruct r as [a|e]; [apply Hk | reflexivity]. Qed.

Lemma foldM_ext_In {A S} (f g : S -> A -> result S) (l : list A) :
  (forall s x, In x l -> f s x = g s x) ->
  forall s, foldM f s l = foldM g s l.
Proof.
  induction l as [|x l IH]; intros Hfg s; simpl; [reflexivity|].
  rewrite (Hfg s x) by (left; reflexivity).
  destruct (g s x) as [s'|e]; simpl; [|reflexivity].
  apply IH. intros s0 y Hy. apply Hfg. right. exact Hy.
Qed.

(** The loop over the slots reads the first [slots] items only, and only
    through [tokenize]. *)
Lemma extend_padded_view {A B} (view : A -> B) (features : list float)
    (xs : list A) (slots : nat) (tokenize : A -> result (list float))
    (tokenize' : B -> result (list float)) (width : Z) :
  (forall x, tokenize' (view x) = tokenize x) ->
  extend_padded features (view <$> take slots xs) (Z.of_nat slots) tokenize' width
  = extend_padded features xs (Z.of_nat slots) tokenize width.
Proof.
  intros Htok. unfold extend_padded. apply foldM_ext_In. intros s i Hi.
  apply In_range in Hi.
  rewrite length_fmap, length_take.
  destruct (Z.ltb_spec i (Z.of_nat (length xs))) as [Hin|Hout].
  - destruct (Z.ltb_spec i (Z.of_nat (slots `min` length xs))) as [_|Hge]; [|lia].
    unfold list_getitem. rewrite length_fmap, length_take.
    destruct (Z.ltb_spec i 0) as [Hneg|_]; [lia|].
    destruct (Z.ltb_spec i 0) as [Hneg|_]; [lia|].
    rewrite list_lookup_fmap, lookup_take_lt by lia.
    destruct (xs !! Z.to_nat i) as [x|]; simpl; [|reflexivity].
    rewrite Htok. reflexivity.
  - destruct (Z.ltb_spec i (Z.of_nat (slots `min` length xs))) as [Hlt|_]; [lia|].
    reflexivity.
Qed.

Lemma extend_padded_length {A} (xs : list A) (tokenize : A -> result (list float))
    (width : nat) (k : nat) :
  (forall x t, tokenize x = Ok t -> length t = width) ->
  forall (lo : Z) (features out : list float),
    foldM (fun features i =>
             if i <? Z.of_nat (length xs)
             then x ← list_getitem xs i;
                  t ← tokenize x;
                  Ok (features ++ t)%list
             else Ok (features ++ replicate width 0%float)%list)
          features (range lo (lo + Z.of_nat k))
    = Ok out ->
    length out = (length features + width * k)%nat.
Proof.
  intros Htok. induction k as [|k IH]; intros lo features out.
  - rewrite range_nil by lia. simpl. intros [= <-]. lia.
  - rewrite range_cons by lia. simpl foldM.
    replace (lo + Z.of_nat (S k)) with (lo + 1 + Z.of_nat k) by lia.
    intros Hrun. apply bind_inv_Ok in Hrun as (mid & Hmid & Hrun).
    apply IH in Hrun. rewrite Hrun.
    destruct (lo <? Z.of_nat (length xs)).
    + apply bind_inv_Ok in Hmid as (x & _ & Hmid).
      apply bind_inv_Ok in Hmid as (t & Ht & Hmid). injection Hmid as <-.
      rewrite length_app, (Htok _ _ Ht). lia.
    + injection Hmid as <-. rewrite length_app, length_replicate. lia.
Qed.

Lemma extend_padded_returns_length {A} (features out : list float) (xs : list A)
    (slots : nat) (tokenize : A -> result (list float)) (width : nat) :
  (forall x t, tokenize x = Ok t -> length t = width) ->
  extend_padded features xs (Z.of_nat slots) tokenize (Z.of_nat width) = Ok out ->
  length out = (length features + width * slots)%nat.
Proof.
  intros Htok. unfold extend_padded. rewrite Nat2Z.id.
  apply (extend_padded_length xs tokenize width slots Htok 0).
Qed.

Ltac binds H :=
  repeat (let x := fresh "x" in apply bind_inv_Ok in H as (x & _ & H)).

Section View.
Context `{PyRuntime}.

Lemma tokenize_card_length (c : CardData) (t : list float) :
  tokenize_card c = Ok t -> length t = 8%nat.
Proof. unfold tokenize_card. intros Ht. binds Ht. injection Ht as <-. reflexivity. Qed.

Lemma tokenize_joker_length (j : JokerData) (t : list float) :
  tokenize_joker j = Ok t -> length t = 4%nat.
Proof. unfold tokenize_joker. intros Ht. binds Ht. injection Ht as <-. reflexivity. Qed.

Lemma tokenize_consumable_length (c : ConsumableData) (t : list float) :
  tokenize_consumable c = Ok t -> length t = 2%nat.
Proof.
  unfold tokenize_consumable. intros Ht. binds Ht. injection Ht as <-. reflexivity.
Qed.

Lemma tokenize_shop_item_length (money : Z) (i : ShopItem) (t : list float) :
  tokenize_shop_item money i = Ok t -> length t = 3%nat.
Proof.
  unfold tokenize_shop_item. intros Ht. binds Ht. injection Ht as <-. reflexivity.
Qed.

(** Whenever the featurizer returns, the tensor has [obs_size] entries. *)
Lemma tokenize_state_length (s : GameState) (v : list float32) :
  tokenize_state s = Ok v -> Z.of_nat (length v) = get_observation_size.
Proof.
  unfold tokenize_state, state_features. intros Hv.
  apply bind_inv_Ok in Hv as (features & Hf & Hv). injection Hv as <-.
  rewrite length_map.
  do 9 (let x := fresh "x" in apply bind_inv_Ok in Hf as (x & _ & Hf)).
  apply bind_inv_Ok in Hf as (f1 & H1 & Hf).
  apply bind_inv_Ok in Hf as (f2 & H2 & Hf).
  apply bind_inv_Ok in Hf as (f3 & H3 & Hf).
  apply (extend_padded_returns_length _ _ _ 6 _ 3) in Hf;
    [|apply tokenize_shop_item_length].
  apply (extend_padded_returns_length _ _ _ 4 _ 2) in H3;
    [|apply tokenize_consumable_length].
  apply (extend_padded_returns_length _ _ _ 5 _ 4) in H2;
    [|apply tokenize_joker_length].
  apply (extend_padded_returns_length _ _ _ 10 _ 8) in H1;
    [|apply tokenize_card_length].
  rewrite Hf, H3, H2, H1. reflexivity.
Qed.

Lemma state_features_view (s : GameState) :
  state_features (featurized_view s) = state_features s.
Proof.
  unfold state_features.
  change ObservationTokenizer.MAX_HAND_SIZE with (Z.of_nat 10).
  change ObservationTokenizer.MAX_JOKERS with (Z.of_nat 5).
  change MAX_CONSUMABLES with (Z.of_nat 4).
  change MAX_SHOP_ITEMS with (Z.of_nat 6).
  change (phase (featurized_view s)) with (phase s).
  change (money (featurized_view s)) with (money s).
  change (ante (featurized_view s)) with (ante s).
  change (round (featurized_view s)) with (round s).
  change (hands_remaining (featurized_view s)) with (hands_remaining s).
  change (discards_remaining (featurized_view s)) with (discards_remaining s).
  change (deck_counts (featurized_view s)) with (deck_counts s).
  change (blind (featurized_view s)) with (blind_view <$> blind s).
  change (hand (featurized_view s)) with (card_view <$> take 10 (hand s)).
  change (jokers (featurized_view s)) with (joker_view <$> take 5 (jokers s)).
  change (consumables (featurized_view s))
    with (consumable_view <$> take 4 (consumables s)).
  change (shop (featurized_view s))
    with ((fun sh => mkShopData (shop_item_view <$> take 6 (items sh)) 0) <$> shop s).
  assert (Hneeded :
    match blind_view <$> blind s with Some b => chips_needed b | None => Some 0 end
    = match blind s with Some b => chips_needed b | None => Some 0 end)
    by (destruct (blind s); reflexivity).
  assert (Hscored :
    match blind_view <$> blind s with Some b => chips_scored b | None => 0 end
    = match blind s with Some b => chips_scored b | None => 0 end)
    by (destruct (blind s); reflexivity).
  assert (Hshop :
    match (fun sh => mkShopData (shop_item_view <$> take 6 (items sh)) 0) <$> shop s
    with Some sh => items sh | None => [] end
    = shop_item_view
        <$> take 6 (match shop s with Some sh => items sh | None => [] end))
    by (destruct (shop s); reflexivity).
  rewrite Hneeded, Hscored, Hshop.
  do 9 (apply bind_ext; intros ?).
  rewrite (extend_padded_view card_view _ (hand s) 10 tokenize_card tokenize_card)
    by reflexivity.
  apply bind_ext. intros f1.
  rewrite (extend_padded_view joker_view _ (jokers s) 5 tokenize_joker tokenize_joker)
    by reflexivity.
  apply bind_ext. intros f2.
  rewrite (extend_padded_view consumable_view _ (consumables s) 4
             tokenize_consumable tokenize_consumable) by reflexivity.
  apply bind_ext. intros f3.
  apply (extend_padded_view shop_item_view f3 _ 6 (tokenize_shop_item (money s))
           (tokenize_shop_item (money s))).
  reflexivity.
Qed.

(** X14: the observation is a function of the featurized view of the
    snapshot: two snapshots that agree on the phase, the scalar counters,
    the blind's chips, the deck counts and the featurized fields of the
    first 10 cards, 5 jokers, 4 consumables and 6 shop items give the same
    tensor, or raise the same exception. Items beyond the slots, the error
    field, the pack, the hand levels and the names of blinds and shop items
    are invisible to the policy. *)
Theorem tokenize_state_reads_view (s s' : GameState) :
  featurized_view s = featurized_view s' ->
  tokenize_state s = tokenize_state s'.
Proof.
  intros Hview. unfold tokenize_state.
  rewrite <- (state_features_view s), <- (state_features_view s'), Hview.
  reflexivity.
Qed.

Lemma Forall2_right {A B} (P : A -> B -> Prop) (Q : B -> Prop)
    (l : list A) (k : list B) :
  Forall2 P l k -> (forall a b, P a b -> Q b) -> Forall Q k.
Proof.
  intros HP HQ. induction HP as [|a b l k Hab _ IH]; constructor; eauto.
Qed.

Lemma collect_singletons_Ok {A B} (f : A -> result B) (l : list A) (r : list B) :
  collect (fun x => t ← f x; Ok [t]) l = Ok r ->
  Forall2 (fun x t => f x = Ok t) l r.
Proof.
  revert r. induction l as [|x l IH]; intros r.
  - rewrite collect_nil. intros [= <-]. constructor.
  - rewrite collect_cons. intros Hrun.
    apply bind_inv_Ok in Hrun as (a & Ha & Hrun).
    apply bind_inv_Ok in Hrun as (r' & Hr' & Hrun). injection Hrun as <-.
    apply bind_inv_Ok in Ha as (t & Ht & Ha). injection Ha as <-.
    constructor; [exact Ht | apply IH, Hr'].
Qed.

Lemma collect_singletons_Raise {A B} (f : A -> result B) (l : list A) (e : exn) :
  collect (fun x => t ← f x; Ok [t]) l = Raise e ->
  exists before x after,
    l = (before ++ x :: after)%list
    /\ f x = Raise e
    /\ Forall (fun y => exists t, f y = Ok t) before.
Proof.
  induction l as [|x l IH].
  - rewrite collect_nil. discriminate.
  - rewrite collect_cons. destruct (f x) as [t|e'] eqn:Hx; simpl.
    + destruct (collect _ l) as [r|e'] eqn:Hl; simpl; [discriminate|].
      intros [= ->]. destruct (IH eq_refl) as (before & y & after & -> & Hy & Hall).
      exists (x :: before), y, after. split; [reflexivity|]. split; [exact Hy|].
      constructor; [eauto | exact Hall].
    + intros [= ->]. exists [], x, l. split; [reflexivity|]. split; [exact Hx|].
      constructor.
Qed.

(** X15: how [batch_tokenize] ends. On an empty list it raises, at
    [torch.stack]; that is the only way the stacking fails, since every
    tensor has [obs_size] entries. If [tokenize_state] raises on some
    snapshot, the exception of the first such snapshot propagates.
    Otherwise the batch has one row per snapshot, in order, and row [i] is
    the tensor of snapshot [i]. *)
Theorem batch_tokenize_outcome (states : list GameState) :
  match batch_tokenize states with
  | Batch rows =>
      states <> []
      /\ Forall2 (fun s row =>
                    tokenize_state s = Ok row
                    /\ Z.of_nat (length row) = get_observation_size)
                 states rows
  | TokenizeRaised e =>
      exists before s after,
        states = (before ++ s :: after)%list
        /\ tokenize_state s = Raise e
        /\ Forall (fun s0 => exists row, tokenize_state s0 = Ok row) before
  | StackRaised => states = []
  end.
Proof.
  unfold batch_tokenize.
  destruct (collect _ states) as [tensors|e] eqn:Hrun.
  - apply collect_singletons_Ok in Hrun.
    assert (Hrows : Forall2 (fun s row =>
                               tokenize_state s = Ok row
                               /\ Z.of_nat (length row) = get_observation_size)
                            states tensors).
    { eapply Forall2_impl; [exact Hrun|]. intros s row Hs.
      split; [exact Hs | apply (tokenize_state_length s), Hs]. }
    destruct tensors as [|t ts]; simpl.
    + inversion Hrun. reflexivity.
    + assert (Hsame : forallb (fun u => Nat.eqb (length u) (length t)) ts = true).
      { assert (Hlen : Forall (fun row : list float32 =>
                                 Z.of_nat (length row) = get_observation_size)
                              (t :: ts)).
        { apply (Forall2_right _ _ _ _ Hrows). intros s0 row [_ Hrow]. exact Hrow. }
        inversion Hlen as [|t0 ts0 Ht Hts]; subst.
        apply forallb_forall. intros u Hu. apply Nat.eqb_eq.
        rewrite Forall_forall in Hts. apply list_elem_of_In in Hu.
        specialize (Hts u Hu). lia. }
      rewrite Hsame. split; [|exact Hrows].
      inversion Hrun; subst. discriminate.
  - apply collect_singletons_Raise, Hrun.
Qed.

End View.

Lemma tokenize_state_reads_view_witness :
  let card := mkCardData "c1" (Some "Ace") (Some "Spades") None None None None
                false "front" false (Some 1) None in
  let s := mkGameState "1.0.0" 1 SELECTING_HAND None None 1 1 4 4 3 0
             (Some (small_blind_data 0)) (replicate 10 card) [] [] None None
             (mkDeckCounts 42 0) ∅ in
  let s' := mkGameState "1.0.0" 2 SELECTING_HAND (Some "late") (Some "run") 1 1 4 4 3 7
              (Some (mkBlindData (Some "The Hook") (Some 300) 0 true None))
              (replicate 12 card) [] [] None (Some (mkPackData [])) 
              (mkDeckCounts 42 0) ∅ in
  tokenize_state (H := sample_runtime) s = tokenize_state (H := sample_runtime) s'.
Proof.
  cbv zeta. apply (tokenize_state_reads_view (H := sample_runtime)).
  vm_compute. reflexivity.
Defined.
(** ** env.py: [reset], [get_action_mask] and [sample_legal_action] *)

Lemma elem_of_np_where (mask : list bool) (a : Z) :
  a ∈ Episode.np_where mask <-> 0 <= a /\ mask !! Z.to_nat a = Some true.
Proof.
  unfold Episode.np_where, true_indices. rewrite list_elem_of_fmap. split.
  - intros (i & -> & Hi). apply list_elem_of_In, filter_In in Hi as [_ Hi].
    apply bool_decide_eq_true in Hi. rewrite Nat2Z.id. split; [lia | exact Hi].
  - intros [Ha Ht]. exists (Z.to_nat a). split; [lia|].
    apply list_elem_of_In, filter_In. split.
    + apply in_seq. apply lookup_lt_Some in Ht. lia.
    + apply bool_decide_eq_true. exact Ht.
Qed.

Lemma get_action_mask_sized (env : Env) (mask : list bool) :
  Episode.get_action_mask env = Ok mask -> mask_sized mask.
Proof.
  unfold Episode.get_action_mask.
  destruct (_current_legal env) as [legal|].
  - intros Hrun. apply mask_true_iff in Hrun as [Hlen _]. exact Hlen.
  - intros [= <-]. vm_compute. reflexivity.
Qed.

Section ResetProps.
Context `{PyRuntime}.

Lemma submit_keeps_connected (client : BalatroClient) (env env' : Env)
    (a : ActionRequest) (r : result unit) :
  submit client env a = (env', r) -> _connected env' = _connected env.
Proof.
  unfold submit.
  destruct (execute_action client a) as [res|e].
  - destruct (ok res && bool_decide (is_Some (result_state res))).
    + intros [= <- _]. reflexivity.
    + destruct (get_state client) as [s|e].
      * destruct (get_legal_actions client) as [l|e];
          intros [= <- _]; reflexivity.
      * intros [= <- _]. reflexivity.
  - intros [= <- _]. reflexivity.
Qed.

Lemma step_connected (client : BalatroClient) (env : Env) (action : Z) :
  _connected (fst (step client env action)) = _connected env
  \/ _connected (fst (step client env action)) = false.
Proof.
  unfold step. destruct (decode_action action) as [a|e]; [|left; reflexivity].
  destruct (submit client _ a) as [env2 r0] eqn:Hsub.
  apply submit_keeps_connected in Hsub. simpl in Hsub.
  destruct r0 as [[]|e].
  - destruct (_current_state env2); [|left; exact Hsub].
    destruct (_compute_reward _ _); left; exact Hsub.
  - destruct e; try (left; exact Hsub). right. reflexivity.
Qed.

Lemma fetch_frame (cr : option string -> result (GameState * LegalActions))
    (client : BalatroClient) (env env' : Env) (seed_str : option string)
    (r : result GameState) :
  Episode.fetch cr client env seed_str = (env', r) ->
  _connected env' = _connected env
  /\ _step_count env' = _step_count env
  /\ _episode_reward env' = _episode_reward env
  /\ max_steps env' = max_steps env
  /\ (forall s, r = Ok s -> _current_state env' = Some s).
Proof.
  unfold Episode.fetch.
  destruct (cr seed_str) as [[state legal]|e].
  - intros [= <- <-]. repeat split. intros s [= <-]. reflexivity.
  - destruct e;
      try (intros [= <- <-]; repeat split; intros; discriminate).
    destruct (get_state client) as [s|e].
    + destruct (get_legal_actions client) as [l|e].
      * intros [= <- <-]. repeat split. intros s0 [= <-]. reflexivity.
      * intros [= <- <-]. repeat split. intros; discriminate.
    + intros [= <- <-]. repeat split. intros; discriminate.
Qed.

(** What [reset] does once the snapshot and the legal actions are stored. *)
Lemma reset_finish (env : Env) (s : GameState) (l : LegalActions) :
  _current_state env = Some s ->
  _current_legal env = Some l ->
  _step_count env = 0 ->
  _episode_reward env = 0%float ->
  let env' :=
    Episode.set_prev_chips
      (Episode.set_prev_money env (money s))
      (match blind s with Some b => chips_scored b | None => 0 end) in
  let out := (obs ← _get_obs env'; info ← _get_info env'; Ok (obs, info)) in
  (forall obs info, out = Ok (obs, info) ->
     tokenize_state s = Ok obs
     /\ step_count info = 0
     /\ episode_reward info = 0%float
     /\ info_error info = None
     /\ exists mask,
          get_legal_action_mask l (Z.of_nat (length (hand s))) = Ok mask
          /\ action_mask info = Some mask)
  /\ (observable env = true -> exists obs info, out = Ok (obs, info))
  /\ (forall e, out = Raise e -> _get_obs env' = Raise e \/ _get_info env' = Raise e).
Proof.
  intros Hs Hl Hc Hr env' out. subst out. split; [|split].
  - intros obs info Hrun.
    apply bind_inv_Ok in Hrun as (o & Ho & Hrun).
    apply bind_inv_Ok in Hrun as (i & Hi & Hrun). injection Hrun as <- <-.
    split; [exact (get_obs_stored env' s o Hs Ho)|].
    pose proof (get_info_fields env' i Hi) as (Herr & Hcount & He & _).
    split; [rewrite Hcount; exact Hc|].
    split; [rewrite He; exact Hr|].
    split; [exact Herr|].
    destruct (get_info_mask env' i l Hi Hl) as (mask & Hm & Ha).
    change (_current_state env') with (_current_state env) in Hm. rewrite Hs in Hm.
    exists mask. split; [exact Hm | exact Ha].
  - intros Hobs.
    assert (Hobs' : observable env' = true) by exact Hobs.
    destruct (get_obs_total env' Hobs') as (obs & Ho).
    destruct (get_info_total env' Hobs') as (info & Hi & _).
    exists obs, info. rewrite Ho, bind_Ok, Hi, bind_Ok. reflexivity.
  - intros e. destruct (_get_obs env') as [obs|e1]; simpl.
    + destruct (_get_info env') as [i|e2]; simpl; [discriminate|].
      intros [= ->]. right. reflexivity.
    + intros [= ->]. left. reflexivity.
Qed.

(** X16: a reset that the bridge serves, after [gym.Env.reset] has
    returned. The bridge is given the seed as a decimal string, and no
    seed when the seed is absent or 0. The snapshot and legal actions it
    answers are stored, and the step counter and the episode's reward
    restart at zero. Whenever [reset] returns, it returns the observation
    of that snapshot with an info that carries the mask of those legal
    actions; it returns whenever the snapshot can be featurized and the
    legal actions expanded into a mask, and what it raises otherwise is
    the exception of [_get_obs] or of [_get_info]. *)
Theorem reset_from_bridge (super_reset : option Z -> result unit)
    (client_reset : option string -> result (GameState * LegalActions))
    (client : BalatroClient) (env : Env) (seed : option Z)
    (s : GameState) (l : LegalActions) :
  super_reset seed = Ok tt ->
  client_reset (match seed with
                | Some z => if z =? 0 then None else Some (pretty.pretty z)
                | None => None
                end) = Ok (s, l) ->
  let env' := fst (Episode.reset super_reset client_reset client env seed) in
  let out := snd (Episode.reset super_reset client_reset client env seed) in
  _current_state env' = Some s
  /\ _current_legal env' = Some l
  /\ _step_count env' = 0
  /\ _episode_reward env' = 0%float
  /\ _prev_money env' = money s
  /\ max_steps env' = max_steps env
  /\ (forall obs info, out = Ok (obs, info) ->
        tokenize_state s = Ok obs
        /\ step_count info = 0
        /\ episode_reward info = 0%float
        /\ info_error info = None
        /\ exists mask,
             get_legal_action_mask l (Z.of_nat (length (hand s))) = Ok mask
             /\ action_mask info = Some mask)
  /\ (observable (set_current_legal (set_current_state env (Some s)) (Some l)) = true ->
      exists obs info, out = Ok (obs, info))
  /\ (forall e, out = Raise e -> _get_obs env' = Raise e \/ _get_info env' = Raise e).
Proof.
  intros Hsuper Hreset. unfold Episode.reset. rewrite Hsuper.
  unfold Episode.fetch.
  replace (match truthy_int seed with
           | Some z => Some (pretty.pretty z)
           | None => None
           end)
    with (match seed with
          | Some z => if z =? 0 then None else Some (pretty.pretty z)
          | None => None
          end)
    by (destruct seed as [z|]; [simpl; destruct (z =? 0)|]; reflexivity).
  rewrite Hreset. cbv zeta. cbv beta iota.
  set (env1 := set_current_legal
                 (set_current_state
                    (set_episode_reward (set_step_count env 0) 0%float) (Some s))
                 (Some l)).
  simpl fst. simpl snd.
  destruct (reset_finish env1 s l eq_refl eq_refl eq_refl eq_refl)
    as (Hret & Htotal & Hraise).
  split; [reflexivity|]. split; [reflexivity|]. split; [reflexivity|].
  split; [reflexivity|]. split; [reflexivity|]. split; [reflexivity|].
  split; [exact Hret|]. split; [exact Htotal | exact Hraise].
Qed.

(** X17: a reset that the bridge does not serve, after [gym.Env.reset] has
    returned. When the reset request fails to connect, [reset] fetches the
    current snapshot and legal actions instead and stores them with the
    counters at zero; whenever it returns, it returns the observation of
    that snapshot, and it returns whenever the snapshot can be featurized
    and the legal actions expanded into a mask. A failure of one of the
    two fetches is not caught: it propagates out of [reset], leaving the
    counters at zero and, when it is the second fetch that failed, the new
    snapshot stored with the legal actions of the previous episode. *)
Theorem reset_falls_back (super_reset : option Z -> result unit)
    (client_reset : option string -> result (GameState * LegalActions))
    (client : BalatroClient) (env : Env) (seed : option Z) (msg : string) :
  super_reset seed = Ok tt ->
  (forall seed_str, client_reset seed_str = Raise (BalatroConnectionError msg)) ->
  let env0 := set_episode_reward (set_step_count env 0) 0%float in
  let env' := fst (Episode.reset super_reset client_reset client env seed) in
  let out := snd (Episode.reset super_reset client_reset client env seed) in
  (forall e, get_state client = Raise e -> env' = env0 /\ out = Raise e)
  /\ (forall s e, get_state client = Ok s -> get_legal_actions client = Raise e ->
        env' = set_current_state env0 (Some s) /\ out = Raise e)
  /\ (forall s l, get_state client = Ok s -> get_legal_actions client = Ok l ->
        _current_state env' = Some s
        /\ _current_legal env' = Some l
        /\ _step_count env' = 0
        /\ _episode_reward env' = 0%float
        /\ (forall obs info, out = Ok (obs, info) ->
              tokenize_state s = Ok obs
              /\ step_count info = 0
              /\ info_error info = None)
        /\ (observable (set_current_legal (set_current_state env (Some s)) (Some l))
            = true ->
            exists obs info, out = Ok (obs, info))
        /\ (forall e, out = Raise e ->
              _get_obs env' = Raise e \/ _get_info env' = Raise e)).
Proof.
  intros Hsuper Hreset env0. unfold Episode.reset. rewrite Hsuper.
  unfold Episode.fetch. rewrite Hreset. fold env0. cbv zeta.
  split; [|split].
  - intros e ->. split; reflexivity.
  - intros s e -> ->. split; reflexivity.
  - intros s l -> ->. cbv beta iota.
    set (env1 := set_current_legal (set_current_state env0 (Some s)) (Some l)).
    simpl fst. simpl snd.
    destruct (reset_finish env1 s l eq_refl eq_refl eq_refl eq_refl)
      as (Hret & Htotal & Hraise).
    split; [reflexivity|]. split; [reflexivity|]. split; [reflexivity|].
    split; [reflexivity|]. split; [|split; [exact Htotal | exact Hraise]].
    intros obs info Hrun.
    destruct (Hret obs info Hrun) as (Ho & Hc & _ & He & _). auto.
Qed.

(** X18: the connection flag is never restored. [step] clears it on a
    connectivity failure, and neither [step] nor [reset] sets it again:
    once it is false, it is false after every later step and reset, and
    every info they return reports connected = false, also when the bridge
    answers again. *)
Theorem connected_never_restored (super_reset : option Z -> result unit)
    (client_reset : option string -> result (GameState * LegalActions))
    (client : BalatroClient) (env : Env) (action : Z) (seed : option Z) :
  _connected env = false ->
  _connected (fst (step client env action)) = false
  /\ (forall r, snd (step client env action) = Ok r -> connected (info r) = false)
  /\ _connected (fst (Episode.reset super_reset client_reset client env seed)) = false
  /\ (forall obs info,
        snd (Episode.reset super_reset client_reset client env seed) = Ok (obs, info) ->
        connected info = false).
Proof.
  intros Hoff.
  assert (Hstep : _connected (fst (step client env action)) = false).
  { destruct (step_connected client env action) as [Hs|Hs]; congruence. }
  split; [exact Hstep|]. split.
  - intros r Hr. revert Hstep Hr. unfold step.
    destruct (decode_action action) as [a|e]; [|discriminate].
    destruct (submit client _ a) as [env2 [[]|e]].
    + destruct (_current_state env2); [|discriminate].
      destruct (_compute_reward _ _); [|discriminate]. simpl.
      intros Hc Hr. apply bind_inv_Ok in Hr as (obs & _ & Hr).
      apply bind_inv_Ok in Hr as (i & Hi & Hr). injection Hr as <-.
      apply get_info_fields in Hi as (_ & _ & _ & Hconn). simpl. rewrite Hconn.
      exact Hc.
    + destruct e; try discriminate. simpl. intros _ Hr.
      apply bind_inv_Ok in Hr as (i & Hi & Hr).
      apply bind_inv_Ok in Hr as (obs & _ & Hr). injection Hr as <-.
      apply get_info_fields in Hi as (_ & _ & _ & Hconn). simpl. rewrite Hconn.
      reflexivity.
  - unfold Episode.reset.
    destruct (super_reset seed) as [u|e]; [|split; [exact Hoff | discriminate]].
    destruct (Episode.fetch client_reset client _ _) as [env1 [s|e]] eqn:Hfetch;
      apply fetch_frame in Hfetch as (Hconn & _); simpl in Hconn.
    + split; [simpl; congruence|]. simpl. intros obs info Hr.
      apply bind_inv_Ok in Hr as (o & _ & Hr).
      apply bind_inv_Ok in Hr as (i & Hi & Hr). injection Hr as _ <-.
      apply get_info_fields in Hi as (_ & _ & _ & Hc). rewrite Hc. simpl. congruence.
    + split; [simpl; congruence | discriminate].
Qed.

(** X19: [get_action_mask] against the mask of [_get_info]. Both compute
    the same mask when legal actions are stored; when none are stored,
    info carries no mask at all while [get_action_mask] returns a mask of
    [action_space.n] entries that are all false. A mask that is returned
    always has [action_space.n] entries. *)
Theorem get_action_mask_agrees_with_info (env : Env) (i : Info) :
  _get_info env = Ok i ->
  exists mask,
    Episode.get_action_mask env = Ok mask
    /\ Z.of_nat (length mask) = action_space_n
    /\ match action_mask i with
       | Some m => m = mask /\ is_Some (_current_legal env)
       | None =>
           _current_legal env = None
           /\ mask = replicate (Z.to_nat action_space_n) false
       end.
Proof.
  intros Hi. destruct (_current_legal env) as [legal|] eqn:Hl.
  - destruct (get_info_mask env i legal Hi Hl) as (mask & Hm & Ha).
    exists mask. unfold Episode.get_action_mask. rewrite Hl, Ha.
    split; [exact Hm|]. split; [|split; [reflexivity | eauto]].
    apply mask_true_iff in Hm as [Hlen _]. exact Hlen.
  - exists (replicate (Z.to_nat action_space_n) false).
    unfold Episode.get_action_mask. rewrite Hl. split; [reflexivity|].
    split; [vm_compute; reflexivity|].
    unfold _get_info in Hi. rewrite Hl in Hi. rewrite bind_Ok in Hi.
    injection Hi as <-. simpl. split; reflexivity.
Qed.

End ResetProps.

(** X20: [sample_legal_action], for a [choice] that picks a member of the
    array it is given. When the mask has a true entry, the sampled action
    is one of the true entries, and [decode_action] accepts it. When the
    mask has none (no legal actions stored, or none that sets an entry),
    the action is whatever [action_space.sample()] drew, legal or not. *)
Theorem sample_legal_action_outcome (choice : list Z -> Z) (sample : Z)
    (env : Env) (mask : list bool) :
  (forall l, l <> [] -> choice l ∈ l) ->
  Episode.get_action_mask env = Ok mask ->
  exists a,
    Episode.sample_legal_action choice sample env = Ok a
    /\ ((exists i, mask !! i = Some true) ->
          0 <= a /\ mask !! Z.to_nat a = Some true
          /\ exists req, decode_action a = Ok req)
    /\ ((forall i, mask !! i <> Some true) -> a = sample).
Proof.
  intros Hchoice Hmask. unfold Episode.sample_legal_action.
  rewrite Hmask, bind_Ok.
  destruct (Episode.np_where mask) as [|a0 rest] eqn:Hwhere.
  - exists sample. split; [reflexivity|]. split; [|reflexivity].
    intros [i Hi]. exfalso.
    assert (Hin : Z.of_nat i ∈ Episode.np_where mask).
    { apply elem_of_np_where. rewrite Nat2Z.id. split; [lia | exact Hi]. }
    rewrite Hwhere in Hin. inversion Hin.
  - exists (choice (a0 :: rest)). split; [reflexivity|].
    assert (Hin : choice (a0 :: rest) ∈ Episode.np_where mask).
    { rewrite Hwhere. apply Hchoice. discriminate. }
    apply elem_of_np_where in Hin as [Hpos Htrue]. split.
    + intros _. split; [exact Hpos|]. split; [exact Htrue|].
      revert Hmask. unfold Episode.get_action_mask.
      destruct (_current_legal env) as [legal|].
      * intros Hrun. apply mask_true_iff in Hrun as (_ & _ & Hiff).
        destruct (proj1 (Hiff _ Hpos) Htrue) as (act & idxs & _ & Hidx & Hmem).
        destruct (action_indices_kind _ _ _ Hidx _ Hmem) as [_ (req & Hreq & _)].
        exists req. exact Hreq.
      * intros Heq. exfalso.
        assert (Hmk : mask = replicate (Z.to_nat action_space_n) false)
          by congruence.
        rewrite Hmk in Htrue.
        apply lookup_replicate in Htrue as [Hf _]. discriminate.
    + intros Hnone. exfalso. exact (Hnone _ Htrue).
Qed.

Lemma reset_from_bridge_witness :
  let s := snapshot BLIND_SELECT 4 1 None None in
  let l := mkLegalActions "1.0.0" BLIND_SELECT [] None in
  let env := mkEnv 100 None None 7 3%float 0 0 true in
  let super_reset := fun _ : option Z => Ok tt in
  let client_reset := fun seed_str : option string =>
    if bool_decide (seed_str = Some "42") then Ok (s, l) else Raise ValueError in
  let client := unreachable_client "down" in
  let env' := fst (Episode.reset (H := sample_runtime) super_reset client_reset
                     client env (Some 42)) in
  let out := snd (Episode.reset (H := sample_runtime) super_reset client_reset
                    client env (Some 42)) in
  _current_state env' = Some s
  /\ _current_legal env' = Some l
  /\ _step_count env' = 0
  /\ _episode_reward env' = 0%float
  /\ _prev_money env' = money s
  /\ max_steps env' = max_steps env
  /\ (forall obs info, out = Ok (obs, info) ->
        tokenize_state (H := sample_runtime) s = Ok obs
        /\ step_count info = 0
        /\ episode_reward info = 0%float
        /\ info_error info = None
        /\ exists mask,
             get_legal_action_mask l (Z.of_nat (length (hand s))) = Ok mask
             /\ action_mask info = Some mask)
  /\ (observable (H := sample_runtime)
        (set_current_legal (set_current_state env (Some s)) (Some l)) = true ->
      exists obs info, out = Ok (obs, info))
  /\ (forall e, out = Raise e ->
        _get_obs (H := sample_runtime) env' = Raise e \/ _get_info env' = Raise e).
Proof.
  cbv zeta.
  apply (reset_from_bridge (H := sample_runtime) (fun _ => Ok tt) _
           (unreachable_client "down") _ (Some 42)).
  - reflexivity.
  - vm_compute. reflexivity.
Defined.

Lemma reset_falls_back_witness :
  let s := snapshot BLIND_SELECT 4 1 None None in
  let env := mkEnv 100 None None 7 3%float 0 0 true in
  let env0 := set_episode_reward (set_step_count env 0) 0%float in
  let super_reset := fun _ : option Z => Ok tt in
  let client_reset := fun _ : option string =>
    Raise (BalatroConnectionError "Reset not supported: no handler") in
  let half_client :=
    mkBalatroClient (fun _ => Raise (BalatroConnectionError "down")) (Ok s)
                    (Raise (BalatroConnectionError "down")) in
  let reset := Episode.reset (H := sample_runtime) super_reset client_reset in
  (fst (reset (unreachable_client "down") env None) = env0
   /\ snd (reset (unreachable_client "down") env None)
      = Raise (BalatroConnectionError "down"))
  /\ (fst (reset half_client env None) = set_current_state env0 (Some s)
      /\ snd (reset half_client env None) = Raise (BalatroConnectionError "down"))
  /\ (_current_state (fst (reset (accepting_client s) env None)) = Some s
      /\ _step_count (fst (reset (accepting_client s) env None)) = 0
      /\ exists obs info, snd (reset (accepting_client s) env None) = Ok (obs, info)).
Proof.
  cbv zeta. split; [|split].
  - apply (proj1 (reset_falls_back (H := sample_runtime) (fun _ => Ok tt)
                    (fun _ => Raise (BalatroConnectionError
                                       "Reset not supported: no handler"))
                    (unreachable_client "down")
                    (mkEnv 100 None None 7 3%float 0 0 true) None
                    "Reset not supported: no handler"
                    eq_refl (fun _ => eq_refl))
                 (BalatroConnectionError "down") eq_refl).
  - apply (proj1 (proj2 (reset_falls_back (H := sample_runtime) (fun _ => Ok tt)
                    (fun _ => Raise (BalatroConnectionError
                                       "Reset not supported: no handler"))
                    (mkBalatroClient
                       (fun _ => Raise (BalatroConnectionError "down"))
                       (Ok (snapshot BLIND_SELECT 4 1 None None))
                       (Raise (BalatroConnectionError "down")))
                    (mkEnv 100 None None 7 3%float 0 0 true) None
                    "Reset not supported: no handler"
                    eq_refl (fun _ => eq_refl)))
                 (snapshot BLIND_SELECT 4 1 None None)
                 (BalatroConnectionError "down") eq_refl eq_refl).
  - destruct (proj2 (proj2 (reset_falls_back (H := sample_runtime) (fun _ => Ok tt)
                    (fun _ => Raise (BalatroConnectionError
                                       "Reset not supported: no handler"))
                    (accepting_client (snapshot BLIND_SELECT 4 1 None None))
                    (mkEnv 100 None None 7 3%float 0 0 true) None
                    "Reset not supported: no handler"
                    eq_refl (fun _ => eq_refl)))
                 (snapshot BLIND_SELECT 4 1 None None)
                 (mkLegalActions "1.0.0" BLIND_SELECT [] None) eq_refl eq_refl)
      as (Hs & _ & Hc & _ & _ & Htotal & _).
    split; [exact Hs|]. split; [exact Hc|].
    apply Htotal. vm_compute. reflexivity.
Defined.

Lemma connected_never_restored_witness :
  let s := snapshot BLIND_SELECT 4 1 None None in
  let env := mkEnv 100 (Some s) None 3 0%float 4 0 false in
  let super_reset := fun _ : option Z => Ok tt in
  let client_reset := fun _ : option string =>
    Ok (s, mkLegalActions "1.0.0" BLIND_SELECT [] None) in
  let client := accepting_client s in
  _connected (fst (step (H := sample_runtime) client env 2)) = false
  /\ (forall r, snd (step (H := sample_runtime) client env 2) = Ok r ->
        connected (info r) = false)
  /\ _connected (fst (Episode.reset (H := sample_runtime) super_reset client_reset
                        client env None)) = false
  /\ (forall obs info,
        snd (Episode.reset (H := sample_runtime) super_reset client_reset
               client env None) = Ok (obs, info) ->
        connected info = false).
Proof.
  cbv zeta.
  apply (connected_never_restored (H := sample_runtime)).
  reflexivity.
Defined.

Lemma get_action_mask_agrees_with_info_witness :
  let env := mkEnv 100 None None 0 0%float 0 0 true in
  let i := mkInfo 0 0%float true None None None None in
  exists mask,
    Episode.get_action_mask env = Ok mask
    /\ Z.of_nat (length mask) = action_space_n
    /\ match action_mask i with
       | Some m => m = mask /\ is_Some (_current_legal env)
       | None =>
           _current_legal env = None
           /\ mask = replicate (Z.to_nat action_space_n) false
       end.
Proof.
  cbv zeta.
  apply (get_action_mask_agrees_with_info
           (mkEnv 100 None None 0 0%float 0 0 true)
           (mkInfo 0 0%float true None None None None)).
  reflexivity.
Defined.

Lemma sample_legal_action_outcome_witness :
  let legal :=
    mkLegalActions "1.0.0" SHOP
      [ mkLegalAction (Enum SHOP_END) "Leave shop"
          (mkActionParams None None None None None None None None) ]
      None in
  let env := env_after_reset 100 (snapshot SHOP 4 1 None None) (Some legal) in
  let choice := fun l : list Z => default 0 (head l) in
  let mask := mark (replicate (Z.to_nat action_space_size) false) [1] in
  exists a,
    Episode.sample_legal_action choice 6 env = Ok a
    /\ ((exists i, mask !! i = Some true) ->
          0 <= a /\ mask !! Z.to_nat a = Some true
          /\ exists req, decode_action a = Ok req)
    /\ ((forall i, mask !! i <> Some true) -> a = 6).
Proof.
  cbv zeta.
  apply (sample_legal_action_outcome (fun l : list Z => default 0 (head l)) 6).
  - intros [|x l] Hl; [congruence | left].
  - vm_compute. reflexivity.
Defined.
(** ** client.py: the retry loop of [_request] *)

Section RequestProps.
Context {J : Type}.
Variable sleep : float -> result unit.
Variable session : nat -> Bridge.attempt J.

Lemma supported_method (method : string) :
  method = "GET" \/ method = "POST" ->
  (negb (String.eqb method "GET") && negb (String.eqb method "POST"))%bool = false.
Proof. intros [-> | ->]; reflexivity. Qed.

(** The loop passes over a run of transient failures, sleeping after each
    one, as long as an attempt is left after them. *)
Lemma request_loop_skip (self : Bridge.Client) (url method : string) (hi : Z) :
  method = "GET" \/ method = "POST" ->
  sleep (Bridge.retry_delay self) = Ok tt ->
  forall (k : nat) (a : Z) (sent slept : nat) (last : option string),
    a + Z.of_nat k <= hi ->
    a + Z.of_nat k <= Bridge.retry_count self - 1 ->
    (forall j, (j < k)%nat -> is_Some (Bridge.transient (session (sent + j)))) ->
    exists last',
      Bridge.request_loop sleep session self url method (range a hi) sent slept last
      = Bridge.request_loop sleep session self url method
          (range (a + Z.of_nat k) hi) (sent + k) (slept + k) last'.
Proof.
  intros Hm Hsleep. induction k as [|k IH]; intros a sent slept last Hhi Hrc Htr.
  - exists last. rewrite Z.add_0_r, !Nat.add_0_r. reflexivity.
  - rewrite (range_cons a hi) by lia. simpl Bridge.request_loop.
    rewrite (supported_method _ Hm).
    assert (Hnow : is_Some (Bridge.transient (session sent))).
    { rewrite <- (Nat.add_0_r sent). apply Htr. lia. }
    assert (Hlt : (a <? Bridge.retry_count self - 1) = true) by (apply Z.ltb_lt; lia).
    assert (Hnext : forall msg, exists last',
               Bridge.request_loop sleep session self url method
                 (range (a + 1) hi) (S sent) (S slept) (Some msg)
               = Bridge.request_loop sleep session self url method
                   (range (a + Z.of_nat (S k)) hi) (sent + S k) (slept + S k) last').
    { intros msg.
      destruct (IH (a + 1) (S sent) (S slept) (Some msg)) as [last' Hrun];
        [lia | lia | |].
      - intros j Hj. replace (S sent + j)%nat with (sent + S j)%nat by lia.
        apply Htr. lia.
      - exists last'. rewrite Hrun.
        replace (a + 1 + Z.of_nat k) with (a + Z.of_nat (S k)) by lia.
        replace (S sent + k)%nat with (sent + S k)%nat by lia.
        replace (S slept + k)%nat with (slept + S k)%nat by lia.
        reflexivity. }
    destruct (session sent) as [data|msg|msg|msg|e];
      try (destruct Hnow as [x Hx]; discriminate Hx);
      rewrite Hlt, Hsleep; apply Hnext.
Qed.

Lemma request_loop_bounds (self : Bridge.Client) (url method : string) :
  forall (k : nat) (a : Z) (sent slept : nat) (last : option string),
    a + Z.of_nat k = Bridge.retry_count self ->
    let o := Bridge.request_loop sleep session self url method
               (range a (a + Z.of_nat k)) sent slept last in
    (sent <= Bridge.requests o <= sent + k)%nat
    /\ (slept <= Bridge.sleeps o)%nat
    /\ (Bridge.sleeps o - slept <= Bridge.requests o - sent)%nat
    /\ (Bridge.sleeps o <= slept + (k - 1))%nat
    /\ forall data, Bridge.returned o = Ok data ->
         (S sent <= Bridge.requests o)%nat
         /\ session (Bridge.requests o - 1) = Bridge.Reply data.
Proof.
  induction k as [|k IH]; intros a sent slept last Hrc.
  - rewrite range_nil by lia. simpl. repeat split; try lia; discriminate.
  - rewrite range_cons by lia. simpl Bridge.request_loop.
    replace (a + Z.of_nat (S k)) with (a + 1 + Z.of_nat k) by lia.
    destruct (negb (String.eqb method "GET") && negb (String.eqb method "POST"))%bool.
    { simpl. repeat split; try lia; discriminate. }
    assert (Hrec : forall slept' msg,
               (slept' = slept \/ (slept' = S slept /\ a < Bridge.retry_count self - 1)) ->
               let o := Bridge.request_loop sleep session self url method
                          (range (a + 1) (a + 1 + Z.of_nat k)) (S sent) slept' (Some msg) in
               (sent <= Bridge.requests o <= sent + S k)%nat
               /\ (slept <= Bridge.sleeps o)%nat
               /\ (Bridge.sleeps o - slept <= Bridge.requests o - sent)%nat
               /\ (Bridge.sleeps o <= slept + (S k - 1))%nat
               /\ forall data, Bridge.returned o = Ok data ->
                    (S sent <= Bridge.requests o)%nat
                    /\ session (Bridge.requests o - 1) = Bridge.Reply data).
    { intros slept' msg Hs'.
      destruct (IH (a + 1) (S sent) slept' (Some msg)) as (Hreq & Hsl & Hdiff & Hmax & Hok);
        [lia|].
      cbv zeta in *.
      destruct Hs' as [-> | [-> Hlt]];
        (split; [lia|]); (split; [lia|]); (split; [lia|]); (split; [lia|]);
        intros data Hd; destruct (Hok data Hd) as [Hge Hrep];
        (split; [lia | exact Hrep]). }
    destruct (session sent) as [data|msg|msg|msg|e] eqn:Hs.
    + simpl. split; [lia|]. split; [lia|]. split; [lia|]. split; [lia|].
      intros d [= <-]. split; [lia|].
      rewrite Nat.sub_0_r. exact Hs.
    + simpl. repeat split; try lia; discriminate.
    + destruct (Z.ltb_spec a (Bridge.retry_count self - 1)) as [Hlt|Hge].
      * destruct (sleep (Bridge.retry_delay self)) as [u|e].
        -- apply Hrec. right. split; [reflexivity | exact Hlt].
        -- simpl. repeat split; try lia; discriminate.
      * apply Hrec. left. reflexivity.
    + destruct (Z.ltb_spec a (Bridge.retry_count self - 1)) as [Hlt|Hge].
      * destruct (sleep (Bridge.retry_delay self)) as [u|e].
        -- apply Hrec. right. split; [reflexivity | exact Hlt].
        -- simpl. repeat split; try lia; discriminate.
      * apply Hrec. left. reflexivity.
    + simpl. repeat split; try lia; discriminate.
Qed.

(** X21: the first answer that is not a connection failure or a timeout
    decides the call. After [k] such failures, with an attempt left, a
    reply is returned, an HTTP error is turned into
    [BalatroConnectionError] without any retry, and any other exception
    propagates: in each case after [k + 1] requests and [k] sleeps. *)
Theorem request_first_answer (self : Bridge.Client) (method endpoint : string)
    (k : nat) :
  method = "GET" \/ method = "POST" ->
  sleep (Bridge.retry_delay self) = Ok tt ->
  Z.of_nat k < Bridge.retry_count self ->
  (forall j, (j < k)%nat -> is_Some (Bridge.transient (session j))) ->
  (forall data, session k = Bridge.Reply data ->
     Bridge._request sleep session self method endpoint
     = Bridge.mkOutcome (Ok data) (S k) k)
  /\ (forall msg, session k = Bridge.HTTPError msg ->
        Bridge._request sleep session self method endpoint
        = Bridge.mkOutcome
            (Raise (BalatroConnectionError ("HTTP error: " +:+ msg))) (S k) k)
  /\ (forall e, session k = Bridge.Failure e ->
        Bridge._request sleep session self method endpoint
        = Bridge.mkOutcome (Raise e) (S k) k).
Proof.
  intros Hm Hsleep Hk Htr. unfold Bridge._request.
  destruct (request_loop_skip self
              (Bridge.base_url self +:+ "/" +:+ endpoint) method
              (Bridge.retry_count self) Hm Hsleep k 0 0%nat 0%nat None)
    as [last' Hrun]; [lia | lia | exact Htr |].
  rewrite Hrun. rewrite range_cons by lia. simpl Bridge.request_loop.
  rewrite (supported_method _ Hm). simpl plus.
  repeat split; intros x Hx; rewrite Hx; reflexivity.
Qed.

(** X22: [_request] gives up after exactly [retry_count] requests. When
    all of them end in a connection failure or a timeout, it sleeps
    between them but not after the last one, and raises
    [BalatroConnectionError] with the address, the number of attempts and
    the text of the last failure. *)
Theorem request_gives_up (self : Bridge.Client) (method endpoint : string)
    (n : nat) (msg : string) :
  method = "GET" \/ method = "POST" ->
  sleep (Bridge.retry_delay self) = Ok tt ->
  Bridge.retry_count self = Z.of_nat (S n) ->
  (forall j, (j < n)%nat -> is_Some (Bridge.transient (session j))) ->
  Bridge.transient (session n) = Some msg ->
  Bridge._request sleep session self method endpoint
  = Bridge.mkOutcome
      (Raise (BalatroConnectionError
                ("Failed to connect to Balatro at "
                 +:+ (Bridge.base_url self +:+ "/" +:+ endpoint) +:+ " after "
                 +:+ pretty.pretty (Bridge.retry_count self)
                 +:+ " attempts: " +:+ msg)))
      (S n) n.
Proof.
  intros Hm Hsleep Hrc Htr Hlast. unfold Bridge._request.
  destruct (request_loop_skip self
              (Bridge.base_url self +:+ "/" +:+ endpoint) method
              (Bridge.retry_count self) Hm Hsleep n 0 0%nat 0%nat None)
    as [last' Hrun]; [lia | lia | exact Htr |].
  rewrite Hrun. rewrite range_cons by lia. simpl Bridge.request_loop.
  rewrite (supported_method _ Hm). simpl plus.
  assert (Hno : (0 + Z.of_nat n <? Bridge.retry_count self - 1) = false)
    by (apply Z.ltb_ge; lia).
  rewrite range_nil by lia.
  destruct (session n) as [data|m|m|m|e]; try discriminate Hlast;
    injection Hlast as ->; rewrite Hno; reflexivity.
Qed.

(** X23: the bounds of [_request], for every client, method and session.
    It sends at most [retry_count] requests and sleeps at most
    [retry_count - 1] times, never more often than it sent a request; what
    it returns is the reply to its last request. With [retry_count <= 0]
    it raises [BalatroConnectionError] without sending anything; with a
    method other than GET and POST it raises [ValueError] without sending
    anything; and a delay that [time.sleep] rejects makes the first retry
    raise that exception instead of retrying. *)
Theorem request_bounds (self : Bridge.Client) (method endpoint : string) :
  let o := Bridge._request sleep session self method endpoint in
  Z.of_nat (Bridge.requests o) <= Z.max 0 (Bridge.retry_count self)
  /\ Z.of_nat (Bridge.sleeps o) <= Z.max 0 (Bridge.retry_count self - 1)
  /\ (Bridge.sleeps o <= Bridge.requests o)%nat
  /\ (forall data, Bridge.returned o = Ok data ->
        (1 <= Bridge.requests o)%nat
        /\ session (Bridge.requests o - 1) = Bridge.Reply data)
  /\ (Bridge.retry_count self <= 0 ->
        o = Bridge.mkOutcome
              (Raise (BalatroConnectionError
                        ("Failed to connect to Balatro at "
                         +:+ (Bridge.base_url self +:+ "/" +:+ endpoint) +:+ " after "
                         +:+ pretty.pretty (Bridge.retry_count self)
                         +:+ " attempts: None")))
              0 0)
  /\ (0 < Bridge.retry_count self -> method <> "GET" -> method <> "POST" ->
        o = Bridge.mkOutcome (Raise ValueError) 0 0)
  /\ (forall e, 1 < Bridge.retry_count self ->
        method = "GET" \/ method = "POST" ->
        is_Some (Bridge.transient (session 0)) ->
        sleep (Bridge.retry_delay self) = Raise e ->
        o = Bridge.mkOutcome (Raise e) 1 0).
Proof.
  cbv zeta. unfold Bridge._request.
  set (url := Bridge.base_url self +:+ "/" +:+ endpoint).
  destruct (Z.le_gt_cases (Bridge.retry_count self) 0) as [Hle|Hgt].
  - rewrite range_nil by lia. simpl.
    repeat split; try lia; try discriminate.
  - pose proof (request_loop_bounds self url method
                  (Z.to_nat (Bridge.retry_count self)) 0 0%nat 0%nat None) as Hb.
    rewrite Z2Nat.id in Hb by lia. rewrite !Z.add_0_l in Hb.
    destruct Hb as (Hreq & _ & Hdiff & Hmax & Hok); [reflexivity|].
    split; [lia|]. split; [lia|]. split; [lia|]. split.
    { intros data Hd. destruct (Hok data Hd) as [Hge Hrep]. split; [lia | exact Hrep]. }
    split; [intros; lia|]. split.
    + intros _ Hget Hpost. rewrite range_cons by lia. simpl.
      destruct (String.eqb_spec method "GET") as [->|_]; [congruence|].
      destruct (String.eqb_spec method "POST") as [->|_]; [congruence|].
      reflexivity.
    + intros e Hrc Hm Htr Hsl. rewrite range_cons by lia. simpl Bridge.request_loop.
      rewrite (supported_method _ Hm).
      assert (Hlt : (0 <? Bridge.retry_count self - 1) = true) by (apply Z.ltb_lt; lia).
      destruct (session 0%nat) as [data|m|m|m|e0];
        try (destruct Htr as [x Hx]; discriminate Hx);
        rewrite Hlt, Hsl; reflexivity.
Qed.

End RequestProps.

Lemma request_first_answer_witness :
  let self := Bridge.mkClient "http://127.0.0.1:7777" 5%float 3 0.5%float in
  let session := fun j : nat =>
    if Nat.ltb j 2 then Bridge.ConnectionError "refused" else Bridge.Reply 7 in
  Bridge._request (fun _ => Ok tt) session self "GET" "state"
  = Bridge.mkOutcome (Ok 7) 3 2.
Proof.
  cbv zeta.
  apply (proj1 (request_first_answer (fun _ => Ok tt)
                  (fun j : nat =>
                     if Nat.ltb j 2 then Bridge.ConnectionError "refused"
                     else Bridge.Reply 7)
                  (Bridge.mkClient "http://127.0.0.1:7777" 5%float 3 0.5%float)
                  "GET" "state" 2
                  (or_introl eq_refl) eq_refl eq_refl
                  (fun j Hj => ltac:(destruct j as [|[|j]]; [eexists; reflexivity
                                                           | eexists; reflexivity
                                                           | lia])))
          7).
  reflexivity.
Defined.

Lemma request_gives_up_witness :
  let self := Bridge.mkClient "http://127.0.0.1:7777" 5%float 3 0.5%float in
  let session := fun j : nat =>
    if Nat.ltb j 2 then Bridge.ConnectionError "refused"
    else Bridge.Timeout "timed out" in
  Bridge._request (J := Z) (fun _ => Ok tt) session self "POST" "action"
  = Bridge.mkOutcome
      (Raise (BalatroConnectionError
                "Failed to connect to Balatro at http://127.0.0.1:7777/action after 3 attempts: timed out"))
      3 2.
Proof.
  cbv zeta.
  apply (request_gives_up (J := Z) (fun _ => Ok tt)
           (fun j : nat =>
              if Nat.ltb j 2 then Bridge.ConnectionError "refused"
              else Bridge.Timeout "timed out")
           (Bridge.mkClient "http://127.0.0.1:7777" 5%float 3 0.5%float)
           "POST" "action" 2 "timed out").
  - right. reflexivity.
  - reflexivity.
  - reflexivity.
  - intros j Hj. destruct j as [|[|j]]; [eexists; reflexivity | eexists; reflexivity | lia].
  - reflexivity.
Defined.
(** ** env.py: [render]; schemas.py: phases; the phase in the observation *)

(** X24: [render]. Without a stored snapshot, and in every mode other than
    human and ansi, it returns None. In ansi mode it raises [TypeError]
    exactly when the snapshot has a blind whose [chips_needed] is None (the
    thousands format does not accept None); otherwise it returns a text of
    three lines plus one line each for the blind, a non-empty hand and a
    non-empty list of jokers, the first line naming the phase. *)
Theorem render_outcome (print_state_summary : GameState -> result unit)
    (env : Env) (s : GameState) :
  _current_state env = Some s ->
  (forall mode, Episode.render print_state_summary mode
                  (set_current_state env None) = Ok None)
  /\ (forall mode, mode <> Some "human" -> mode <> Some "ansi" ->
        Episode.render print_state_summary mode env = Ok None)
  /\ (Episode.render print_state_summary (Some "ansi") env = Raise TypeError
      <-> exists b, blind s = Some b /\ chips_needed b = None)
  /\ ((forall b, blind s = Some b -> is_Some (chips_needed b)) ->
      exists lines,
        Episode.render print_state_summary (Some "ansi") env
        = Ok (Some (String.concat Episode.newline lines))
        /\ lines !! 0%nat = Some ("Phase: " +:+ GamePhase_value (phase s))
        /\ length lines
           = (3 + (match blind s with Some _ => 1 | None => 0 end)
              + (match hand s with [] => 0 | _ => 1 end)
              + (match jokers s with [] => 0 | _ => 1 end))%nat).
Proof.
  intros Hs. split; [reflexivity|]. split.
  { intros mode Hh Ha. unfold Episode.render. rewrite Hs.
    rewrite (bool_decide_eq_false_2 _ Hh), (bool_decide_eq_false_2 _ Ha).
    reflexivity. }
  unfold Episode.render. rewrite Hs.
  change (bool_decide (Some "ansi" = Some "human")) with false.
  change (bool_decide (Some "ansi" = Some "ansi")) with true.
  cbv iota. unfold Episode.render_ansi.
  destruct (blind s) as [b|] eqn:Hb.
  - destruct (chips_needed b) as [needed|] eqn:Hn.
    + split.
      * split.
        -- rewrite bind_Ok.
           destruct (hand s), (jokers s); discriminate.
        -- intros (b' & [= <-] & Hnone). congruence.
      * intros _. rewrite bind_Ok.
        destruct (hand s) as [|c cs], (jokers s) as [|j js];
          eexists; (split; [reflexivity|]); split; reflexivity.
    + split.
      * split; [intros _; exists b; split; [reflexivity | exact Hn] | reflexivity].
      * intros Hall. destruct (Hall b eq_refl) as [x Hx]. congruence.
  - split.
    + split.
      * rewrite bind_Ok. destruct (hand s), (jokers s); discriminate.
      * intros (b' & Hb' & _). discriminate.
    + intros _. rewrite bind_Ok.
      destruct (hand s) as [|c cs], (jokers s) as [|j js];
        eexists; (split; [reflexivity|]); split; reflexivity.
Qed.

Lemma render_outcome_witness :
  let s := snapshot SELECTING_HAND 4 1 (Some named_blind) None in
  let env := env_after_reset 100 s None in
  let print_state_summary := fun _ : GameState => Ok tt in
  Episode.render print_state_summary (Some "ansi") env = Raise TypeError.
Proof.
  cbv zeta.
  apply (proj1 (proj2 (proj2
           (render_outcome (fun _ => Ok tt)
              (env_after_reset 100 (snapshot SELECTING_HAND 4 1 (Some named_blind) None) None)
              (snapshot SELECTING_HAND 4 1 (Some named_blind) None) eq_refl)))).
  exists named_blind. split; reflexivity.
Defined.

Lemma GamePhase_value_inj (p q : GamePhase) :
  GamePhase_value p = GamePhase_value q -> p = q.
Proof. destruct p, q; intros Heq; first [reflexivity | discriminate Heq]. Qed.

(** X25: parsing a phase never fails. [GamePhase(value)] gives back the
    member on each of the nine values (which are pairwise different) and
    UNKNOWN on every other string, whether or not it starts with STATE_.
    A snapshot at a decision point (SELECTING_HAND, SHOP, BLIND_SELECT,
    PACK_OPENING) is never terminal because of its phase: [_is_terminal]
    holds on it only through the step budget or the error field. *)
Theorem game_phase_parsing :
  (forall p, Schemas.GamePhase_of_value (GamePhase_value p) = p)
  /\ (forall v, (forall p, GamePhase_value p <> v) ->
        Schemas.GamePhase_of_value v = UNKNOWN)
  /\ (forall p q, GamePhase_value p = GamePhase_value q -> p = q)
  /\ (forall env s, Schemas.is_decision_point s = true ->
        _is_terminal env s
        = ((max_steps env <=? _step_count env)
           || bool_decide (is_Some (truthy_str (error s))))).
Proof.
  split; [intros p; destruct p; reflexivity|]. split.
  { intros v Hv. unfold Schemas.GamePhase_of_value.
    destruct (find _ Schemas.GamePhase_members) as [p|] eqn:Hfind.
    - apply find_some in Hfind as [_ Heq]. apply String.eqb_eq in Heq.
      destruct (Hv p Heq).
    - unfold Schemas._missing_. destruct (_ && _); reflexivity. }
  split; [apply GamePhase_value_inj|].
  intros env s Hd. unfold Schemas.is_decision_point in Hd.
  apply bool_decide_eq_true in Hd. unfold _is_terminal.
  rewrite !elem_of_cons, elem_of_nil in Hd.
  destruct Hd as [-> | [-> | [-> | [-> | []]]]]; simpl;
    (destruct (max_steps env <=? _step_count env); [reflexivity|]);
    destruct (bool_decide _); reflexivity.
Qed.

Lemma extend_padded_prefix {A} (features out : list float) (xs : list A)
    (slots : Z) (tokenize : A -> result (list float)) (width : Z) :
  extend_padded features xs slots tokenize width = Ok out ->
  exists rest, out = (features ++ rest)%list.
Proof.
  unfold extend_padded. intros Hrun.
  apply (foldM_invariant (fun l => exists rest, l = (features ++ rest)%list)
           _ _ _ _ (ex_intro _ [] (eq_sym (app_nil_r features)))) in Hrun;
    [exact Hrun|].
  intros l i l' _ [rest ->] Hbody.
  destruct (i <? Z.of_nat (length xs)).
  - apply bind_inv_Ok in Hbody as (x & _ & Hbody).
    apply bind_inv_Ok in Hbody as (t & _ & Hbody). injection Hbody as <-.
    exists (rest ++ t)%list. rewrite app_assoc. reflexivity.
  - injection Hbody as <-. eexists. rewrite <- app_assoc. reflexivity.
Qed.

Section PhaseFeature.
Context `{PyRuntime}.

(** The first entry of the observation is the phase code over ten. *)
Lemma tokenize_state_phase_entry (s : GameState) (v : list float32) :
  tokenize_state s = Ok v ->
  exists x,
    int_div_float (default 8 (PHASE_MAP (phase s))) 10 = Ok x
    /\ v !! 0%nat = Some (round_float32 x).
Proof.
  unfold tokenize_state, state_features. intros Hv.
  apply bind_inv_Ok in Hv as (features & Hf & Hv). injection Hv as <-.
  apply bind_inv_Ok in Hf as (x & Hx & Hf). exists x. split; [exact Hx|].
  do 8 (let y := fresh "y" in apply bind_inv_Ok in Hf as (y & _ & Hf)).
  apply bind_inv_Ok in Hf as (f1 & H1 & Hf).
  apply bind_inv_Ok in Hf as (f2 & H2 & Hf).
  apply bind_inv_Ok in Hf as (f3 & H3 & Hf).
  apply extend_padded_prefix in Hf as [r4 ->].
  apply extend_padded_prefix in H3 as [r3 ->].
  apply extend_padded_prefix in H2 as [r2 ->].
  apply extend_padded_prefix in H1 as [r1 ->].
  reflexivity.
Qed.

(** X26: the observation identifies the phase: two snapshots whose tensors
    have the same first entry are in the same phase (the nine phase codes
    over ten round to nine different float32 values). *)
Theorem observation_identifies_phase (s s' : GameState) (v v' : list float32) :
  tokenize_state s = Ok v ->
  tokenize_state s' = Ok v' ->
  v !! 0%nat = v' !! 0%nat ->
  phase s = phase s'.
Proof.
  intros Hv Hv' Heq.
  apply tokenize_state_phase_entry in Hv as (x & Hx & Hv0).
  apply tokenize_state_phase_entry in Hv' as (x' & Hx' & Hv0').
  rewrite Hv0, Hv0' in Heq. injection Heq as Heq.
  destruct (phase s), (phase s'); try reflexivity; exfalso;
    vm_compute in Hx, Hx'; injection Hx as <-; injection Hx' as <-;
    vm_compute in Heq; discriminate Heq.
Qed.

End PhaseFeature.

Lemma observation_identifies_phase_witness :
  phase (snapshot SHOP 4 1 None None)
  = phase (snapshot SHOP 250 3 (Some (small_blind_data 120)) None).
Proof.
  destruct (tokenize_state (H := sample_runtime) (snapshot SHOP 4 1 None None))
    as [v|e] eqn:Hv; [|vm_compute in Hv; discriminate Hv].
  destruct (tokenize_state (H := sample_runtime)
              (snapshot SHOP 250 3 (Some (small_blind_data 120)) None))
    as [v'|e] eqn:Hv'; [|vm_compute in Hv'; discriminate Hv'].
  apply (observation_identifies_phase (H := sample_runtime) _ _ v v' Hv Hv').
  vm_compute in Hv, Hv'. injection Hv as <-. injection Hv' as <-. reflexivity.
Defined.
(** ** env.py: the two ways in which [step] adopts a snapshot *)

Lemma compute_reward_same (s : GameState) : _compute_reward (Some s) s = Ok 0%float.
Proof.
  unfold _compute_reward. rewrite !Z.sub_diag.
  change (float_of_int 0) with (Ok 0%float). rewrite bind_Ok.
  change (0 + 0)%float with 0%float. change (0 <? 0) with false. rewrite bind_Ok.
  rewrite Z.ltb_irrefl.
  destruct (truthy_str _) as [p|]; [rewrite String.eqb_refl|]; simpl;
  destruct (bool_decide (phase s = MENU)); reflexivity.
Qed.

Section Adopt.
Context `{PyRuntime}.

(** X27: an action that the bridge accepts with a snapshot. [step] stores
    that snapshot and the legal actions of the same answer, without
    fetching anything else; when the answer carries no legal actions the
    stored legal actions become None. Whenever [step] returns, the
    observation is the one of the new snapshot, the reward is the one of
    the transition from the previous snapshot, and info carries the mask of
    the answered legal actions, or no mask when there are none. It returns
    whenever that reward can be computed, the new snapshot featurized and
    the answered legal actions expanded into a mask; what it raises
    otherwise is the exception of that computation. *)
Theorem step_accepted (client : BalatroClient) (env : Env) (action : Z)
    (a : ActionRequest) (res : ActionResult) (s' : GameState) :
  decode_action action = Ok a ->
  execute_action client a = Ok res ->
  ok res = true ->
  result_state res = Some s' ->
  let env' := fst (step client env action) in
  let out := snd (step client env action) in
  _current_state env' = Some s'
  /\ _current_legal env' = result_legal res
  /\ _step_count env' = _step_count env + 1
  /\ (forall r, out = Ok r ->
        _compute_reward (_current_state env) s' = Ok (reward r)
        /\ tokenize_state s' = Ok (observation r)
        /\ info_error (info r) = None
        /\ (result_legal res = None -> action_mask (info r) = None)
        /\ (forall l, result_legal res = Some l ->
              exists mask,
                get_legal_action_mask l (Z.of_nat (length (hand s'))) = Ok mask
                /\ action_mask (info r) = Some mask))
  /\ (forall rew, _compute_reward (_current_state env) s' = Ok rew ->
        observable (set_current_legal (set_current_state env (Some s'))
                                      (result_legal res)) = true ->
        exists r, out = Ok r)
  /\ (forall e, out = Raise e ->
        _compute_reward (_current_state env) s' = Raise e
        \/ _get_obs env' = Raise e \/ _get_info env' = Raise e).
Proof.
  intros Hdec Hexec Hok Hstate.
  unfold step. rewrite Hdec. unfold submit. rewrite Hexec, Hok, Hstate.
  rewrite bool_decide_eq_true_2 by eauto. simpl andb. cbv iota beta zeta.
  simpl (_current_state _). cbv iota beta.
  destruct (_compute_reward (_current_state env) s') as [rew|e0].
  - set (env3 := set_episode_reward _ _). simpl fst. simpl snd.
    split; [reflexivity|]. split; [reflexivity|]. split; [reflexivity|].
    split; [|split].
    + intros r Hr.
      apply bind_inv_Ok in Hr as (obs & Ho & Hr).
      apply bind_inv_Ok in Hr as (i & Hi & Hr). injection Hr as <-. simpl.
      split; [reflexivity|].
      split; [exact (get_obs_stored env3 s' obs eq_refl Ho)|].
      split; [apply (get_info_fields env3 i Hi)|]. split.
      * intros Hnone. apply (get_info_no_mask env3 i Hi). exact Hnone.
      * intros l Hl.
        destruct (get_info_mask env3 i l Hi Hl) as (mask & Hm & Ha).
        exists mask. split; [exact Hm | exact Ha].
    + intros rew' _ Hobs.
      assert (Hobs3 : observable env3 = true) by exact Hobs.
      destruct (get_obs_total env3 Hobs3) as (obs & Ho).
      destruct (get_info_total env3 Hobs3) as (i & Hi & _).
      rewrite Ho, bind_Ok, Hi, bind_Ok. eauto.
    + intros e. destruct (_get_obs env3) as [obs|e1]; simpl.
      * destruct (_get_info env3) as [i|e2]; simpl; [discriminate|].
        intros [= ->]. right. right. reflexivity.
      * intros [= ->]. right. left. reflexivity.
  - simpl fst. simpl snd.
    split; [reflexivity|]. split; [reflexivity|]. split; [reflexivity|].
    split; [intros r Hr; discriminate Hr|]. split.
    + intros rew Hrew. discriminate Hrew.
    + intros e [= ->]. left. reflexivity.
Qed.

(** X28: an action that the bridge rejects while the game stays as it
    was. When the answer is not an accepted snapshot, [step] fetches the
    snapshot and the legal actions again and stores them; if the snapshot
    is the one that was stored, the episode's reward is unchanged and,
    whenever [step] returns, it returns reward 0.0 and reports no error in
    info (the error text of the answer is dropped). It returns whenever
    the snapshot can be featurized and the fetched legal actions expanded
    into a mask; what it raises otherwise is the exception of [_get_obs]
    or of [_get_info]. *)
Theorem step_rejected_action_unpenalised (client : BalatroClient) (env : Env)
    (action : Z) (a : ActionRequest) (res : ActionResult) (s : GameState)
    (l : LegalActions) :
  decode_action action = Ok a ->
  execute_action client a = Ok res ->
  ok res && bool_decide (is_Some (result_state res)) = false ->
  _current_state env = Some s ->
  get_state client = Ok s ->
  get_legal_actions client = Ok l ->
  let env' := fst (step client env action) in
  let out := snd (step client env action) in
  _current_state env' = Some s
  /\ _current_legal env' = Some l
  /\ _step_count env' = _step_count env + 1
  /\ _episode_reward env' = (_episode_reward env + 0)%float
  /\ (forall r, out = Ok r ->
        reward r = 0%float
        /\ tokenize_state s = Ok (observation r)
        /\ info_error (info r) = None
        /\ exists mask,
             get_legal_action_mask l (Z.of_nat (length (hand s))) = Ok mask
             /\ action_mask (info r) = Some mask)
  /\ (observable (set_current_legal env (Some l)) = true -> exists r, out = Ok r)
  /\ (forall e, out = Raise e ->
        _get_obs env' = Raise e \/ _get_info env' = Raise e).
Proof.
  intros Hdec Hexec Hrej Hs Hstate Hlegal.
  unfold step. rewrite Hdec. unfold submit. rewrite Hexec, Hrej, Hstate, Hlegal.
  cbv iota beta zeta.
  simpl (_current_state _). cbv iota beta. rewrite Hs, compute_reward_same.
  set (env3 := set_episode_reward _ _). simpl fst. simpl snd.
  split; [reflexivity|]. split; [reflexivity|]. split; [reflexivity|].
  split; [reflexivity|]. split; [|split].
  - intros r Hr.
    apply bind_inv_Ok in Hr as (obs & Ho & Hr).
    apply bind_inv_Ok in Hr as (i & Hi & Hr). injection Hr as <-. simpl.
    split; [reflexivity|].
    split; [exact (get_obs_stored env3 s obs eq_refl Ho)|].
    split; [apply (get_info_fields env3 i Hi)|].
    destruct (get_info_mask env3 i l Hi eq_refl) as (mask & Hm & Ha).
    exists mask. split; [exact Hm | exact Ha].
  - intros Hobs.
    assert (Hobs3 : observable env3 = true).
    { revert Hobs. unfold observable. simpl. rewrite Hs. auto. }
    destruct (get_obs_total env3 Hobs3) as (obs & Ho).
    destruct (get_info_total env3 Hobs3) as (i & Hi & _).
    rewrite Ho, bind_Ok, Hi, bind_Ok. eauto.
  - intros e. destruct (_get_obs env3) as [obs|e1]; simpl.
    + destruct (_get_info env3) as [i|e2]; simpl; [discriminate|].
      intros [= ->]. right. reflexivity.
    + intros [= ->]. left. reflexivity.
Qed.

End Adopt.

Lemma step_accepted_witness :
  let s := snapshot SHOP 4 1 None None in
  let s' := snapshot BLIND_SELECT 4 1 None None in
  let env := env_after_reset 100 s None in
  let res := mkActionResult true None (Some s') None in
  let env' := fst (step (H := sample_runtime) (accepting_client s') env 1) in
  let out := snd (step (H := sample_runtime) (accepting_client s') env 1) in
  _current_state env' = Some s'
  /\ _current_legal env' = result_legal res
  /\ _step_count env' = _step_count env + 1
  /\ (forall r, out = Ok r ->
        _compute_reward (_current_state env) s' = Ok (reward r)
        /\ tokenize_state (H := sample_runtime) s' = Ok (observation r)
        /\ info_error (info r) = None
        /\ (result_legal res = None -> action_mask (info r) = None)
        /\ (forall l, result_legal res = Some l ->
              exists mask,
                get_legal_action_mask l (Z.of_nat (length (hand s'))) = Ok mask
                /\ action_mask (info r) = Some mask))
  /\ (forall rew, _compute_reward (_current_state env) s' = Ok rew ->
        observable (H := sample_runtime)
          (set_current_legal (set_current_state env (Some s'))
                             (result_legal res)) = true ->
        exists r, out = Ok r)
  /\ (forall e, out = Raise e ->
        _compute_reward (_current_state env) s' = Raise e
        \/ _get_obs (H := sample_runtime) env' = Raise e
        \/ _get_info env' = Raise e).
Proof.
  cbv zeta.
  apply (step_accepted (H := sample_runtime)
           (accepting_client (snapshot BLIND_SELECT 4 1 None None))
           (env_after_reset 100 (snapshot SHOP 4 1 None None) None) 1
           (request SHOP_END ∅)
           (mkActionResult true None (Some (snapshot BLIND_SELECT 4 1 None None)) None)
           (snapshot BLIND_SELECT 4 1 None None)).
  - vm_compute. reflexivity.
  - reflexivity.
  - reflexivity.
  - reflexivity.
Defined.

Lemma step_rejected_action_unpenalised_witness :
  let s := snapshot SHOP 4 1 None None in
  let l := mkLegalActions "1.0.0" SHOP
             [ mkLegalAction (Enum SHOP_END) "Leave shop"
                 (mkActionParams None None None None None None None None) ]
             None in
  let client :=
    mkBalatroClient
      (fun _ => Ok (mkActionResult false (Some "cannot reroll") None None))
      (Ok s) (Ok l) in
  let env := env_after_reset 100 s (Some l) in
  let env' := fst (step (H := sample_runtime) client env 0) in
  let out := snd (step (H := sample_runtime) client env 0) in
  _current_state env' = Some s
  /\ _current_legal env' = Some l
  /\ _step_count env' = _step_count env + 1
  /\ _episode_reward env' = (_episode_reward env + 0)%float
  /\ (forall r, out = Ok r ->
        reward r = 0%float
        /\ tokenize_state (H := sample_runtime) s = Ok (observation r)
        /\ info_error (info r) = None
        /\ exists mask,
             get_legal_action_mask l (Z.of_nat (length (hand s))) = Ok mask
             /\ action_mask (info r) = Some mask)
  /\ (observable (H := sample_runtime) (set_current_legal env (Some l)) = true ->
      exists r, out = Ok r)
  /\ (forall e, out = Raise e ->
        _get_obs (H := sample_runtime) env' = Raise e \/ _get_info env' = Raise e).
Proof.
  cbv zeta.
  apply (step_rejected_action_unpenalised (H := sample_runtime) _ _ 0
           (request SHOP_REROLL ∅)
           (mkActionResult false (Some "cannot reroll") None None)).
  - vm_compute. reflexivity.
  - reflexivity.
  - reflexivity.
  - reflexivity.
  - reflexivity.
  - reflexivity.
Defined.
(** ** C7: the PLAY_HAND region of the mask *)




